(** * ivadomed: 2D segmentation dataset indexing, sample assembly and transforms

    A shallow embedding of
    - [ivadomed/loader/mri2d_segmentation_dataset.py]
      ([MRI2DSegmentationDataset]: [load_filenames], [prepare_indices],
      [__len__], [__getitem__]), and
    - [ivadomed/transforms.py] ([ROICrop2D.__call__], [DilateGT.__call__],
      [DilateGT.dilate_arr]),
    together with the Python primitives they rely on (list indexing with
    negative indices, [range], slices, [zip], [round]).

    Python integers are [Z]; array and tensor entries are rationals [Q]
    (the floats the two transforms round are quotients of small
    integers, which rationals render exactly); metadata records are
    finite maps from string keys; exceptions are an inductive type and
    every fallible operation returns a [result]. [np.int] and [np.float]
    are the aliases of [int] and [float] that numpy had when the code
    was written. *)

From Stdlib Require Import ZArith List String QArith Qround Lia Lqa Bool.
From stdpp Require Import gmap strings list.
From Equations Require Import Equations.

Import ListNotations.
Local Open Scope Z_scope.

(* ===================================================================== *)
(** ** Exceptions and the state-and-exception monad *)
(* ===================================================================== *)

(** The messages of the [RuntimeError]s: the three raised by
    [prepare_indices], and torch's refusals of a negative dimension and
    of an expansion to fewer dimensions. *)
Inductive runtime_msg :=
| MustBeOfLength2        (* "length_2D" and "stride_2D" must be of length 2. *)
| StrideOutOfRange       (* "stride_2D" must be greater than 0 and smaller or equal to "length_2D". *)
| LengthExceedsImage     (* "length_2D" must be smaller or equal to image dimensions. *)
| NegativeDimension      (* torch.zeros with a negative size *)
| FewerDimensions.       (* expand: fewer sizes than the tensor has dimensions *)

Inductive exn :=
| RuntimeError (msg : runtime_msg)
| IndexError
| ValueError
| TypeError
| AttributeError
| NameError (name : string).

Inductive result (A : Type) :=
| Ok (a : A)
| Raise (e : exn).
Arguments Ok {A} a.
Arguments Raise {A} e.

(** A computation over a mutable state [S] that may raise: the state
    reached so far survives an exception, as a Python object does. *)
Definition M (S A : Type) : Type := S -> result A * S.

Definition ret {S A} (a : A) : M S A := fun s => (Ok a, s).

Definition bind {S A B} (c : M S A) (k : A -> M S B) : M S B :=
  fun s => match c s with
           | (Ok a, s') => k a s'
           | (Raise e, s') => (Raise e, s')
           end.

Definition raise {S A} (e : exn) : M S A := fun s => (Raise e, s).

Definition get {S} : M S S := fun s => (Ok s, s).

Definition modify {S} (f : S -> S) : M S unit := fun s => (Ok tt, f s).

Definition lift {S A} (r : result A) : M S A := fun s => (r, s).

Declare Scope py_scope.
Delimit Scope py_scope with py.
Notation "'let*' x ':=' c 'in' k" := (bind c (fun x => k))
  (at level 10, x name, c at level 100, k at level 200) : py_scope.
Notation "'do*' c 'in' k" := (bind c (fun _ => k))
  (at level 10, c at level 100, k at level 200) : py_scope.
Local Open Scope py_scope.

(** [for x in l: body(x)] *)
Fixpoint for_each {S A} (l : list A) (body : A -> M S unit) : M S unit :=
  match l with
  | [] => ret tt
  | x :: l' => do* body x in for_each l' body
  end.

(** [[f(x) for x in l]] where [f] may raise. *)
Fixpoint map_result {A B} (f : A -> result B) (l : list A) : result (list B) :=
  match l with
  | [] => Ok []
  | x :: l' =>
      match f x with
      | Raise e => Raise e
      | Ok y => match map_result f l' with
                | Raise e => Raise e
                | Ok ys => Ok (y :: ys)
                end
      end
  end.

(* ===================================================================== *)
(** ** Python primitives *)
(* ===================================================================== *)

Definition len {A} (l : list A) : Z := Z.of_nat (List.length l).

(** [l[i]] on a list or tuple: negative indices count from the end,
    anything outside [-len, len) raises [IndexError]. *)
Definition py_index {A} (l : list A) (i : Z) : result A :=
  let j := if i <? 0 then i + len l else i in
  if j <? 0 then Raise IndexError
  else match nth_error l (Z.to_nat j) with
       | Some x => Ok x
       | None => Raise IndexError
       end.

(** [range(start, stop, step)] as the list of its items; a zero step
    raises [ValueError]. *)
Definition py_range (start stop step : Z) : result (list Z) :=
  if step =? 0 then Raise ValueError
  else
    let n := if 0 <? step then (stop - start + step - 1) / step
             else (start - stop - step - 1) / (- step) in
    Ok (List.map (fun k => start + Z.of_nat k * step) (seq 0 (Z.to_nat n))).

(** [zip(a, b, c)]: stops at the shortest argument. *)
Fixpoint zip3 {A B C} (a : list A) (b : list B) (c : list C) : list (A * B * C) :=
  match a, b, c with
  | x :: a', y :: b', z :: c' => (x, y, z) :: zip3 a' b' c'
  | _, _, _ => []
  end.

(** The bounds of a slice [lo:hi] against a sequence of length [n]:
    negative bounds count from the end and both are clipped to [0, n]. *)
Definition slice_bound (n i : Z) : Z :=
  if i <? 0 then Z.max 0 (i + n) else Z.min i n.

(** [l[lo:hi]]: never raises. *)
Definition py_slice {A} (lo hi : Z) (l : list A) : list A :=
  let a := slice_bound (len l) lo in
  let b := slice_bound (len l) hi in
  firstn (Z.to_nat (b - a)) (skipn (Z.to_nat a) l).

(* ===================================================================== *)
(** ** Data model *)
(* ===================================================================== *)

(** A 2D numpy array, row by row. *)
Definition array : Type := list (list Q).

(** [a.shape]: (rows, columns). *)
Definition shape (a : array) : list Z :=
  [len a; len (hd [] a)].

(** A torch tensor as the sample assembler meets it: a stacked
    (channel, x, y) tensor, or the 1-D label tensor of classification. *)
Inductive tensor :=
| Tensor3 (v : list (list (list Q)))
| Tensor1 (v : list Q).

(** Values stored in metadata records. *)
Inductive pyval :=
| VInt (z : Z)
| VInts (l : list Z)
| VStr (s : string).

#[global] Instance pyval_eq_dec : EqDecision pyval.
Proof. solve_decision. Defined.

(** One metadata record (a dict-like object with string keys). *)
Abbreviation md := (gmap string pyval).

(** The ground truth of a slice bundle with its metadata
    (['gt'] and ['gt_metadata']): absent, one array per label class, or
    per label class the per-rater arrays and the per-rater records. *)
Inductive ground_truth :=
| NoGt (gt_metadata : option (list md))
| SingleRater (gt : list array) (gt_metadata : option (list md))
| MultiRater (classes : list (list array * list md)).

(** [seg_pair_slice]: keys ['input'], ['gt'] / ['gt_metadata'],
    ['input_metadata']. *)
Record seg_pair_slice := {
  input : list array;
  gt : ground_truth;
  input_metadata : option (list md)
}.

(** [roi_pair_slice]: only ['gt'] and ['gt_metadata'] are read. *)
Record roi_pair_slice := {
  roi_gt : option (list array);
  roi_gt_metadata : option (list md)
}.

(** An element of [self.handlers], or of [self.indexes] without patching. *)
Definition item : Type := seg_pair_slice * roi_pair_slice.

(** The dict appended to [self.indexes] by [prepare_indices]. *)
Record coord := {
  x_min : Z;
  x_max : Z;
  y_min : Z;
  y_max : Z;
  handler_index : Z
}.

(** [self.indexes] holds whole items (no patching) or patch coordinates. *)
Inductive index_entry :=
| Slice (it : item)
| Patch (c : coord).

(** The sample returned by [__getitem__]. *)
Record data_dict := {
  dd_input : option tensor;
  dd_gt : option tensor;
  dd_roi : option tensor;
  dd_input_metadata : list md;
  dd_gt_metadata : list md;
  dd_roi_metadata : list md
}.

(** [self]: the attributes of [MRI2DSegmentationDataset] read or written
    by the methods below ([self.transform] and the imported helpers are
    the [Collaborators] further down). *)
Module Self.
Record t := mk {
  indexes : list index_entry;
  handlers : list item;
  length : list Z;
  stride : list Z;
  is_2d_patch : bool;
  slice_filter_fn : option (seg_pair_slice -> bool);
  slice_filter_roi : bool;
  roi_thr : Z;
  task : string;
  soft_gt : bool;
  is_input_dropout : bool
}.

Definition append_index (e : index_entry) (self : t) : t :=
  mk (indexes self ++ [e]) (handlers self) (length self) (stride self)
     (is_2d_patch self) (slice_filter_fn self) (slice_filter_roi self)
     (roi_thr self) (task self) (soft_gt self)
     (is_input_dropout self).

Definition append_handler (h : item) (self : t) : t :=
  mk (indexes self) (handlers self ++ [h]) (length self) (stride self)
     (is_2d_patch self) (slice_filter_fn self) (slice_filter_roi self)
     (roi_thr self) (task self) (soft_gt self)
     (is_input_dropout self).
End Self.

(** [__init__]: the state of a fresh dataset. [is_2d_patch] is the
    truthiness of [self.length]. *)
Definition init (length stride : option (list Z))
    (slice_filter_fn : option (seg_pair_slice -> bool))
    (task : string) (roi_suffix : bool) (roi_thr : option Z)
    (soft_gt is_input_dropout : bool) : Self.t :=
  let length := match length with None => [] | Some l => l end in
  let stride := match stride with None => [] | Some l => l end in
  Self.mk [] [] length stride
    (match length with [] => false | _ => true end)
    slice_filter_fn
    (roi_suffix && match roi_thr with Some _ => true | None => false end)
    (match roi_thr with Some z => z | None => 0 end)
    task soft_gt is_input_dropout.

(* ===================================================================== *)
(** ** [prepare_indices] *)
(* ===================================================================== *)

(** Body of [for length, stride, size in zip(self.length, self.stride, shape)]. *)
Definition check_axis (lss : Z * Z * Z) : M Self.t unit :=
  let '(length, stride, size) := lss in
  if (stride >? length) || (stride <=? 0) then raise (RuntimeError StrideOutOfRange)
  else if length >? size then raise (RuntimeError LengthExceedsImage)
  else ret tt.

(** Body of the innermost loop: clamp [y], append the patch. *)
Definition emit_patch (i : Z) (shape : list Z) (x y : Z) : M Self.t unit :=
  let* self := get in
  let* length1 := lift (py_index (Self.length self) 1) in
  let* shape1 := lift (py_index shape 1) in
  let y := if y + length1 >? shape1 then shape1 - length1 else y in
  let* length0 := lift (py_index (Self.length self) 0) in
  modify (Self.append_index
            (Patch {| x_min := x; x_max := x + length0;
                      y_min := y; y_max := y + length1;
                      handler_index := i |})).

(** Body of [for x in range(...)]: clamp [x], run the [y] loop. *)
Definition emit_row (i : Z) (shape : list Z) (x : Z) : M Self.t unit :=
  let* self := get in
  let* length0 := lift (py_index (Self.length self) 0) in
  let* shape0 := lift (py_index shape 0) in
  let x := if x + length0 >? shape0 then shape0 - length0 else x in
  let* shape1 := lift (py_index shape 1) in
  let* length1 := lift (py_index (Self.length self) 1) in
  let* stride1 := lift (py_index (Self.stride self) 1) in
  let* ys := lift (py_range 0 (shape1 - length1 + stride1) stride1) in
  for_each ys (emit_patch i shape x).

(** Body of [for i in range(0, len(self.handlers))]. *)
Definition prepare_handler (i : Z) : M Self.t unit :=
  let* self := get in
  let* h := lift (py_index (Self.handlers self) i) in
  let input_img := input (fst h) in
  let* a0 := lift (py_index input_img 0) in
  let shape := shape a0 in
  do* (if negb (len (Self.length self) =? 2) || negb (len (Self.stride self) =? 2)
       then raise (RuntimeError MustBeOfLength2) else ret tt) in
  do* for_each (zip3 (Self.length self) (Self.stride self) shape) check_axis in
  let* shape0 := lift (py_index shape 0) in
  let* length0 := lift (py_index (Self.length self) 0) in
  let* stride0 := lift (py_index (Self.stride self) 0) in
  let* xs := lift (py_range 0 (shape0 - length0 + stride0) stride0) in
  for_each xs (emit_row i shape).

(** [prepare_indices]: stores the coordinates of the 2D patches. *)
Definition prepare_indices : M Self.t unit :=
  let* self := get in
  let* handler_ids := lift (py_range 0 (len (Self.handlers self)) 1) in
  for_each handler_ids prepare_handler.

(** [__len__] *)
Definition __len__ (self : Self.t) : Z := len (Self.indexes self).

(** [torch.from_numpy(a).expand(1)]: [expand] wants at least as many
    sizes as the tensor has dimensions, and an array has two. *)
Definition from_numpy_expand (a : array) : result tensor :=
  Raise (RuntimeError FewerDimensions).

(* ===================================================================== *)
(** ** External collaborators of the loader *)
(* ===================================================================== *)

(** Callables the dataset receives or imports and whose code is outside
    this development: the transform pipeline ([self.transform], called as
    [transform(sample=..., metadata=..., data_type=...)]), the ROI filter,
    thresholding and the input dropout. Every statement below holds for
    all of them. *)
Class Collaborators := {
  transform : option (list array) -> list md -> string -> option tensor * list md;
  filter_roi : option (list array) -> Z -> bool;
  threshold_predictions : tensor -> Q -> tensor;
  astype_uint8 : tensor -> tensor;
  dropout_input : data_dict -> data_dict
}.

(** Modelled from the spec: [imed_loader_utils.update_metadata]
    (ivadomed/loader/tools/utils.py is not among the sources). The spec
    says of it: merge the source metadata into the destination metadata,
    source-defined keys override, others are preserved from the
    destination. Both arguments are ordered lists of per-channel records;
    the merge is taken record by record and destination records without a
    source counterpart are kept as they are. *)
Fixpoint update_metadata (metadata_src_lst metadata_dest_lst : list md) : list md :=
  match metadata_src_lst, metadata_dest_lst with
  | src :: srcs, dest :: dests => (src ∪ dest) :: update_metadata srcs dests
  | _, dests => dests
  end.

(* ===================================================================== *)
(** ** [load_filenames] *)
(* ===================================================================== *)

(** The names bound at module level of [transforms.py]: its imports
    and its three definitions. *)
Definition module_globals : list string :=
  ["random"; "np"; "Image"; "F"; "label"; "center_of_mass";
   "binary_dilation"; "binary_fill_holes"; "binary_closing";
   "generate_binary_structure"; "mt_transforms";
   "get_transform_names"; "ROICrop2D"; "DilateGT"].

(** [imed_transforms.name]: the attribute [name] of the module
    [ivadomed/transforms.py], imported as [imed_transforms]. *)
Definition module_attribute (name : string) : result unit :=
  if existsb (String.eqb name) module_globals then Ok tt
  else Raise AttributeError.

(** What the volume decoder and the preprocessing yield for one slice
    index of one filename pair: [seg_pair.get_pair_slice(idx, gt_type=task)],
    [roi_pair.get_pair_slice(idx, gt_type="segmentation")] and the item
    that preprocessing the two is to give. (The bounding-box bookkeeping
    of the loop only feeds the preprocessing and is part of that item.) *)
Record loaded_slice := {
  slice_seg_pair : seg_pair_slice;
  slice_roi_pair : roi_pair_slice;
  preprocessed : item
}.

(** [imed_transforms.apply_preprocessing_transforms(self.prepro_transforms,
    slice_seg_pair, slice_roi_pair)]: the function is first looked up in
    the module. *)
Definition apply_preprocessing_transforms (sl : loaded_slice) : result item :=
  match module_attribute "apply_preprocessing_transforms" with
  | Raise e => Raise e
  | Ok _ => Ok (preprocessed sl)
  end.

(** [for metadata in item[0]['input_metadata']:
       metadata['index_shape'] = item[0]['input'][0].shape] *)
Definition tag_index_shape (it : item) : result item :=
  match input_metadata (fst it) with
  | None => Raise TypeError
  | Some mds =>
      match map_result
              (fun metadata : md =>
                 match py_index (input (fst it)) 0 with
                 | Raise e => Raise e
                 | Ok a0 => Ok (<["index_shape" := VInts (shape a0)]> metadata)
                 end) mds with
      | Raise e => Raise e
      | Ok mds' =>
          Ok ({| input := input (fst it); gt := gt (fst it);
                 input_metadata := Some mds' |}, snd it)
      end
  end.

Section Loader.
Context `{Collaborators}.

(** Body of [for idx_pair_slice in range(input_data_shape[-1])]. *)
Definition load_slice (sl : loaded_slice) : M Self.t unit :=
  let* self := get in
  if match Self.slice_filter_fn self with
     | Some f => negb (f (slice_seg_pair sl))
     | None => false
     end
  then ret tt                                                   (* continue *)
  else if Self.slice_filter_roi self
          && filter_roi (roi_gt (slice_roi_pair sl)) (Self.roi_thr self)
  then ret tt                                                   (* continue *)
  else
    let* it := lift (apply_preprocessing_transforms sl) in
    if Self.is_2d_patch self then
      let* it' := lift (tag_index_shape it) in
      modify (Self.append_handler it')
    else
      modify (Self.append_index (Slice it)).

(** [load_filenames]: each filename pair is given by the slices its
    volume decodes to. *)
Definition load_filenames (filename_pairs : list (list loaded_slice)) : M Self.t unit :=
  do* for_each filename_pairs (fun slices => for_each slices load_slice) in
  let* self := get in
  if Self.is_2d_patch self then prepare_indices else ret tt.

(* =================================================================== *)
(** ** [__getitem__] *)
(* =================================================================== *)

(** Calls a fetch makes to the random module and to its collaborators,
    in program order. *)
Inductive event :=
| RandInt (a b : Z) (drawn : Z)
| Transform (sample : option (list array)) (metadata : list md) (data_type : string)
| UpdateMetadata (metadata_src_lst metadata_dest_lst : list md).

(** What a fetch may change besides its own copies: the random
    generator (a stream of raw draws and a cursor) and the call log. *)
Record world := {
  entropy : nat -> Z;
  cursor : nat;
  calls : list event
}.

Definition log (e : event) : M world unit :=
  modify (fun w => {| entropy := entropy w; cursor := cursor w;
                      calls := calls w ++ [e] |}).

(** [random.randint(a, b)]: an integer N with a <= N <= b, taken from
    the next raw draw; [ValueError] on an empty range. *)
Definition randint (a b : Z) : M world Z :=
  if b <? a then raise ValueError
  else
    let* w := get in
    let drawn := a + (entropy w (cursor w)) mod (b - a + 1) in
    do* modify (fun w => {| entropy := entropy w; cursor := S (cursor w);
                            calls := calls w |}) in
    do* log (RandInt a b drawn) in
    ret drawn.

Definition call_transform (sample : option (list array)) (metadata : list md)
    (data_type : string) : M world (option tensor * list md) :=
  do* log (Transform sample metadata data_type) in
  ret (transform sample metadata data_type).

Definition call_update_metadata (src dest : list md) : M world (list md) :=
  do* log (UpdateMetadata src dest) in
  ret (update_metadata src dest).

(** [gt[idx_class][idx_rater]], then [gt_metadata[idx_class][idx_rater]],
    for one label class. *)
Definition pick_class (idx_rater : Z) (class : list array * list md) : result (array * md) :=
  match py_index (fst class) idx_rater with
  | Raise e => Raise e
  | Ok a =>
      match py_index (snd class) idx_rater with
      | Raise e => Raise e
      | Ok m => Ok (a, m)
      end
  end.

(** The multi-rater block: returns [seg_pair_slice['gt']] and
    [seg_pair_slice['gt_metadata']] as they stand after it. Each class
    entry is replaced in place by its [idx_rater] element, the array
    first and the metadata record second. *)
Definition pick_rater (g : ground_truth)
  : M world (option (list array) * option (list md)) :=
  match g with
  | NoGt gt_metadata => ret (None, gt_metadata)
  | SingleRater gt gt_metadata =>
      do* lift (py_index gt 0) in                 (* isinstance(gt[0], list) *)
      ret (Some gt, gt_metadata)
  | MultiRater classes =>
      let* class0 := lift (py_index classes 0) in
      let* idx_rater := randint 0 (len (fst class0) - 1) in
      let* picked := lift (map_result (pick_class idx_rater) classes) in
      ret (Some (List.map fst picked), Some (List.map snd picked))
  end.

(** [t.shape[0]] and [len(t)] of a tensor. *)
Definition shape0 (t : tensor) : Z :=
  match t with
  | Tensor3 v => len v
  | Tensor1 v => len v
  end.

(** [torch.zeros(c, h, w)]; a negative dimension is refused. *)
Definition torch_zeros (c h w : Z) : result tensor :=
  if (c <? 0) || (h <? 0) || (w <? 0) then Raise (RuntimeError NegativeDimension)
  else Ok (Tensor3 (repeat (repeat (repeat (0 : Q) (Z.to_nat w)) (Z.to_nat h))
                           (Z.to_nat c))).

(** [torch.zeros(stack.shape[0], shape_x, shape_y) if stack is not None else None] *)
Definition zeros_for (stack : option tensor) (shape_x shape_y : Z) : result (option tensor) :=
  match stack with
  | None => Ok None
  | Some t => match torch_zeros (shape0 t) shape_x shape_y with
              | Raise e => Raise e
              | Ok z => Ok (Some z)
              end
  end.

(** The window of a patch record cut out of every plane of a stack. *)
Definition window_of (c : coord) (v : list (list (list Q))) : list (list (list Q)) :=
  List.map (fun plane => List.map (py_slice (y_min c) (y_max c))
                                  (py_slice (x_min c) (x_max c) plane)) v.

(** [t[:, x_min:x_max, y_min:y_max]]: slices clip to the tensor and
    never raise; three indices on a 1-D tensor raise [IndexError]. *)
Definition crop_window (t : tensor) (c : coord) : result tensor :=
  match t with
  | Tensor3 v => Ok (Tensor3 (window_of c v))
  | Tensor1 _ => Raise IndexError
  end.

(** [for _ in range(n): target = rhs], starting from [current]. *)
Fixpoint assign_each {A} (n : nat) (rhs : result A) (current : A) : result A :=
  match n with
  | O => Ok current
  | S n' =>
      match rhs with
      | Raise e => Raise e
      | Ok v => assign_each n' rhs v
      end
  end.

(** [for _ in range(len(stack)): data_dict[key] = stack[:, x_min:x_max, y_min:y_max]] *)
Definition crop_each (stack : tensor) (c : coord) (current : tensor) : result tensor :=
  match py_range 0 (shape0 stack) 1 with
  | Raise e => Raise e
  | Ok channels => assign_each (List.length channels) (crop_window stack c) current
  end.

(** The same under [if stack is not None]. *)
Definition crop_each_opt (stack : option tensor) (c : coord) (current : option tensor)
  : result (option tensor) :=
  match stack, current with
  | Some t, Some z => match crop_each t c z with
                      | Raise e => Raise e
                      | Ok t' => Ok (Some t')
                      end
  | _, _ => Ok current
  end.

Definition or_empty (m : option (list md)) : list md :=
  match m with Some l => l | None => [] end.

(** Resolution of the entry: the patch coordinates, if patching, and a
    deep copy of the handler or item. *)
Definition resolve (self : Self.t) (index : Z) : result (option coord * item) :=
  match py_index (Self.indexes self) index with
  | Raise e => Raise e
  | Ok entry =>
      if Self.is_2d_patch self then
        match entry with
        | Patch coord =>
            match py_index (Self.handlers self) (handler_index coord) with
            | Raise e => Raise e
            | Ok h => Ok (Some coord, h)
            end
        | Slice _ => Raise TypeError      (* coord['handler_index'] on a tuple *)
        end
      else
        match entry with
        | Slice it => Ok (None, it)
        | Patch _ => Raise ValueError     (* unpacking a dict of five keys *)
        end
  end.

(** The ground-truth stack: transformed and, unless soft, binarized
    for segmentation; the raw label for any other task. *)
Definition gt_stack (self : Self.t) (seg_gt : option (list array)) (metadata_gt : list md)
  : M world (option tensor * list md) :=
  if String.eqb (Self.task self) "segmentation" then
    let* r := call_transform seg_gt metadata_gt "gt" in
    let stack_gt :=
      match fst r with
      | Some t =>
          if negb (Self.soft_gt self)
          then Some (astype_uint8 (threshold_predictions t (1 # 2)))
          else Some t
      | None => None
      end in
    ret (stack_gt, snd r)
  else
    match seg_gt with
    | None => raise TypeError
    | Some gt =>
        let* label := lift (py_index gt 0) in
        let* stack_gt := lift (from_numpy_expand label) in
        ret (Some stack_gt, metadata_gt)
    end.

(** The last steps of [__getitem__] before the dropout: with patch
    coordinates, the coordinates are written to every input metadata
    record, the dict of zero tensors is built and each stack is
    overwritten by its window; without, the stacks pass through. *)
Definition assemble (coord : option coord)
    (stack_input stack_gt stack_roi : option tensor)
    (metadata_input metadata_gt metadata_roi : list md) : result data_dict :=
  match coord with
  | Some coord =>
      let shape_x := x_max coord - x_min coord in
      let shape_y := y_max coord - y_min coord in
      let metadata_input :=
        List.map (fun metadata : md =>
                    <["coord" := VInts [x_min coord; x_max coord;
                                        y_min coord; y_max coord]]> metadata)
                 metadata_input in
      match stack_input with
      | None => Raise AttributeError            (* stack_input.shape *)
      | Some stack_input =>
        match torch_zeros (shape0 stack_input) shape_x shape_y with
        | Raise e => Raise e
        | Ok zeros_input =>
          match zeros_for stack_gt shape_x shape_y with
          | Raise e => Raise e
          | Ok zeros_gt =>
            match zeros_for stack_roi shape_x shape_y with
            | Raise e => Raise e
            | Ok zeros_roi =>
              match crop_each stack_input coord zeros_input with
              | Raise e => Raise e
              | Ok patch_input =>
                match crop_each_opt stack_gt coord zeros_gt with
                | Raise e => Raise e
                | Ok patch_gt =>
                  match crop_each_opt stack_roi coord zeros_roi with
                  | Raise e => Raise e
                  | Ok patch_roi =>
                      Ok {| dd_input := Some patch_input; dd_gt := patch_gt;
                            dd_roi := patch_roi;
                            dd_input_metadata := metadata_input;
                            dd_gt_metadata := metadata_gt;
                            dd_roi_metadata := metadata_roi |}
                  end
                end
              end
            end
          end
        end
      end
  | None =>
      Ok {| dd_input := stack_input; dd_gt := stack_gt; dd_roi := stack_roi;
            dd_input_metadata := metadata_input;
            dd_gt_metadata := metadata_gt;
            dd_roi_metadata := metadata_roi |}
  end.

(** [__getitem__] *)
Definition __getitem__ (self : Self.t) (index : Z) : M world data_dict :=
  let* entry := lift (resolve self index) in
  let coord := fst entry in
  let seg_pair_slice := fst (snd entry) in
  let roi_pair_slice := snd (snd entry) in
  let* picked := pick_rater (gt seg_pair_slice) in
  let metadata_input := or_empty (input_metadata seg_pair_slice) in
  let metadata_roi := or_empty (roi_gt_metadata roi_pair_slice) in
  let metadata_gt := or_empty (snd picked) in
  let* r_roi := call_transform (roi_gt roi_pair_slice) metadata_roi "roi" in
  let stack_roi := fst r_roi in
  let metadata_roi := snd r_roi in
  let* metadata_input := call_update_metadata metadata_roi metadata_input in
  let* r_input := call_transform (Some (input seg_pair_slice)) metadata_input "im" in
  let stack_input := fst r_input in
  let metadata_input := snd r_input in
  let* metadata_gt := call_update_metadata metadata_input metadata_gt in
  let* r_gt := gt_stack self (fst picked) metadata_gt in
  let stack_gt := fst r_gt in
  let metadata_gt := snd r_gt in
  let* data_dict :=
    lift (assemble coord stack_input stack_gt stack_roi
                   metadata_input metadata_gt metadata_roi) in
  if Self.is_input_dropout self then ret (dropout_input data_dict) else ret data_dict.
End Loader.

(* ===================================================================== *)
(** ** [ivadomed/transforms.py] *)
(* ===================================================================== *)

(** The sample dict handed to a transform; images are held row by row. *)
Record Sample := {
  s_input : array;
  s_roi : array;
  s_gt : array;
  s_input_metadata : md;
  s_gt_metadata : md
}.

(** Library functions the two transforms call and whose results are
    taken as given: medicaltorch's [propagate_params], scipy's [label]
    and binary morphology, [math.sqrt], and the two draws of the
    [random] module made by [random_holes]. *)
Class Libraries := {
  propagate_params : Sample -> Z * Z * Z * Z -> Sample;
  label : list (list Z) -> list (list Z) * Z;
  binary_dilation : list (list Z) -> list (list bool);
  binary_closing : list (list bool) -> list (list bool);
  binary_fill_holes : list (list bool) -> list (list bool);
  math_sqrt : Q -> Q;
  random_random : Q;
  random_sample : list Z -> Z -> list Z
}.

(** [int(round(x))]: Python 3 rounds halves to the even neighbour. *)
Definition py_round (x : Q) : Z :=
  let f := Qfloor x in
  match Qcompare (x - inject_Z f) (1 # 2) with
  | Lt => f
  | Gt => f + 1
  | Eq => if Z.even f then f else f + 1
  end.

(** [.astype(np.int)]: truncation towards zero. *)
Definition trunc (x : Q) : Z := Z.quot (Qnum x) (Zpos (Qden x)).

Definition astype_int (a : array) : list (list Z) := List.map (List.map trunc) a.

Definition astype_float (a : list (list Z)) : array := List.map (List.map inject_Z) a.

(** [img.size] of a PIL image: (width, height). *)
Definition image_size (img : array) : Z * Z := (len (hd [] img), len img).

(** The value of an image at row [r], column [c]; 0 outside the image. *)
Definition pixel (img : array) (r c : Z) : Q :=
  if (r <? 0) || (c <? 0) then 0%Q
  else nth (Z.to_nat c) (nth (Z.to_nat r) img []) 0%Q.

(** [F.crop(img, i, j, h, w)], that is [img.crop((j, i, j + w, i + h))]:
    the [h] x [w] window whose top-left corner is row [i], column [j];
    the part of the window outside the image is filled with zeros. *)
Definition F_crop (img : array) (i j h w : Z) : array :=
  List.map (fun r => List.map (fun c => pixel img (i + Z.of_nat r) (j + Z.of_nat c))
                              (seq 0 (Z.to_nat w)))
           (seq 0 (Z.to_nat h)).

Definition sum_Z (l : list Z) : Z := fold_right Z.add 0 l.
Definition sum_Q (l : list Q) : Q := fold_right Qplus 0%Q l.

(** Sum over the entries of an array weighted by [weight row column]. *)
Definition weighted_sum (weight : Z -> Z -> Z) (a : list (list Z)) : Z :=
  sum_Z (imap (fun r row => sum_Z (imap (fun c v => weight (Z.of_nat r) (Z.of_nat c) * v) row)) a).

(** [center_of_mass(a)] of a 2D array: (row, column) coordinates. With a
    zero total scipy yields nan, on which [int(round(.))] raises
    [ValueError]; that error is reported here. *)
Definition center_of_mass (a : list (list Z)) : result (Q * Q) :=
  let total := weighted_sum (fun _ _ => 1) a in
  if total =? 0 then Raise ValueError
  else Ok (inject_Z (weighted_sum (fun r _ => r) a) / inject_Z total,
           inject_Z (weighted_sum (fun _ c => c) a) / inject_Z total)%Q.

(** An [ROICrop2D] object: [self.size] is (th, tw). *)
Module ROICrop2D.
Record t := mk {
  size : Z * Z;
  labeled : bool
}.
End ROICrop2D.

Section Transforms.
Context `{Libraries}.

(** [ROICrop2D.__call__] *)
Definition ROICrop2D_call (self : ROICrop2D.t) (sample : Sample) : result Sample :=
  let input_data := s_input sample in
  let roi_data := s_roi sample in
  let w := fst (image_size input_data) in
  let h := snd (image_size input_data) in
  let th := fst (ROICrop2D.size self) in
  let tw := snd (ROICrop2D.size self) in
  let th_half := py_round (inject_Z th / 2) in
  let tw_half := py_round (inject_Z tw / 2) in
  match center_of_mass (astype_int roi_data) with
  | Raise e => Raise e
  | Ok com =>
      let x_roi := py_round (fst com) in
      let y_roi := py_round (snd com) in
      let fh := y_roi - th_half in
      let fw := x_roi - tw_half in
      let params := (fh, fw, w, h) in
      let sample := propagate_params sample params in
      let input_data := F_crop input_data fh fw th tw in
      if ROICrop2D.labeled self then
        let gt_data := s_gt sample in
        let gt_metadata := s_gt_metadata sample in
        let gt_data := F_crop input_data fh fw th tw in
        let gt_metadata := <["__centercrop" := VInts [fh; fw; w; h]]> gt_metadata in
        Ok {| s_input := input_data; s_roi := s_roi sample; s_gt := gt_data;
              s_input_metadata := s_input_metadata sample;
              s_gt_metadata := gt_metadata |}
      else
        Ok {| s_input := input_data; s_roi := s_roi sample; s_gt := s_gt sample;
              s_input_metadata := s_input_metadata sample;
              s_gt_metadata := s_gt_metadata sample |}
  end.

(** The crop window [ROICrop2D.__call__] computes: (fh, fw, th, tw). *)
Definition ROICrop2D_window (self : ROICrop2D.t) (sample : Sample) : result (Z * Z * Z * Z) :=
  match center_of_mass (astype_int (s_roi sample)) with
  | Raise e => Raise e
  | Ok com =>
      Ok (py_round (snd com) - py_round (inject_Z (fst (ROICrop2D.size self)) / 2),
          py_round (fst com) - py_round (inject_Z (snd (ROICrop2D.size self)) / 2),
          fst (ROICrop2D.size self), snd (ROICrop2D.size self))
  end.
End Transforms.

(** Evaluation of a global name inside a method of the module. *)
Definition global_name (name : string) : result unit :=
  if existsb (String.eqb name) module_globals then Ok tt
  else Raise (NameError name).

(** A [DilateGT] object. *)
Module DilateGT.
Record t := mk {
  dil_factor : Q
}.
End DilateGT.

(** Element-wise operations on arrays of one shape. *)
Fixpoint map2 {A B C} (f : A -> B -> C) (a : list A) (b : list B) : list C :=
  match a, b with
  | x :: a', y :: b' => f x y :: map2 f a' b'
  | _, _ => []
  end.

Definition array_map2 {A B C} (f : A -> B -> C)
    (a : list (list A)) (b : list (list B)) : list (list C) :=
  map2 (map2 f) a b.

Definition positive_mask (a : array) : list (list Z) :=
  List.map (List.map (fun v => if Qle_bool v 0 then 0 else 1)) a.

Definition nonzero_Z (v : Z) : bool := negb (v =? 0).
Definition nonzero_Q (v : Q) : bool := negb (Qeq_bool v 0).

(** [np.sum(a)] *)
Definition np_sum_Z (a : list (list Z)) : Z := sum_Z (List.map sum_Z a).
Definition np_sum_Q (a : array) : Q := sum_Q (List.map sum_Q a).

(** A numpy value as [dilate_arr] builds it: a 2-D array, or the 0-d
    value that [np.sum] returns for an empty list of arrays. *)
Inductive ndarray (A : Type) :=
| Array0 (x : A)
| Array2 (a : list (list A)).
Arguments Array0 {A} x.
Arguments Array2 {A} a.

(** An element-wise function on either kind ([np.clip], [astype]). *)
Definition nd_map {A B} (f : A -> B) (a : ndarray A) : ndarray B :=
  match a with
  | Array0 x => Array0 (f x)
  | Array2 a => Array2 (List.map (List.map f) a)
  end.

(** [np.sum(np.array(lst), axis=0)]: the element-wise sum of the arrays
    of the list; for an empty list, the 0-d value 0.0. *)
Definition sum_axis0 {A} (zero : A) (add : A -> A -> A) (lst : list (list (list A)))
  : ndarray A :=
  match lst with
  | [] => Array0 zero
  | a :: rest => Array2 (fold_left (array_map2 add) rest a)
  end.

Definition clip_Z (lo hi v : Z) : Z := Z.min hi (Z.max lo v).
Definition clip_Q (lo hi v : Q) : Q :=
  if Qle_bool v lo then lo else if Qle_bool hi v then hi else v.

Section Dilation.
Context `{Libraries}.

(** [DilateGT.dilate_lesion] *)
Fixpoint dilate_lesion (arr_bin : list (list Z)) (arr_soft : array)
    (label_values : list Q) : list (list Z) * array :=
  match label_values with
  | [] => (arr_bin, arr_soft)
  | lb :: rest =>
      let arr_dilated := binary_dilation arr_bin in
      let new_voxels :=
        array_map2 (fun d b => if xorb d (nonzero_Z b) then 1 else 0) arr_dilated arr_bin in
      let soft_new_voxels := List.map (List.map (fun v => lb * inject_Z v)%Q) new_voxels in
      let arr_soft := array_map2 Qplus arr_soft soft_new_voxels in
      let arr_bin := positive_mask arr_soft in
      dilate_lesion arr_bin arr_soft rest
  end.

(** Body of [for obj_idx in range(1, lb_nb+1)] in [dilate_arr]; the two
    lists are the accumulators [arr_bin_lst] and [arr_soft_lst]. *)
Definition dilate_object (arr_labeled : list (list Z)) (dil_factor : Q)
    (lsts : list (list (list Z)) * list array) (obj_idx : Z)
  : result (list (list (list Z)) * list array) :=
  let arr_bin_obj :=
    List.map (List.map (fun v => if v =? obj_idx then 1 else 0)) arr_labeled in
  let arr_soft_obj := astype_float arr_bin_obj in
  match global_name "math" with
  | Raise e => Raise e
  | Ok _ =>
      let nb_it := py_round (dil_factor * math_sqrt (inject_Z (np_sum_Z arr_bin_obj))) in
      match py_range nb_it 0 (-1) with
      | Raise e => Raise e
      | Ok xs =>
          let soft_label_values :=
            List.map (fun x => inject_Z x / inject_Z (nb_it + 1))%Q xs in
          let dil := dilate_lesion arr_bin_obj arr_soft_obj soft_label_values in
          Ok (fst lsts ++ [fst dil], snd lsts ++ [snd dil])
      end
  end.

Fixpoint fold_result {A B} (f : A -> B -> result A) (l : list B) (a : A) : result A :=
  match l with
  | [] => Ok a
  | x :: l' => match f a x with
               | Raise e => Raise e
               | Ok a' => fold_result f l' a'
               end
  end.

(** [DilateGT.dilate_arr]: returns (soft array, binary array). *)
Definition dilate_arr (arr : array) (dil_factor : Q) : result (ndarray Q * ndarray Z) :=
  let labelled := label (astype_int arr) in
  let arr_labeled := fst labelled in
  let lb_nb := snd labelled in
  match py_range 1 (lb_nb + 1) 1 with
  | Raise e => Raise e
  | Ok obj_ids =>
      match fold_result (dilate_object arr_labeled dil_factor) obj_ids ([], []) with
      | Raise e => Raise e
      | Ok lsts =>
          let arr_bin_idx := sum_axis0 0 Z.add (fst lsts) in
          let arr_soft_idx := sum_axis0 0%Q Qplus (snd lsts) in
          Ok (nd_map (clip_Q 0 1) arr_soft_idx, nd_map (clip_Z 0 1) arr_bin_idx)
      end
  end.

(** [arr[xx[idx], yy[idx]] = 0.0] for the listed positions. *)
Definition zero_at (positions : list (nat * nat)) (a : array) : array :=
  imap (fun r row =>
          imap (fun c v =>
                  if existsb (fun p => Nat.eqb (fst p) r && Nat.eqb (snd p) c) positions
                  then 0%Q else v) row) a.

(** [np.where(mask)]: the coordinates of the true entries, row by row. *)
Definition np_where (mask : list (list bool)) : list (nat * nat) :=
  List.concat (imap (fun r row =>
                       List.concat (imap (fun c (b : bool) => if b then [(r, c)] else []) row))
                    mask).

(** [np.logical_xor(arr_bin, arr_in)]; a 0-d [arr_bin] is broadcast
    over [arr_in]. *)
Definition logical_xor (arr_bin : ndarray Z) (arr_in : array) : list (list bool) :=
  match arr_bin with
  | Array0 b => List.map (List.map (fun v => xorb (nonzero_Z b) (nonzero_Q v))) arr_in
  | Array2 arr_bin => array_map2 (fun b v => xorb (nonzero_Z b) (nonzero_Q v)) arr_bin arr_in
  end.

(** [DilateGT.random_holes]. The assignment
    [arr_soft_out[xx[idx], yy[idx]] = 0.0] takes two indices, which a
    0-d array does not have. *)
Definition random_holes (arr_in : array) (arr_soft : ndarray Q) (arr_bin : ndarray Z)
  : result (array * list (list Z)) :=
  let arr_soft_out := arr_soft in
  let new_voxels := np_where (logical_xor arr_bin arr_in) in
  let nb_new_voxels := len new_voxels in
  let new_voxel_ratio := random_random in
  match py_range 0 nb_new_voxels 1 with
  | Raise e => Raise e
  | Ok population =>
      let idx_to_remove :=
        random_sample population
          (py_round (inject_Z nb_new_voxels * (1 - new_voxel_ratio))) in
      match map_result (py_index new_voxels) idx_to_remove with
      | Raise e => Raise e
      | Ok removed =>
          match arr_soft_out with
          | Array0 _ => Raise IndexError
          | Array2 arr_soft_out =>
              let arr_soft_out := zero_at removed arr_soft_out in
              Ok (arr_soft_out, positive_mask arr_soft_out)
          end
      end
  end.

(** Body of [for lb in range(1, lb_nb+1)] in [post_processing]. *)
Definition drop_unconnected (arr_labeled : list (list Z)) (connected_to_in : array)
    (arr_soft : array) (lb : Z) : array :=
  if np_sum_Z (List.map (List.map (fun v => if Qeq_bool v (inject_Z lb) then 1 else 0))
                        connected_to_in) =? 0
  then array_map2 (fun l v => if l =? lb then 0%Q else v) arr_labeled arr_soft
  else arr_soft.

(** [DilateGT.post_processing] *)
Definition post_processing (arr_in : array) (arr_soft : array)
    (arr_bin : list (list Z)) (arr_dil : ndarray Q) : result array :=
  let labelled := label arr_bin in
  let arr_labeled := fst labelled in
  let lb_nb := snd labelled in
  let connected_to_in :=
    array_map2 (fun l v => inject_Z l * v)%Q arr_labeled arr_in in
  match py_range 1 (lb_nb + 1) 1 with
  | Raise e => Raise e
  | Ok lbs =>
      let arr_soft := fold_left (drop_unconnected arr_labeled connected_to_in) lbs arr_soft in
      let arr_bin_closed :=
        binary_closing (List.map (List.map (fun v => negb (Qle_bool v 0))) arr_soft) in
      let arr_bin_filled := binary_fill_holes arr_bin_closed in
      Ok (match arr_dil with
          | Array0 x => List.map (List.map (fun b : bool => if b then x else 0%Q))
                                 arr_bin_filled
          | Array2 arr_dil =>
              array_map2 (fun (b : bool) v => if b then v else 0%Q) arr_bin_filled arr_dil
          end)
  end.

(** [DilateGT.__call__] *)
Definition DilateGT_call (self : DilateGT.t) (sample : Sample) : result Sample :=
  let gt_data := s_gt sample in
  let gt_data_np := gt_data in
  if negb (Qle_bool (DilateGT.dil_factor self) 0) && nonzero_Q (np_sum_Q gt_data) then
    match dilate_arr gt_data_np (DilateGT.dil_factor self) with
    | Raise e => Raise e
    | Ok dil =>
        let gt_dil := fst dil in
        let gt_dil_bin := snd dil in
        match random_holes gt_data_np gt_dil gt_dil_bin with
        | Raise e => Raise e
        | Ok holes =>
            match post_processing gt_data_np (fst holes) (snd holes) gt_dil with
            | Raise e => Raise e
            | Ok gt_pp =>
                Ok {| s_input := s_input sample; s_roi := s_roi sample; s_gt := gt_pp;
                      s_input_metadata := s_input_metadata sample;
                      s_gt_metadata := s_gt_metadata sample |}
            end
        end
    end
  else Ok sample.
End Dilation.

(* ===================================================================== *)
(** ** The tiling rule in the spec's words, and derived notions *)
(* ===================================================================== *)

(** The items of [range(start, stop, step)] for a positive step. *)
Definition range_items (start stop step : Z) : list Z :=
  List.map (fun k => start + Z.of_nat k * step)
           (seq 0 (Z.to_nat ((stop - start + step - 1) / step))).

(** "Generate candidate starts 0, S, 2S, ... while start < size-L+S":
    the candidates from [start] on, below [bound]. *)
Equations? spec_candidates (start bound step : Z) : list Z
  by wf (Z.to_nat (bound - start)) lt :=
  spec_candidates start bound step with Z_lt_dec 0 step, Z_lt_dec start bound := {
    | left _, left _ => start :: spec_candidates (start + step) bound step
    | _, _ => []
  }.
Proof. lia. Qed.

(** "Clamp any start for which start+L > size down to size-L". *)
Definition spec_clamp (size L start : Z) : Z :=
  if Z_lt_dec size (start + L) then size - L else start.

(** The per-axis start sequence of the spec. *)
Definition spec_starts (size L S : Z) : list Z :=
  List.map (spec_clamp size L) (spec_candidates 0 (size - L + S) S).

(** The record appended for the clamped starts [x], [y] of handler [i]. *)
Definition tile (i L0 L1 x y : Z) : index_entry :=
  Patch {| x_min := x; x_max := x + L0; y_min := y; y_max := y + L1;
           handler_index := i |}.

(** "One PatchRecord per pair of clamped (x, y) starts": the x-major
    Cartesian product of two start sequences. *)
Definition tiles (i L0 L1 : Z) (xs ys : list Z) : list index_entry :=
  flat_map (fun x => List.map (tile i L0 L1 x) ys) xs.

(** The array whose shape [prepare_indices] reads for a handler, and
    that shape's two components. *)
Definition first_input (h : item) : array := hd [] (input (fst h)).
Definition height (h : item) : Z := len (first_input h).
Definition width (h : item) : Z := len (hd [] (first_input h)).

(** The tiles of all handlers from position [i] on, in handler order. *)
Fixpoint all_tiles (i : nat) (L0 L1 S0 S1 : Z) (hs : list item) : list index_entry :=
  match hs with
  | [] => []
  | h :: hs' =>
      tiles (Z.of_nat i) L0 L1 (spec_starts (height h) L0 S0) (spec_starts (width h) L1 S1)
      ++ all_tiles (S i) L0 L1 S0 S1 hs'
  end.

(** The state after appending the entries [es] to [self.indexes]. *)
Definition extend_indexes (es : list index_entry) (self : Self.t) : Self.t :=
  Self.mk (Self.indexes self ++ es) (Self.handlers self) (Self.length self)
          (Self.stride self) (Self.is_2d_patch self) (Self.slice_filter_fn self)
          (Self.slice_filter_roi self) (Self.roi_thr self) (Self.task self)
          (Self.soft_gt self) (Self.is_input_dropout self).

(** The build preconditions on one axis: 0 < S <= L <= size. *)
Definition valid_axis (size L S : Z) : Prop := 0 < S /\ S <= L /\ L <= size.

Definition valid_handler (L0 L1 S0 S1 : Z) (h : item) : Prop :=
  valid_axis (height h) L0 S0 /\ valid_axis (width h) L1 S1.

(** The conditions under which the spec asks for a configuration error,
    for one handler: length or stride not 2-dimensional, or on some axis
    stride <= 0, stride > length, or length > shape. *)
Definition malformed (length stride : list Z) (h : item) : Prop :=
  len length <> 2 \/ len stride <> 2 \/
  exists k l s z,
    nth_error (zip3 length stride (shape (first_input h))) k = Some (l, s, z) /\
    (s <= 0 \/ s > l \/ l > z).

(** The decision procedure for [malformed]'s negation. *)
Definition axis_ok (lss : Z * Z * Z) : bool :=
  let '(l, s, z) := lss in
  negb ((s >? l) || (s <=? 0)) && negb (l >? z).

Definition config_ok (length stride : list Z) (h : item) : bool :=
  (len length =? 2) && (len stride =? 2)
  && forallb axis_ok (zip3 length stride (shape (first_input h))).

(** The spec's ConfigurationError: one of the three [RuntimeError]s of
    [prepare_indices]. *)
Definition ConfigurationError (e : exn) : Prop :=
  e = RuntimeError MustBeOfLength2 \/ e = RuntimeError StrideOutOfRange
  \/ e = RuntimeError LengthExceedsImage.

(** A slice passes both filters of [load_filenames]. *)
Definition accepted `{Collaborators} (self : Self.t) (sl : loaded_slice) : bool :=
  negb (match Self.slice_filter_fn self with
        | Some f => negb (f (slice_seg_pair sl))
        | None => false
        end)
  && negb (Self.slice_filter_roi self
           && filter_roi (roi_gt (slice_roi_pair sl)) (Self.roi_thr self)).

(** ** Notions used to state the properties *)

(** The invariant of the loops: the configuration and the handlers do
    not change while entries are appended. *)
Definition same_setup (length stride : list Z) (hs : list item) (s : Self.t) : Prop :=
  Self.length s = length /\ Self.stride s = stride /\ Self.handlers s = hs.

(** The window of a patch record lies inside the handler's shape. *)
Definition window_in (c : coord) (h : item) : Prop :=
  0 <= x_min c /\ x_max c <= height h /\ 0 <= y_min c /\ y_max c <= width h.

(** The window of a patch record contains the position (px, py). *)
Definition covers (c : coord) (px py : Z) : Prop :=
  x_min c <= px < x_max c /\ y_min c <= py < y_max c.

(** The override policy of a metadata merge: the result has one record
    per destination record; in each, a key defined by the source record
    of the same channel has the source's value, any other key has the
    destination's value. *)
Definition merge_overrides (merge : list md -> list md -> list md) : Prop :=
  forall src_lst dest_lst : list md,
    List.length (merge src_lst dest_lst) = List.length dest_lst /\
    forall (k : nat) (dest : md),
      nth_error dest_lst k = Some dest ->
      exists merged : md,
        nth_error (merge src_lst dest_lst) k = Some merged /\
        forall key : string,
          merged !! key =
          match nth_error src_lst k with
          | Some src => match src !! key with
                        | Some v => Some v
                        | None => dest !! key
                        end
          | None => dest !! key
          end.

(** A stack is absent or a (channel, x, y) tensor. *)
Definition three_d (stack : option tensor) : Prop :=
  match stack with
  | Some (Tensor1 _) => False
  | _ => True
  end.

(** The window of a patch record cut out of an optional stack. *)
Definition window_opt (c : coord) (stack : option tensor) : option tensor :=
  match stack with
  | Some (Tensor3 v) => Some (Tensor3 (window_of c v))
  | other => other
  end.

(** The rater block succeeds on this ground truth: the class list is
    not empty and, with several raters, every class has an array and a
    record at every rater position of the first class, which has one. *)
Definition gt_well_formed (g : ground_truth) : Prop :=
  match g with
  | NoGt _ => True
  | SingleRater gt _ => gt <> []
  | MultiRater classes =>
      exists class0 rest,
        classes = class0 :: rest /\ fst class0 <> [] /\
        Forall (fun class => len (fst class0) <= len (fst class)
                             /\ len (fst class0) <= len (snd class)) classes
  end.

(** An index entry as the load phase leaves it: without patching a
    whole item, with patching a record of an existing handler with a
    non-empty window; and in both cases a well-formed ground truth. *)
Definition entry_ok (self : Self.t) (e : index_entry) : Prop :=
  match e with
  | Slice it => Self.is_2d_patch self = false /\ gt_well_formed (gt (fst it))
  | Patch c =>
      Self.is_2d_patch self = true /\
      0 <= x_min c < x_max c /\ 0 <= y_min c < y_max c /\
      exists h, py_index (Self.handlers self) (handler_index c) = Ok h
                /\ gt_well_formed (gt (fst h))
  end.

Definition well_built (self : Self.t) : Prop :=
  Forall (entry_ok self) (Self.indexes self).

(** What the slice loop of [load_filenames] maintains, from a dataset
    with no entry and no handler: with patching no entry is added and
    the handlers have well-formed ground truths; without, no handler is
    added and the entries are items with well-formed ground truths. *)
Definition loading (patch : bool) (s : Self.t) : Prop :=
  Self.is_2d_patch s = patch /\
  if patch
  then Self.indexes s = [] /\ Forall (fun h => gt_well_formed (gt (fst h))) (Self.handlers s)
  else Self.handlers s = [] /\ well_built s.

Section FetchNotions.
Context `{Collaborators}.

(** The world after the calls [evs] have been logged. *)
Definition logged (evs : list event) (w : world) : world :=
  fold_left (fun w e => {| entropy := entropy w; cursor := cursor w;
                           calls := calls w ++ [e] |}) evs w.

(** The values a fetch computes from its bundle [it], once the rater is
    picked: outputs of the ROI and input transforms and the two merged
    metadata lists. *)
Definition roi_out (it : item) : option tensor * list md :=
  transform (roi_gt (snd it)) (or_empty (roi_gt_metadata (snd it))) "roi".

Definition merged_input_metadata (it : item) : list md :=
  update_metadata (snd (roi_out it)) (or_empty (input_metadata (fst it))).

Definition input_out (it : item) : option tensor * list md :=
  transform (Some (input (fst it))) (merged_input_metadata it) "im".

Definition merged_gt_metadata (it : item) (picked_md : option (list md)) : list md :=
  update_metadata (snd (input_out it)) (or_empty picked_md).

(** The collaborator calls of a fetch that got past the rater block. *)
Definition pipeline_calls (self : Self.t) (it : item)
    (picked : option (list array) * option (list md)) : list event :=
  [ Transform (roi_gt (snd it)) (or_empty (roi_gt_metadata (snd it))) "roi";
    UpdateMetadata (snd (roi_out it)) (or_empty (input_metadata (fst it)));
    Transform (Some (input (fst it))) (merged_input_metadata it) "im";
    UpdateMetadata (snd (input_out it)) (or_empty (snd picked)) ]
  ++ (if String.eqb (Self.task self) "segmentation"
      then [Transform (fst picked) (merged_gt_metadata it (snd picked)) "gt"]
      else []).

(** The ground-truth stack and metadata of a fetch. *)
Definition gt_out (self : Self.t) (it : item)
    (picked : option (list array) * option (list md)) : result (option tensor * list md) :=
  let metadata_gt := merged_gt_metadata it (snd picked) in
  if String.eqb (Self.task self) "segmentation" then
    let r := transform (fst picked) metadata_gt "gt" in
    Ok (match fst r with
        | Some t => if negb (Self.soft_gt self)
                    then Some (astype_uint8 (threshold_predictions t (1 # 2)))
                    else Some t
        | None => None
        end, snd r)
  else
    match fst picked with
    | None => Raise TypeError
    | Some gt =>
        match py_index gt 0 with
        | Raise e => Raise e
        | Ok label =>
            match from_numpy_expand label with
            | Raise e => Raise e
            | Ok stack_gt => Ok (Some stack_gt, metadata_gt)
            end
        end
    end.

(** The outcome of a fetch that got past the rater block. *)
Definition fetch_outcome (self : Self.t) (coord : option coord) (it : item)
    (picked : option (list array) * option (list md)) : result data_dict :=
  match gt_out self it picked with
  | Raise e => Raise e
  | Ok r_gt =>
      match assemble coord (fst (input_out it)) (fst r_gt) (fst (roi_out it))
                     (snd (input_out it)) (snd r_gt) (snd (roi_out it)) with
      | Raise e => Raise e
      | Ok d => Ok (if Self.is_input_dropout self then dropout_input d else d)
      end
  end.

Definition is_draw (e : event) : Prop :=
  match e with RandInt _ _ _ => True | _ => False end.

(** What C5 says of a fetch from world [w] to world [w'] on a bundle
    [it] with multi-rater classes [classes]: one [random.randint] call,
    over the rater positions of the first class, made first and fed by
    the next raw draw of the generator; no other draw; and the arrays
    and records handed on to the pipeline are, class by class, those at
    the drawn position. *)
Definition one_rater_for_all_classes (self : Self.t) (it : item)
    (classes : list (list array * list md)) (w w' : world) : Prop :=
  exists class0 idx_rater arrays mds,
    py_index classes 0 = Ok class0 /\
    0 <= idx_rater <= len (fst class0) - 1 /\
    idx_rater = Z.modulo (entropy w (cursor w)) (len (fst class0)) /\
    cursor w' = S (cursor w) /\
    calls w' = calls w ++ RandInt 0 (len (fst class0) - 1) idx_rater
                          :: pipeline_calls self it (Some arrays, Some mds) /\
    Forall (fun e => ~ is_draw e) (pipeline_calls self it (Some arrays, Some mds)) /\
    Forall2 (fun class a => py_index (fst class) idx_rater = Ok a) classes arrays /\
    Forall2 (fun class m => py_index (snd class) idx_rater = Ok m) classes mds.

(** The call contract of the transform pipeline that patching relies
    on: stacks are 3-D tensors, the input stack is never absent, and
    thresholding keeps a 3-D tensor 3-D. *)
Definition stacks_3d : Prop :=
  (forall sample metadata data_type, three_d (fst (transform sample metadata data_type)))
  /\ (forall sample metadata, fst (transform (Some sample) metadata "im") <> None)
  /\ (forall v thr, exists v', astype_uint8 (threshold_predictions (Tensor3 v) thr) = Tensor3 v').

End FetchNotions.

(* ===================================================================== *)
(** ** Concrete data *)
(* ===================================================================== *)

(** An all-zero array of [h] rows and [w] columns. *)
Definition zeros (h w : nat) : array := repeat (repeat 0%Q w) h.

(** A handler with the single input array [a], no ground truth, no ROI. *)
Definition bundle (a : array) : item :=
  ({| input := [a]; gt := NoGt None; input_metadata := Some [∅] |},
   {| roi_gt := None; roi_gt_metadata := None |}).

(** A patching dataset as [load_filenames] leaves it before
    [prepare_indices]: handlers filled, no index entry yet. *)
Definition patching (length stride : list Z) (hs : list item) : Self.t :=
  Self.mk [] hs length stride true None false 0 "segmentation" false false.

(** One 10 x 10 slice, length [4, 4], stride [3, 3]. *)
Definition ds10 : Self.t := patching [4; 4] [3; 3] [bundle (zeros 10 10)].

(** The spec's failing configuration length=[4,4], stride=[5,5], on a
    dataset for which no slice was accepted. *)
Definition ds_empty : Self.t :=
  init (Some [4; 4]) (Some [5; 5]) None "segmentation" false None false false.

(** Length [4, 4] with stride [5, 5] on one 10 x 10 slice. *)
Definition ds_stride5 : Self.t := patching [4; 4] [5; 5] [bundle (zeros 10 10)].

(** A pipeline that stacks the arrays it is given and changes nothing. *)
Definition stacking : Collaborators := {|
  transform := fun sample metadata _ => (option_map Tensor3 sample, metadata);
  filter_roi := fun _ _ => false;
  threshold_predictions := fun t _ => t;
  astype_uint8 := fun t => t;
  dropout_input := fun d => d
|}.

(** A pipeline whose transform changes the resolution: it keeps the
    top-left 2 x 2 corner of every array. *)
Definition shrinking : Collaborators := {|
  transform := fun sample metadata _ =>
                 (option_map (fun arrays =>
                                Tensor3 (List.map (fun a => List.map (firstn 2) (firstn 2 a))
                                                  arrays)) sample,
                  metadata);
  filter_roi := fun _ _ => false;
  threshold_predictions := fun t _ => t;
  astype_uint8 := fun t => t;
  dropout_input := fun d => d
|}.

(** A generator whose raw draws are all [z], before any call. *)
Definition fresh_world (z : Z) : world :=
  {| entropy := fun _ => z; cursor := 0; calls := [] |}.

Definition ramp : array :=
  List.map (List.map inject_Z) [[1; 2; 3; 4]; [5; 6; 7; 8]; [9; 10; 11; 12]; [13; 14; 15; 16]].

(** One 4 x 4 slice tiled by a single 4 x 4 patch. *)
Definition ds4 : Self.t := snd (prepare_indices (patching [4; 4] [4; 4] [bundle ramp])).

(** A dataset without patching holding one slice. *)
Definition ds_slice : Self.t :=
  Self.mk [Slice (bundle ramp)] [] [] [] false None false 0 "segmentation" false false.

(** A slice with two label classes annotated by three raters each; the
    array of rater r of class c holds the single value 10 c + r. *)
Definition rater_classes : list (list array * list md) :=
  [ ([[[inject_Z 10]]; [[inject_Z 11]]; [[inject_Z 12]]],
     [{["rater" := VInt 0]}; {["rater" := VInt 1]}; {["rater" := VInt 2]}]);
    ([[[inject_Z 20]]; [[inject_Z 21]]; [[inject_Z 22]]],
     [{["rater" := VInt 0]}; {["rater" := VInt 1]}; {["rater" := VInt 2]}]) ].

Definition rater_item : item :=
  ({| input := [[[inject_Z 7]]]; gt := MultiRater rater_classes;
      input_metadata := Some [∅] |},
   {| roi_gt := None; roi_gt_metadata := None |}).

Definition ds_raters : Self.t :=
  Self.mk [Slice rater_item] [] [] [] false None false 0 "segmentation" true false.

(** A slice with two label classes, the first annotated by three raters
    and the second by one only. *)
Definition uneven_classes : list (list array * list md) :=
  [ ([[[inject_Z 10]]; [[inject_Z 11]]; [[inject_Z 12]]],
     [{["rater" := VInt 0]}; {["rater" := VInt 1]}; {["rater" := VInt 2]}]);
    ([[[inject_Z 20]]], [{["rater" := VInt 0]}]) ].

Definition uneven_item : item :=
  ({| input := [[[inject_Z 7]]]; gt := MultiRater uneven_classes;
      input_metadata := Some [∅] |},
   {| roi_gt := None; roi_gt_metadata := None |}).

Definition ds_uneven : Self.t :=
  Self.mk [Slice uneven_item] [] [] [] false None false 0 "segmentation" true false.

(** The sample of a run, if it returned one. *)
Definition returned (run : result data_dict * world) : option data_dict :=
  match fst run with
  | Ok d => Some d
  | Raise _ => None
  end.

(** A slice as the decoder yields it, preprocessed to itself. *)
Definition plain_slice (a : array) : loaded_slice :=
  {| slice_seg_pair := fst (bundle a); slice_roi_pair := snd (bundle a);
     preprocessed := bundle a |}.

(** A fresh patching dataset with a one-dimensional length, a
    three-dimensional stride holding a zero, and a slice filter that
    rejects every slice. *)
Definition ds_rejecting : Self.t :=
  init (Some [4]) (Some [0; 9; 9]) (Some (fun _ => false)) "segmentation"
       false None false false.

(** One behaviour of the library functions, enough to run the two
    transforms on masks with a single object: [propagate_params] records
    the crop parameters in the input metadata, [label] numbers every
    non-zero entry 1, the morphological operators leave their argument
    as it is, and the random draws are the smallest ones. *)
Definition reference_libraries : Libraries := {|
  propagate_params :=
    fun sample params =>
      let '(fh, fw, w, h) := params in
      {| s_input := s_input sample; s_roi := s_roi sample; s_gt := s_gt sample;
         s_input_metadata :=
           <["__centercrop" := VInts [fh; fw; w; h]]> (s_input_metadata sample);
         s_gt_metadata := s_gt_metadata sample |};
  label :=
    fun a => (List.map (List.map (fun v => if v =? 0 then 0 else 1)) a,
              if forallb (forallb (Z.eqb 0)) a then 0 else 1);
  binary_dilation := fun a => List.map (List.map nonzero_Z) a;
  binary_closing := fun a => a;
  binary_fill_holes := fun a => a;
  math_sqrt := fun x => x;
  random_random := 0%Q;
  random_sample := fun population k => firstn (Z.to_nat k) population
|}.

(** A 4 x 4 mask with a 2 x 2 object in its centre. *)
Definition centre_mask : array :=
  List.map (List.map inject_Z) [[0; 0; 0; 0]; [0; 1; 1; 0]; [0; 1; 1; 0]; [0; 0; 0; 0]].

(** Input [ramp], ROI and ground truth [centre_mask]. *)
Definition crop_sample : Sample :=
  {| s_input := ramp; s_roi := centre_mask; s_gt := centre_mask;
     s_input_metadata := ∅; s_gt_metadata := ∅ |}.

(** [ROICrop2D(size=[2, 2])], labeled by default. *)
Definition crop_2x2 : ROICrop2D.t := ROICrop2D.mk (2, 2) true.

(** A 3 x 3 binary slice with one foreground voxel. *)
Definition one_voxel : array :=
  List.map (List.map inject_Z) [[0; 0; 0]; [0; 1; 0]; [0; 0; 0]].

Definition dilate_sample : Sample :=
  {| s_input := one_voxel; s_roi := one_voxel; s_gt := one_voxel;
     s_input_metadata := ∅; s_gt_metadata := ∅ |}.

(* ===================================================================== *)
(** ** Notions for the further properties *)
(* ===================================================================== *)

(** The number of starts of one axis: ceil((size - L) / S) + 1. *)
Definition axis_count (size L S : Z) : Z := (size - L + S - 1) / S + 1.

(** The number of patch records of a list of handlers. *)
Definition patch_count (L0 L1 S0 S1 : Z) (hs : list item) : Z :=
  fold_right (fun h n => axis_count (height h) L0 S0 * axis_count (width h) L1 S1 + n) 0 hs.

(** Two 10 x 10 slices followed by a 3 x 10 slice, length [4, 4],
    stride [3, 3]: the third handler is too small. *)
Definition ds_third_small : Self.t :=
  patching [4; 4] [3; 3]
           [bundle (zeros 10 10); bundle (zeros 10 10); bundle (zeros 3 10)].

(** [s'] is [s] with patch records appended to [self.indexes] and
    nothing else changed. *)
Definition patches_appended (s s' : Self.t) : Prop :=
  exists cs : list coord, s' = extend_indexes (List.map Patch cs) s.

(** A computation that, whatever it returns or raises, leaves a state
    related by [R] to the one it found. *)
Definition frames {S A} (R : S -> S -> Prop) (c : M S A) : Prop :=
  forall s, R s (snd (c s)).

(** A dataset without patching, as [__init__] leaves it. *)
Definition ds_fresh : Self.t :=
  init None None (Some (fun sl => negb (Z.of_nat (List.length (input sl)) =? 0)))
       "segmentation" false None false false.

(** A decoded slice without any input array. *)
Definition blank_slice : loaded_slice :=
  {| slice_seg_pair := {| input := []; gt := NoGt None; input_metadata := None |};
     slice_roi_pair := {| roi_gt := None; roi_gt_metadata := None |};
     preprocessed := ({| input := []; gt := NoGt None; input_metadata := None |},
                      {| roi_gt := None; roi_gt_metadata := None |}) |}.


(** A plane of exactly [h] rows of [w] values each. *)
Definition plane_shape (h w : Z) (plane : list (list Q)) : Prop :=
  len plane = h /\ Forall (fun row => len row = w) plane.

(** A plane of at least [h] rows of at least [w] values each. *)
Definition at_least (h w : Z) (plane : list (list Q)) : Prop :=
  h <= len plane /\ Forall (fun row => w <= len row) plane.

(** The sample of a patch fetch whose stacks are the windows of the
    stacks of the sample [d], with the patch coordinates recorded in
    every input metadata record. *)
Definition windowed (c : coord) (d : data_dict) : data_dict :=
  {| dd_input := window_opt c (dd_input d);
     dd_gt := window_opt c (dd_gt d);
     dd_roi := window_opt c (dd_roi d);
     dd_input_metadata :=
       List.map (fun metadata : md =>
                   <["coord" := VInts [x_min c; x_max c; y_min c; y_max c]]> metadata)
                (dd_input_metadata d);
     dd_gt_metadata := dd_gt_metadata d;
     dd_roi_metadata := dd_roi_metadata d |}.

(** A [rows] x [cols] array that is zero except for the value [v] at
    row [r], column [c]. *)
Definition one_hot (rows cols r c : nat) (v : Q) : array :=
  List.map (fun i => List.map (fun j => if Nat.eqb i r && Nat.eqb j c then v else 0%Q)
                              (seq 0 cols))
           (seq 0 rows).

(** Input [ramp] with a ROI of one pixel at row 0, column 2. *)
Definition pixel_sample : Sample :=
  {| s_input := ramp; s_roi := one_hot 4 4 0 2 1; s_gt := centre_mask;
     s_input_metadata := ∅; s_gt_metadata := ∅ |}.

(** Input [ramp] with a soft ROI whose values are all one half. *)
Definition soft_roi_sample : Sample :=
  {| s_input := ramp; s_roi := repeat (repeat (1 # 2)%Q 4) 4; s_gt := centre_mask;
     s_input_metadata := ∅; s_gt_metadata := ∅ |}.

(** One entry of [positive_mask]: [(v > 0).astype(np.int)]. *)
Definition positive (v : Q) : Z := if Qle_bool v 0 then 0 else 1.

(** Two 2-D arrays with as many rows, and row by row as many columns. *)
Definition same_shape {A B} (a : list (list A)) (b : list (list B)) : Prop :=
  Forall2 (fun ra rb => List.length ra = List.length rb) a b.

(** What the dilation loop relies on from scipy's [binary_dilation]:
    the result has the shape of its argument and holds every non-zero
    voxel of it. *)
Definition extensive (dilation : list (list Z) -> list (list bool)) : Prop :=
  forall a,
    Forall2 (Forall2 (fun b (d : bool) => nonzero_Z b = true -> d = true)) a (dilation a).

(** What [dilate_lesion] may do to one voxel of value [v]: leave it, or,
    if it was zero, give it one of the label values. *)
Definition dilated_voxel (label_values : list Q) (v v' : Q) : Prop :=
  (v' == v)%Q \/ ((v == 0)%Q /\ exists lb, List.In lb label_values /\ (v' == lb)%Q).

(** The entry of a 2-D array at row [r], column [c], if there is one. *)
Definition entry {A} (a : list (list A)) (r c : nat) : option A :=
  match nth_error a r with
  | Some row => nth_error row c
  | None => None
  end.

(** The voxel (r, c) belongs to the dilation ring: the binary array and
    the input mask disagree there. *)
Definition in_ring (arr_in : array) (arr_bin : list (list Z)) (r c : nat) : Prop :=
  exists b v,
    entry arr_bin r c = Some b /\ entry arr_in r c = Some v /\
    xorb (nonzero_Z b) (nonzero_Q v) = true.

(** [one_voxel] dilated by one ring of value one half, and its mask. *)
Definition one_voxel_dilated : array :=
  [[0; 1 # 2; 0]; [1 # 2; 1; 1 # 2]; [0; 1 # 2; 0]]%Q.

Definition one_voxel_dilated_bin : list (list Z) :=
  [[0; 1; 0]; [1; 1; 1]; [0; 1; 0]].

(** A 10 x 10 slice followed by a handler without any input array. *)
Definition ds_blank : Self.t :=
  patching [4; 4] [3; 3] [bundle (zeros 10 10); preprocessed blank_slice].

(* ===================================================================== *)
(** * The primitives on small inputs *)
(* ===================================================================== *)

Example py_index_last : py_index [1; 2; 3] (-1) = Ok 3.
Proof. reflexivity. Qed.

Example py_index_below : py_index [1; 2; 3] (-4) = Raise IndexError.
Proof. reflexivity. Qed.

Example py_index_above : py_index [1; 2; 3] 3 = Raise IndexError.
Proof. reflexivity. Qed.

Example py_range_9_3 : py_range 0 9 3 = Ok [0; 3; 6].
Proof. reflexivity. Qed.

Example py_range_10_4 : py_range 0 10 4 = Ok [0; 4; 8].
Proof. reflexivity. Qed.

Example py_range_down : py_range 5 0 (-2) = Ok [5; 3; 1].
Proof. reflexivity. Qed.

Example py_range_zero_step : py_range 0 5 0 = Raise ValueError.
Proof. reflexivity. Qed.

Example py_slice_clips : py_slice 1 10 [1; 2; 3] = [2; 3].
Proof. reflexivity. Qed.

Example py_slice_from_end : py_slice (-2) 10 [1; 2; 3] = [2; 3].
Proof. reflexivity. Qed.

Example py_round_half_even : List.map py_round [1 # 2; 3 # 2; 5 # 2; 7 # 4; - (3 # 2)]%Q
                             = [0; 2; 2; 2; -2].
Proof. reflexivity. Qed.

Example F_crop_inside : F_crop ramp 1 1 2 2 = List.map (List.map inject_Z) [[6; 7]; [10; 11]].
Proof. reflexivity. Qed.

Example F_crop_outside : F_crop ramp (-1) 3 2 2 = List.map (List.map inject_Z) [[0; 0]; [4; 0]].
Proof. reflexivity. Qed.

Example center_of_mass_centre : center_of_mass (astype_int centre_mask) = Ok (6 # 4, 6 # 4)%Q.
Proof. reflexivity. Qed.

(** The four errors of the validation, and a run with a clamped tile:
    size 10, length 4, stride 4 gives the starts 0, 4 and 8, the last
    clamped to 6. *)
Example stride_exceeds_length :
  fst (prepare_indices (patching [4; 4] [5; 5] [bundle (zeros 10 10)]))
  = Raise (RuntimeError StrideOutOfRange).
Proof. reflexivity. Qed.

Example stride_zero :
  fst (prepare_indices (patching [4; 4] [0; 4] [bundle (zeros 10 10)]))
  = Raise (RuntimeError StrideOutOfRange).
Proof. reflexivity. Qed.

Example length_three_dimensional :
  fst (prepare_indices (patching [4; 4; 4] [4; 4] [bundle (zeros 10 10)]))
  = Raise (RuntimeError MustBeOfLength2).
Proof. reflexivity. Qed.

Example length_exceeds_shape :
  fst (prepare_indices (patching [14; 4] [5; 4] [bundle (zeros 10 10)]))
  = Raise (RuntimeError LengthExceedsImage).
Proof. reflexivity. Qed.

Example clamped_last_tile :
  Self.indexes (snd (prepare_indices (patching [4; 4] [4; 4] [bundle (zeros 10 10)])))
  = tiles 0 4 4 [0; 4; 6] [0; 4; 6].
Proof. reflexivity. Qed.

(* ===================================================================== *)
(** * Properties of the index builder *)
(* ===================================================================== *)

(** ** [range] *)

Lemma py_range_pos start stop step :
  0 < step -> py_range start stop step = Ok (range_items start stop step).
Proof.
  intros Hs. unfold py_range, range_items.
  destruct (Z.eqb_spec step 0) as [->|_]; [lia|].
  destruct (Z.ltb_spec 0 step); [reflexivity|lia].
Qed.

Lemma range_count_step start stop step :
  0 < step -> start < stop ->
  Z.to_nat ((stop - start + step - 1) / step)
  = S (Z.to_nat ((stop - (start + step) + step - 1) / step)).
Proof.
  intros Hs Hlt.
  replace (stop - start + step - 1) with ((stop - (start + step) + step - 1) + 1 * step) by lia.
  rewrite Z.div_add by lia.
  assert (0 <= (stop - (start + step) + step - 1) / step)
    by (apply Z.div_pos; lia).
  lia.
Qed.

Lemma range_count_done start stop step :
  0 < step -> stop <= start -> Z.to_nat ((stop - start + step - 1) / step) = 0%nat.
Proof.
  intros Hs Hle.
  assert ((stop - start + step - 1) / step <= 0).
  { assert ((stop - start + step - 1) / step < 1); [|lia].
    apply Z.div_lt_upper_bound; lia. }
  lia.
Qed.

Lemma range_items_cons start stop step :
  0 < step -> start < stop ->
  range_items start stop step = start :: range_items (start + step) stop step.
Proof.
  intros Hs Hlt. unfold range_items.
  rewrite (range_count_step start stop step Hs Hlt). cbn [seq List.map].
  f_equal; [lia|].
  rewrite <- seq_shift, List.map_map.
  apply List.map_ext. intros k. lia.
Qed.

Lemma range_items_nil start stop step :
  0 < step -> stop <= start -> range_items start stop step = [].
Proof.
  intros Hs Hle. unfold range_items.
  now rewrite (range_count_done start stop step Hs Hle).
Qed.

(** Python's [range] yields exactly the candidates of the spec. *)
Lemma spec_candidates_range start bound step :
  0 < step -> spec_candidates start bound step = range_items start bound step.
Proof.
  intros Hs. funelim (spec_candidates start bound step).
  - rewrite range_items_cons by lia. f_equal. apply H. lia.
  - lia.
  - rewrite range_items_nil by lia. reflexivity.
Qed.

Lemma in_range_items x start stop step :
  0 < step ->
  List.In x (range_items start stop step) <->
  exists k, 0 <= k /\ x = start + k * step /\ x < stop.
Proof.
  intros Hs. unfold range_items. rewrite List.in_map_iff. split.
  - intros [k [<- Hk]]. apply List.in_seq in Hk. exists (Z.of_nat k).
    split; [lia|]. split; [reflexivity|].
    assert (Hq : Z.of_nat k < (stop - start + step - 1) / step) by lia.
    pose proof (Z.mul_div_le (stop - start + step - 1) step Hs). nia.
  - intros [k [Hk [-> Hlt]]]. exists (Z.to_nat k). split; [lia|].
    apply List.in_seq. split; [lia|]. cbn.
    assert (k < (stop - start + step - 1) / step); [|lia].
    apply Z.div_le_lower_bound with (a := stop - start + step - 1) (b := step) (q := k + 1) in Hs as Hd; [lia|nia].
Qed.

(** ** The start sequence of one axis *)

Lemma clamp_spec size L x :
  (if x + L >? size then size - L else x) = spec_clamp size L x.
Proof.
  unfold spec_clamp. destruct (Z_lt_dec size (x + L)), (Z.gtb_spec (x + L) size); lia.
Qed.

Lemma spec_starts_range size L S :
  0 < S ->
  spec_starts size L S = List.map (spec_clamp size L) (range_items 0 (size - L + S) S).
Proof. intros HS. unfold spec_starts. now rewrite spec_candidates_range. Qed.

Lemma in_spec_starts x size L S :
  0 < S ->
  List.In x (spec_starts size L S) <->
  exists k, 0 <= k /\ k * S < size - L + S /\ x = spec_clamp size L (k * S).
Proof.
  intros HS. rewrite spec_starts_range by assumption. rewrite List.in_map_iff. split.
  - intros [c [<- Hc]]. apply in_range_items in Hc as [k [Hk [-> Hlt]]]; [|assumption].
    exists k. split; [lia|]. split; [lia|reflexivity].
  - intros [k [Hk [Hlt ->]]]. exists (k * S). split; [reflexivity|].
    apply in_range_items; [assumption|]. exists k. split; [lia|]. split; lia.
Qed.

(** Every start is inside the axis and its tile ends inside it. *)
Lemma spec_starts_bounds x size L S :
  valid_axis size L S -> List.In x (spec_starts size L S) ->
  0 <= x /\ x + L <= size.
Proof.
  intros [HS [HSL HL]] Hin. apply in_spec_starts in Hin as [k [Hk [Hlt ->]]]; [|assumption].
  unfold spec_clamp. destruct (Z_lt_dec size (k * S + L)); nia.
Qed.

(** Every position of the axis lies in the tile of some start. *)
Lemma spec_starts_cover p size L S :
  valid_axis size L S -> 0 <= p < size ->
  exists x, List.In x (spec_starts size L S) /\ x <= p < x + L.
Proof.
  intros [HS [HSL HL]] Hp.
  pose proof (Z.div_mod p S ltac:(lia)) as Hdm.
  pose proof (Z.mod_pos_bound p S HS) as Hmod.
  assert (Hq : 0 <= p / S) by (apply Z.div_pos; lia).
  destruct (Z_lt_dec (p / S * S) (size - L + S)) as [Hin|Hout].
  - (* the candidate just below p is generated *)
    exists (spec_clamp size L (p / S * S)). split.
    + apply in_spec_starts; [assumption|]. exists (p / S).
      split; [assumption|]. split; [assumption|reflexivity].
    + unfold spec_clamp. destruct (Z_lt_dec size (p / S * S + L)); nia.
  - (* p lies beyond the last candidate: the last tile is flush with the end *)
    set (k := (size - L + S - 1) / S).
    pose proof (Z.div_mod (size - L + S - 1) S ltac:(lia)) as Hdk.
    pose proof (Z.mod_pos_bound (size - L + S - 1) S HS) as Hmk.
    fold k in Hdk.
    assert (Hk : 0 <= k) by (apply Z.div_pos; lia).
    exists (spec_clamp size L (k * S)). split.
    + apply in_spec_starts; [assumption|]. exists k.
      split; [lia|]. split; [nia|reflexivity].
    + unfold spec_clamp. destruct (Z_lt_dec size (k * S + L)); nia.
Qed.

(** The starts increase strictly: no tile is emitted twice. *)
Lemma spec_clamp_candidates_increasing size L S k :
  0 < S -> 0 <= k -> (k + 1) * S < size - L + S ->
  spec_clamp size L (k * S) < spec_clamp size L ((k + 1) * S).
Proof.
  intros HS Hk Hlt. unfold spec_clamp.
  destruct (Z_lt_dec size (k * S + L)), (Z_lt_dec size ((k + 1) * S + L)); nia.
Qed.

(** ** Running the loops of [prepare_indices] *)

Lemma extend_indexes_nil self : extend_indexes [] self = self.
Proof. destruct self. unfold extend_indexes. cbn. now rewrite List.app_nil_r. Qed.

Lemma extend_indexes_app a b self :
  extend_indexes b (extend_indexes a self) = extend_indexes (a ++ b) self.
Proof. unfold extend_indexes. cbn. now rewrite List.app_assoc. Qed.

(** A loop whose body only appends entries, under an invariant of the
    state that appending preserves. *)
Lemma for_each_extend {A} (body : A -> M Self.t unit) (f : A -> list index_entry)
    (P : Self.t -> Prop) (l : list A) :
  (forall es s, P s -> P (extend_indexes es s)) ->
  (forall x s, List.In x l -> P s -> body x s = (Ok tt, extend_indexes (f x) s)) ->
  forall s, P s -> for_each l body s = (Ok tt, extend_indexes (flat_map f l) s).
Proof.
  intros Hext. induction l as [|x l IH]; intros Hbody s Hs.
  - cbn. now rewrite extend_indexes_nil.
  - cbn [for_each flat_map]. unfold bind.
    rewrite (Hbody x s (or_introl eq_refl) Hs).
    rewrite IH; [|intros; apply Hbody; [now right|assumption]|now apply Hext].
    now rewrite extend_indexes_app.
Qed.

Lemma py_index_nat {A} (l : list A) (i : nat) (x : A) :
  nth_error l i = Some x -> py_index l (Z.of_nat i) = Ok x.
Proof.
  intros Hn. unfold py_index.
  destruct (Z.ltb_spec (Z.of_nat i) 0); [lia|].
  destruct (Z.ltb_spec (Z.of_nat i) 0); [lia|].
  now rewrite Nat2Z.id, Hn.
Qed.

Lemma py_index_0 {A} (x : A) l : py_index (x :: l) 0 = Ok x.
Proof. reflexivity. Qed.

Lemma py_index_1 {A} (x y : A) l : py_index (x :: y :: l) 1 = Ok y.
Proof. reflexivity. Qed.

Lemma emit_patch_run i H W x y L0 L1 s :
  Self.length s = [L0; L1] ->
  emit_patch i [H; W] x y s
  = (Ok tt, extend_indexes [tile i L0 L1 x (spec_clamp W L1 y)] s).
Proof.
  intros Hl. unfold emit_patch, bind, get, lift, modify. rewrite Hl.
  rewrite !py_index_0, !py_index_1. now rewrite clamp_spec.
Qed.

Lemma emit_row_run i H W x L0 L1 S0 S1 s :
  Self.length s = [L0; L1] -> Self.stride s = [S0; S1] -> 0 < S1 ->
  emit_row i [H; W] x s
  = (Ok tt, extend_indexes
              (List.map (tile i L0 L1 (spec_clamp H L0 x)) (spec_starts W L1 S1)) s).
Proof.
  intros Hl Hs HS1. unfold emit_row, bind, get, lift. rewrite Hl, Hs.
  rewrite !py_index_0, !py_index_1.
  rewrite py_range_pos by assumption. rewrite clamp_spec.
  rewrite (for_each_extend _ (fun y => [tile i L0 L1 (spec_clamp H L0 x) (spec_clamp W L1 y)])
             (fun s => Self.length s = [L0; L1])).
  - f_equal. f_equal. rewrite spec_starts_range by assumption.
    rewrite List.map_map. generalize (range_items 0 (W - L1 + S1) S1).
    intros l. induction l as [|y l IH]; [reflexivity|]. cbn. now rewrite IH.
  - intros es s' Hs'. exact Hs'.
  - intros y s' _ Hs'. now apply emit_patch_run.
  - assumption.
Qed.

Lemma same_setup_extend length stride hs es s :
  same_setup length stride hs s -> same_setup length stride hs (extend_indexes es s).
Proof. intros H. exact H. Qed.

Lemma valid_handler_input L0 L1 S0 S1 h :
  valid_handler L0 L1 S0 S1 h ->
  exists a0 rest, input (fst h) = a0 :: rest /\ first_input h = a0.
Proof.
  intros [[HS [HSL HL]] _]. unfold height, first_input in *.
  destruct (input (fst h)) as [|a0 rest]; [unfold len in HL; cbn in HL; lia|].
  now exists a0, rest.
Qed.

Lemma check_axes_ok L0 L1 S0 S1 H W (s : Self.t) :
  valid_axis H L0 S0 -> valid_axis W L1 S1 ->
  for_each (zip3 [L0; L1] [S0; S1] [H; W]) check_axis s = (Ok tt, s).
Proof.
  intros [? [? ?]] [? [? ?]]. cbn. unfold bind, check_axis.
  repeat match goal with
  | |- context [?a >? ?b] => destruct (Z.gtb_spec a b); try lia
  | |- context [?a <=? ?b] => destruct (Z.leb_spec a b); try lia
  end. reflexivity.
Qed.

(** One handler with a valid configuration: the product of the two
    start sequences of the spec is appended and nothing is raised. *)
Lemma prepare_handler_run (i : nat) h L0 L1 S0 S1 hs s :
  same_setup [L0; L1] [S0; S1] hs s ->
  nth_error hs i = Some h ->
  valid_handler L0 L1 S0 S1 h ->
  prepare_handler (Z.of_nat i) s
  = (Ok tt, extend_indexes
              (tiles (Z.of_nat i) L0 L1 (spec_starts (height h) L0 S0)
                     (spec_starts (width h) L1 S1)) s).
Proof.
  intros [Hl [Hs Hh]] Hn Hv.
  destruct (valid_handler_input _ _ _ _ _ Hv) as [a0 [rest [Hin Hfi]]].
  destruct Hv as [Hv0 Hv1].
  unfold prepare_handler, bind, get, lift.
  rewrite Hh, (py_index_nat _ _ _ Hn), Hin, Hl, Hs. rewrite !py_index_0.
  unfold shape. unfold height, width in *. rewrite Hfi in *.
  change (negb (len [L0; L1] =? 2) || negb (len [S0; S1] =? 2)) with false.
  cbn match. unfold ret at 1.
  rewrite check_axes_ok by assumption. rewrite !py_index_0.
  rewrite py_range_pos by (destruct Hv0; assumption).
  rewrite (for_each_extend _
             (fun x => List.map (tile (Z.of_nat i) L0 L1 (spec_clamp (len a0) L0 x))
                                (spec_starts (len (hd [] a0)) L1 S1))
             (same_setup [L0; L1] [S0; S1] hs)).
  - f_equal. f_equal. unfold tiles.
    rewrite (spec_starts_range (len a0) L0 S0) by (destruct Hv0; assumption).
    generalize (range_items 0 (len a0 - L0 + S0) S0). intros l.
    induction l as [|x l IH]; [reflexivity|]. cbn. now rewrite IH.
  - intros es s'. apply same_setup_extend.
  - intros x s' _ [Hl' [Hs' _]]. apply (emit_row_run _ _ _ _ L0 L1 S0 S1); try assumption.
    destruct Hv1; assumption.
  - repeat split; assumption.
Qed.

(** ** The validation of [prepare_indices] *)

Lemma len_2 {A} (l : list A) : len l = 2 -> exists a b, l = [a; b].
Proof.
  unfold len. destruct l as [|a [|b [|c l]]]; cbn; try lia.
  intros _. now exists a, b.
Qed.

Lemma axis_ok_valid l s z : axis_ok (l, s, z) = true <-> valid_axis z l s.
Proof.
  unfold axis_ok, valid_axis.
  destruct (Z.gtb_spec s l), (Z.leb_spec s 0), (Z.gtb_spec l z); cbn; split;
    intros; try discriminate; try lia; reflexivity.
Qed.

Lemma config_ok_valid length stride h :
  config_ok length stride h = true <->
  exists L0 L1 S0 S1,
    length = [L0; L1] /\ stride = [S0; S1] /\ valid_handler L0 L1 S0 S1 h.
Proof.
  unfold config_ok, valid_handler. split.
  - intros Hc. apply andb_true_iff in Hc as [Hc Ha]. apply andb_true_iff in Hc as [Hl Hs].
    apply Z.eqb_eq in Hl, Hs.
    destruct (len_2 _ Hl) as [L0 [L1 ->]]. destruct (len_2 _ Hs) as [S0 [S1 ->]].
    exists L0, L1, S0, S1. split; [reflexivity|]. split; [reflexivity|].
    unfold shape in Ha. cbn [zip3 forallb] in Ha.
    apply andb_true_iff in Ha as [H0 H1]. apply andb_true_iff in H1 as [H1 _].
    apply axis_ok_valid in H0, H1. now split.
  - intros [L0 [L1 [S0 [S1 [-> [-> [H0 H1]]]]]]].
    apply axis_ok_valid in H0, H1. unfold height, width in *.
    unfold shape. cbn [zip3 forallb]. now rewrite H0, H1.
Qed.

Lemma malformed_iff length stride h :
  malformed length stride h <-> config_ok length stride h = false.
Proof.
  unfold malformed, config_ok. split.
  - intros [Hl|[Hs|[k [l [s [z [Hn Hbad]]]]]]].
    + apply Z.eqb_neq in Hl. now rewrite Hl.
    + apply Z.eqb_neq in Hs. rewrite Hs. now rewrite andb_false_r.
    + apply andb_false_iff. right.
      destruct (forallb axis_ok _) eqn:Hf; [|reflexivity].
      rewrite List.forallb_forall in Hf. apply nth_error_In in Hn.
      apply Hf, axis_ok_valid in Hn. unfold valid_axis in Hn. lia.
  - intros Hc.
    destruct (Z.eqb_spec (len length) 2) as [Hl|Hl]; [|now left].
    destruct (Z.eqb_spec (len stride) 2) as [Hs|Hs]; [|right; now left].
    right. right. cbn in Hc.
    assert (Hex : exists lss, List.In lss (zip3 length stride (shape (first_input h)))
                              /\ axis_ok lss = false).
    { clear Hl Hs. induction (zip3 length stride (shape (first_input h))) as [|x l IH];
        [discriminate|].
      cbn in Hc. destruct (axis_ok x) eqn:Hx.
      - destruct (IH Hc) as [y [Hy Hb]]. exists y. split; [now right|assumption].
      - exists x. split; [now left|assumption]. }
    destruct Hex as [[[l s] z] [Hin Hb]].
    apply In_nth_error in Hin as [k Hk]. exists k, l, s, z. split; [assumption|].
    destruct (Z_le_dec s 0); [now left|]. destruct (Z_gt_dec s l); [right; now left|].
    destruct (Z_gt_dec l z); [right; now right|].
    assert (axis_ok (l, s, z) = true) by (apply axis_ok_valid; unfold valid_axis; lia).
    congruence.
Qed.

Lemma check_axes_run l (s : Self.t) :
  if forallb axis_ok l then for_each l check_axis s = (Ok tt, s)
  else exists e, for_each l check_axis s = (Raise e, s) /\ ConfigurationError e.
Proof.
  induction l as [|[[len_ str] siz] l IH]; [reflexivity|].
  cbn [forallb for_each]. unfold bind.
  destruct (axis_ok (len_, str, siz)) eqn:Hx; cbn [andb].
  - assert (Hc : check_axis (len_, str, siz) s = (Ok tt, s)).
    { apply axis_ok_valid in Hx. destruct Hx as [? [? ?]]. unfold check_axis.
      destruct (Z.gtb_spec str len_); [lia|]. destruct (Z.leb_spec str 0); [lia|].
      destruct (Z.gtb_spec len_ siz); [lia|]. reflexivity. }
    rewrite Hc. exact IH.
  - unfold axis_ok in Hx. unfold check_axis.
    destruct ((str >? len_) || (str <=? 0)).
    + exists (RuntimeError StrideOutOfRange). split; [reflexivity|]. right. now left.
    + destruct (len_ >? siz); [|discriminate].
      exists (RuntimeError LengthExceedsImage). split; [reflexivity|]. right. now right.
Qed.

(** One handler with a malformed configuration: a configuration error
    is raised and nothing is appended. *)
Lemma prepare_handler_bad (i : nat) h length stride hs s :
  same_setup length stride hs s ->
  nth_error hs i = Some h ->
  input (fst h) <> [] ->
  config_ok length stride h = false ->
  exists e, prepare_handler (Z.of_nat i) s = (Raise e, s) /\ ConfigurationError e.
Proof.
  intros [Hl [Hs Hh]] Hn Hin Hc.
  unfold prepare_handler, bind, get, lift.
  rewrite Hh, (py_index_nat _ _ _ Hn), Hl, Hs.
  unfold config_ok, first_input in Hc.
  destruct (input (fst h)) as [|a0 rest]; [congruence|]. rewrite py_index_0.
  cbn [hd] in Hc.
  destruct (Z.eqb_spec (len length) 2) as [Hl2|Hl2]; cbn [negb orb andb] in *.
  - destruct (Z.eqb_spec (len stride) 2) as [Hs2|Hs2]; cbn [negb orb andb] in *.
    + unfold ret at 1.
      pose proof (check_axes_run (zip3 length stride (shape a0)) s) as Hrun.
      rewrite Hc in Hrun. destruct Hrun as [e [-> He]]. now exists e.
    + exists (RuntimeError MustBeOfLength2). split; [reflexivity|now left].
  - exists (RuntimeError MustBeOfLength2). split; [reflexivity|now left].
Qed.

Lemma range_len (n : nat) :
  py_range 0 (Z.of_nat n) 1 = Ok (List.map Z.of_nat (seq 0 n)).
Proof.
  rewrite py_range_pos by lia. unfold range_items. f_equal.
  replace (Z.to_nat ((Z.of_nat n - 0 + 1 - 1) / 1)) with n
    by (rewrite Z.div_1_r; lia).
  apply List.map_ext. intros k. lia.
Qed.

(** The handler loop over valid handlers. *)
Lemma prepare_loop_ok L0 L1 S0 S1 hs todo :
  forall done s,
    hs = done ++ todo ->
    same_setup [L0; L1] [S0; S1] hs s ->
    Forall (valid_handler L0 L1 S0 S1) todo ->
    for_each (List.map Z.of_nat (seq (List.length done) (List.length todo)))
             prepare_handler s
    = (Ok tt, extend_indexes (all_tiles (List.length done) L0 L1 S0 S1 todo) s).
Proof.
  induction todo as [|h todo IH]; intros done s Hhs Hsetup Hv.
  - cbn. now rewrite extend_indexes_nil.
  - inversion Hv as [|? ? Hvh Hvt]; subst.
    cbn [List.length seq List.map for_each all_tiles]. unfold bind.
    rewrite (prepare_handler_run (List.length done) h L0 L1 S0 S1 (done ++ h :: todo) s);
      [|assumption| |assumption].
    + specialize (IH (done ++ [h])
                     (extend_indexes
                        (tiles (Z.of_nat (List.length done)) L0 L1
                               (spec_starts (height h) L0 S0)
                               (spec_starts (width h) L1 S1)) s)).
      rewrite List.length_app in IH. cbn [List.length] in IH.
      replace (List.length done + 1)%nat with (S (List.length done)) in IH by lia.
      rewrite IH; [now rewrite extend_indexes_app| |assumption|assumption].
      now rewrite <- List.app_assoc.
    + rewrite List.nth_error_app2 by lia. now rewrite Nat.sub_diag.
Qed.

(** The handler loop when some handler is malformed. *)
Lemma prepare_loop_bad length stride hs todo :
  forall done s,
    hs = done ++ todo ->
    same_setup length stride hs s ->
    Forall (fun h => input (fst h) <> []) todo ->
    Exists (fun h => config_ok length stride h = false) todo ->
    exists e s',
      for_each (List.map Z.of_nat (seq (List.length done) (List.length todo)))
               prepare_handler s = (Raise e, s')
      /\ ConfigurationError e.
Proof.
  induction todo as [|h todo IH]; intros done s Hhs Hsetup Hin Hex.
  - inversion Hex.
  - inversion Hin as [|? ? Hih Hit]; subst.
    assert (Hn : nth_error (done ++ h :: todo) (List.length done) = Some h).
    { rewrite List.nth_error_app2 by lia. now rewrite Nat.sub_diag. }
    cbn [List.length seq List.map for_each]. unfold bind.
    destruct (config_ok length stride h) eqn:Hc.
    + destruct (proj1 (config_ok_valid _ _ _) Hc) as [L0 [L1 [S0 [S1 [-> [-> Hv]]]]]].
      rewrite (prepare_handler_run _ h L0 L1 S0 S1 _ s Hsetup Hn Hv).
      inversion Hex as [? ? Hbad|? ? Hbad]; subst; [congruence|].
      specialize (IH (done ++ [h])).
      rewrite List.length_app in IH. cbn [List.length] in IH.
      replace (List.length done + 1)%nat with (S (List.length done)) in IH by lia.
      apply IH; [now rewrite <- List.app_assoc|assumption|assumption|assumption].
    + destruct (prepare_handler_bad _ h _ _ _ s Hsetup Hn Hih Hc) as [e [-> He]].
      now exists e, s.
Qed.

Lemma prepare_indices_unfold self :
  prepare_indices self
  = for_each (List.map Z.of_nat (seq 0 (List.length (Self.handlers self))))
             prepare_handler self.
Proof.
  unfold prepare_indices, bind, get, lift. unfold len. now rewrite range_len.
Qed.

(** ** Membership in the emitted tiles *)

Lemma in_tiles e i L0 L1 xs ys :
  List.In e (tiles i L0 L1 xs ys) <->
  exists x y, List.In x xs /\ List.In y ys /\ e = tile i L0 L1 x y.
Proof.
  unfold tiles. rewrite List.in_flat_map. split.
  - intros [x [Hx Hin]]. apply List.in_map_iff in Hin as [y [<- Hy]]. now exists x, y.
  - intros [x [y [Hx [Hy ->]]]]. exists x. split; [assumption|].
    apply List.in_map_iff. now exists y.
Qed.

Lemma in_all_tiles e L0 L1 S0 S1 hs :
  forall n,
    List.In e (all_tiles n L0 L1 S0 S1 hs) <->
    exists i h x y,
      nth_error hs i = Some h /\
      List.In x (spec_starts (height h) L0 S0) /\
      List.In y (spec_starts (width h) L1 S1) /\
      e = tile (Z.of_nat (n + i)) L0 L1 x y.
Proof.
  induction hs as [|h hs IH]; intros n; cbn [all_tiles].
  - split; [intros []|]. intros [i [h [x [y [Hn _]]]]]. now destruct i.
  - rewrite List.in_app_iff, in_tiles, IH. split.
    + intros [[x [y [Hx [Hy ->]]]]|[i [h' [x [y [Hn [Hx [Hy ->]]]]]]]].
      * exists 0%nat, h, x, y. rewrite Nat.add_0_r. now repeat split.
      * exists (S i), h', x, y. rewrite Nat.add_succ_r. now repeat split.
    + intros [[|i] [h' [x [y [Hn [Hx [Hy ->]]]]]]].
      * left. cbn in Hn. injection Hn as <-. exists x, y. rewrite Nat.add_0_r.
        now repeat split.
      * right. exists i, h', x, y. rewrite Nat.add_succ_r. now repeat split.
Qed.

(** ** What [prepare_indices] emits, and when it raises *)

Lemma prepare_indices_emits_tiles_aux self L0 L1 S0 S1 :
  Self.length self = [L0; L1] ->
  Self.stride self = [S0; S1] ->
  Forall (valid_handler L0 L1 S0 S1) (Self.handlers self) ->
  prepare_indices self
  = (Ok tt, extend_indexes (all_tiles 0 L0 L1 S0 S1 (Self.handlers self)) self).
Proof.
  intros Hl Hs Hv. rewrite prepare_indices_unfold.
  apply (prepare_loop_ok L0 L1 S0 S1 (Self.handlers self) (Self.handlers self) [] self);
    [reflexivity| |assumption].
  repeat split; assumption.
Qed.

(** C1 (amended). For a dataset whose length [L0, L1] and stride
    [S0, S1] pass the validation on every handler, [prepare_indices]
    raises nothing and appends, handler by handler, exactly one record
    per pair of starts of the spec's per-axis sequences (candidates
    0, S, 2S, ... while start < size-L+S, each clamped to size-L when
    start+L > size), x-major. For size=10, L=4, S=3 that sequence is
    [0,3,6]: the candidate 9 is not generated and no tile is repeated. *)
Theorem prepare_indices_emits_spec_tiles self L0 L1 S0 S1 :
  Self.length self = [L0; L1] ->
  Self.stride self = [S0; S1] ->
  Forall (valid_handler L0 L1 S0 S1) (Self.handlers self) ->
  prepare_indices self
  = (Ok tt, extend_indexes (all_tiles 0 L0 L1 S0 S1 (Self.handlers self)) self)
  /\ spec_starts 10 4 3 = [0; 3; 6].
Proof.
  intros Hl Hs Hv. split.
  - now apply prepare_indices_emits_tiles_aux.
  - rewrite spec_starts_range by lia. reflexivity.
Qed.

(** C2. Under the build preconditions 0 < S <= L <= size on both axes of
    every handler, [prepare_indices] succeeds; every appended entry is a
    patch record of some handler with x_max-x_min = length[0],
    y_max-y_min = length[1] and its window inside that handler's shape;
    and every position of every handler lies in the window of some
    record of that handler. *)
Theorem patches_cover_every_handler self L0 L1 S0 S1 :
  Self.length self = [L0; L1] ->
  Self.stride self = [S0; S1] ->
  Forall (valid_handler L0 L1 S0 S1) (Self.handlers self) ->
  exists es,
    prepare_indices self = (Ok tt, extend_indexes es self) /\
    (forall e, List.In e es ->
       exists c i h,
         e = Patch c /\ handler_index c = Z.of_nat i /\
         nth_error (Self.handlers self) i = Some h /\
         x_max c - x_min c = L0 /\ y_max c - y_min c = L1 /\ window_in c h) /\
    (forall i h px py,
       nth_error (Self.handlers self) i = Some h ->
       0 <= px < height h -> 0 <= py < width h ->
       exists c, List.In (Patch c) es /\ handler_index c = Z.of_nat i /\ covers c px py).
Proof.
  intros Hl Hs Hv. exists (all_tiles 0 L0 L1 S0 S1 (Self.handlers self)).
  split; [apply (prepare_indices_emits_tiles_aux self L0 L1 S0 S1 Hl Hs Hv)|]. split.
  - intros e He. apply in_all_tiles in He as [i [h [x [y [Hn [Hx [Hy ->]]]]]]].
    pose proof (proj1 (List.Forall_forall _ _) Hv h (nth_error_In _ _ Hn)) as [Hv0 Hv1].
    apply (spec_starts_bounds _ _ _ _ Hv0) in Hx.
    apply (spec_starts_bounds _ _ _ _ Hv1) in Hy.
    eexists _, i, h. split; [reflexivity|]. cbn.
    split; [reflexivity|]. split; [assumption|].
    split; [lia|]. split; [lia|]. unfold window_in. cbn. lia.
  - intros i h px py Hn Hpx Hpy.
    pose proof (proj1 (List.Forall_forall _ _) Hv h (nth_error_In _ _ Hn)) as [Hv0 Hv1].
    destruct (spec_starts_cover px _ _ _ Hv0 Hpx) as [x [Hx Hcx]].
    destruct (spec_starts_cover py _ _ _ Hv1 Hpy) as [y [Hy Hcy]].
    eexists. split.
    + apply in_all_tiles. exists i, h, x, y. now repeat split.
    + cbn. split; [reflexivity|]. unfold covers. cbn. lia.
Qed.

(** C3 (amended). Provided every handler holds at least one input
    array: if some handler is malformed for the dataset's length and
    stride (length or stride not 2-dimensional, or on some axis
    stride <= 0, stride > length or length > shape), [prepare_indices]
    raises one of its three configuration errors; if no handler is
    malformed (in particular when there is no handler at all), it
    succeeds and only appends entries. *)
Theorem prepare_indices_configuration_error self :
  Forall (fun h => input (fst h) <> []) (Self.handlers self) ->
  (Exists (malformed (Self.length self) (Self.stride self)) (Self.handlers self) ->
   exists e self', prepare_indices self = (Raise e, self') /\ ConfigurationError e)
  /\
  (Forall (fun h => ~ malformed (Self.length self) (Self.stride self) h)
          (Self.handlers self) ->
   exists es, prepare_indices self = (Ok tt, extend_indexes es self)).
Proof.
  intros Hin. split.
  - intros Hex. rewrite prepare_indices_unfold.
    apply (prepare_loop_bad (Self.length self) (Self.stride self)
             (Self.handlers self) (Self.handlers self) [] self);
      [reflexivity|now repeat split|assumption|].
    apply List.Exists_exists in Hex as [h [Hh Hm]]. apply List.Exists_exists.
    exists h. split; [assumption|]. now apply malformed_iff.
  - intros Hok.
    destruct (Self.handlers self) as [|h0 hs] eqn:Hhs.
    + exists []. rewrite prepare_indices_unfold, Hhs. cbn.
      now rewrite extend_indexes_nil.
    + assert (Hc0 : config_ok (Self.length self) (Self.stride self) h0 = true).
      { inversion Hok as [|? ? Hn0 _]; subst.
        destruct (config_ok _ _ h0) eqn:Hc; [reflexivity|].
        exfalso. apply Hn0. now apply malformed_iff. }
      destruct (proj1 (config_ok_valid _ _ _) Hc0) as [L0 [L1 [S0 [S1 [Hl [Hs _]]]]]].
      exists (all_tiles 0 L0 L1 S0 S1 (Self.handlers self)).
      apply prepare_indices_emits_tiles_aux; [assumption|assumption|].
      rewrite Hhs. apply List.Forall_forall. intros h Hh.
      pose proof (proj1 (List.Forall_forall _ _) Hok h Hh) as Hn.
      destruct (config_ok (Self.length self) (Self.stride self) h) eqn:Hc.
      * destruct (proj1 (config_ok_valid _ _ _) Hc) as [L0' [L1' [S0' [S1' [Hl' [Hs' Hv]]]]]].
        rewrite Hl in Hl'. rewrite Hs in Hs'.
        injection Hl' as -> ->. injection Hs' as -> ->. exact Hv.
      * exfalso. apply Hn. now apply malformed_iff.
Qed.

Lemma load_slice_rejected `{Collaborators} self sl :
  accepted self sl = false -> load_slice sl self = (Ok tt, self).
Proof.
  unfold accepted, load_slice, bind, get. intros Ha.
  destruct (match Self.slice_filter_fn self with
            | Some f => negb (f (slice_seg_pair sl))
            | None => false
            end); [reflexivity|].
  cbn [negb andb] in Ha.
  destruct (Self.slice_filter_roi self
            && filter_roi (roi_gt (slice_roi_pair sl)) (Self.roi_thr self));
    [reflexivity|discriminate].
Qed.

Lemma for_each_unchanged {S A} (body : A -> M S unit) (l : list A) (s : S) :
  Forall (fun x => body x s = (Ok tt, s)) l -> for_each l body s = (Ok tt, s).
Proof.
  induction 1 as [|x l Hx _ IH]; [reflexivity|].
  cbn [for_each]. unfold bind. now rewrite Hx.
Qed.

(** C10. With patching enabled and no slice accepted by the load phase,
    [load_filenames] raises nothing, whatever [self.length] and
    [self.stride] are: the handler list is empty, so the validation
    inside the handler loop of [prepare_indices] never runs, and the
    dataset has length 0. *)
Theorem load_filenames_nothing_accepted `{Collaborators} self filename_pairs :
  Self.is_2d_patch self = true ->
  Self.indexes self = [] ->
  Self.handlers self = [] ->
  Forall (Forall (fun sl => accepted self sl = false)) filename_pairs ->
  load_filenames filename_pairs self = (Ok tt, self)
  /\ prepare_indices self = (Ok tt, self)
  /\ __len__ self = 0.
Proof.
  intros Hp Hi Hh Hrej.
  assert (Hprep : prepare_indices self = (Ok tt, self)).
  { rewrite prepare_indices_unfold, Hh. reflexivity. }
  split; [|split; [exact Hprep|]].
  - unfold load_filenames, bind.
    rewrite for_each_unchanged.
    + unfold get. now rewrite Hp.
    + apply List.Forall_forall. intros slices Hs. apply for_each_unchanged.
      apply List.Forall_forall. intros sl Hsl. apply load_slice_rejected.
      pose proof (proj1 (List.Forall_forall _ _) Hrej slices Hs) as Hf.
      exact (proj1 (List.Forall_forall _ _) Hf sl Hsl).
  - unfold __len__. now rewrite Hi.
Qed.

Lemma ds10_valid : Forall (valid_handler 4 4 3 3) (Self.handlers ds10).
Proof.
  constructor; [|constructor]. unfold valid_handler, valid_axis.
  change (height (bundle (zeros 10 10))) with 10.
  change (width (bundle (zeros 10 10))) with 10. lia.
Defined.

Lemma prepare_indices_emits_spec_tiles_witness :
  prepare_indices ds10
  = (Ok tt, extend_indexes (all_tiles 0 4 4 3 3 (Self.handlers ds10)) ds10)
  /\ spec_starts 10 4 3 = [0; 3; 6].
Proof.
  apply (prepare_indices_emits_spec_tiles ds10 4 4 3 3);
    [reflexivity|reflexivity|exact ds10_valid].
Defined.

(** C1 as stated fails: for size=10, L=4, S=3 the builder emits the
    product of [0,3,6] with itself (nine records), not the product of
    [0,3,6,6] with itself. *)
Lemma prepare_indices_10_4_3_counterexample :
  Self.indexes (snd (prepare_indices ds10)) = tiles 0 4 4 [0; 3; 6] [0; 3; 6]
  /\ Self.indexes (snd (prepare_indices ds10)) <> tiles 0 4 4 [0; 3; 6; 6] [0; 3; 6; 6].
Proof.
  split; [vm_compute; reflexivity|].
  intros Heq. apply (f_equal (@List.length index_entry)) in Heq.
  vm_compute in Heq. discriminate.
Qed.

Lemma patches_cover_every_handler_witness :
  exists es,
    prepare_indices ds10 = (Ok tt, extend_indexes es ds10) /\
    (forall e, List.In e es ->
       exists c i h,
         e = Patch c /\ handler_index c = Z.of_nat i /\
         nth_error (Self.handlers ds10) i = Some h /\
         x_max c - x_min c = 4 /\ y_max c - y_min c = 4 /\ window_in c h) /\
    (forall i h px py,
       nth_error (Self.handlers ds10) i = Some h ->
       0 <= px < height h -> 0 <= py < width h ->
       exists c, List.In (Patch c) es /\ handler_index c = Z.of_nat i /\ covers c px py).
Proof.
  apply (patches_cover_every_handler ds10 4 4 3 3);
    [reflexivity|reflexivity|exact ds10_valid].
Defined.

Lemma prepare_indices_configuration_error_witness :
  (exists e self', prepare_indices ds_stride5 = (Raise e, self') /\ ConfigurationError e)
  /\ (exists es, prepare_indices ds10 = (Ok tt, extend_indexes es ds10)).
Proof.
  split.
  - apply (proj1 (prepare_indices_configuration_error ds_stride5
                    ltac:(repeat constructor; discriminate))).
    constructor. right. right. exists 0%nat, 4, 5, 10. split; [reflexivity|].
    right. left. lia.
  - apply (proj2 (prepare_indices_configuration_error ds10
                    ltac:(repeat constructor; discriminate))).
    constructor; [|constructor]. intros Hm. apply malformed_iff in Hm.
    vm_compute in Hm. discriminate.
Defined.

(** C3 as stated fails: patching is requested with stride > length, yet
    with no accepted slice [prepare_indices] raises nothing. *)
Lemma prepare_indices_no_handler_counterexample :
  Self.is_2d_patch ds_empty = true
  /\ Self.length ds_empty = [4; 4] /\ Self.stride ds_empty = [5; 5]
  /\ ~ (exists e self', prepare_indices ds_empty = (Raise e, self')).
Proof.
  repeat split. intros [e [self' Hr]]. vm_compute in Hr. discriminate.
Qed.

(** ** What the load phase leaves behind *)

Lemma prepare_handler_no_input (i : nat) h length stride hs s :
  same_setup length stride hs s ->
  nth_error hs i = Some h ->
  input (fst h) = [] ->
  prepare_handler (Z.of_nat i) s = (Raise IndexError, s).
Proof.
  intros [Hl [Hs Hh]] Hn Hin. unfold prepare_handler, bind, get, lift.
  now rewrite Hh, (py_index_nat _ _ _ Hn), Hin.
Qed.

(** The handler loop raises as soon as a handler does not pass. *)
Lemma prepare_loop_raises length stride hs todo :
  forall done s,
    hs = done ++ todo ->
    same_setup length stride hs s ->
    Exists (fun h => config_ok length stride h = false) todo ->
    exists e s',
      for_each (List.map Z.of_nat (seq (List.length done) (List.length todo)))
               prepare_handler s = (Raise e, s').
Proof.
  induction todo as [|h todo IH]; intros done s Hhs Hsetup Hex.
  - inversion Hex.
  - subst hs.
    assert (Hn : nth_error (done ++ h :: todo) (List.length done) = Some h).
    { rewrite List.nth_error_app2 by lia. now rewrite Nat.sub_diag. }
    cbn [List.length seq List.map for_each]. unfold bind.
    destruct (config_ok length stride h) eqn:Hc.
    + destruct (proj1 (config_ok_valid _ _ _) Hc) as [L0 [L1 [S0 [S1 [-> [-> Hv]]]]]].
      rewrite (prepare_handler_run _ h L0 L1 S0 S1 _ s Hsetup Hn Hv).
      inversion Hex as [? ? Hbad|? ? Hbad]; subst; [congruence|].
      specialize (IH (done ++ [h])).
      rewrite List.length_app in IH. cbn [List.length] in IH.
      replace (List.length done + 1)%nat with (S (List.length done)) in IH by lia.
      apply IH; [now rewrite <- List.app_assoc|assumption|assumption].
    + destruct (input (fst h)) as [|a0 rest] eqn:Hin.
      * rewrite (prepare_handler_no_input _ h _ _ _ s Hsetup Hn Hin). now eexists _, _.
      * destruct (prepare_handler_bad _ h _ _ _ s Hsetup Hn) as [e [-> _]];
          [congruence|assumption|now eexists _, _].
Qed.

(** A successful [prepare_indices] found every handler valid and
    appended the tiles of all of them. *)
Lemma prepare_indices_Ok self self' :
  prepare_indices self = (Ok tt, self') ->
  (Self.handlers self = [] /\ self' = self)
  \/ exists L0 L1 S0 S1,
       Self.length self = [L0; L1] /\ Self.stride self = [S0; S1] /\
       Forall (valid_handler L0 L1 S0 S1) (Self.handlers self) /\
       self' = extend_indexes (all_tiles 0 L0 L1 S0 S1 (Self.handlers self)) self.
Proof.
  intros Hrun.
  destruct (Self.handlers self) as [|h0 hs] eqn:Hhs.
  - left. split; [reflexivity|].
    rewrite prepare_indices_unfold, Hhs in Hrun. cbn in Hrun. unfold ret in Hrun.
    congruence.
  - right.
    destruct (forallb (config_ok (Self.length self) (Self.stride self)) (h0 :: hs)) eqn:Hall.
    + rewrite List.forallb_forall in Hall.
      destruct (proj1 (config_ok_valid _ _ _) (Hall h0 (or_introl eq_refl)))
        as [L0 [L1 [S0 [S1 [Hl [Hs _]]]]]].
      exists L0, L1, S0, S1. split; [assumption|]. split; [assumption|].
      assert (Hv : Forall (valid_handler L0 L1 S0 S1) (Self.handlers self)).
      { rewrite Hhs. apply List.Forall_forall. intros h Hh.
        destruct (proj1 (config_ok_valid _ _ _) (Hall h Hh))
          as [L0' [L1' [S0' [S1' [Hl' [Hs' Hv]]]]]].
        rewrite Hl in Hl'. rewrite Hs in Hs'.
        injection Hl' as -> ->. injection Hs' as -> ->. exact Hv. }
      rewrite <- Hhs. split; [assumption|].
      rewrite (prepare_indices_emits_tiles_aux self L0 L1 S0 S1 Hl Hs Hv) in Hrun.
      congruence.
    + exfalso.
      assert (Hex : Exists (fun h => config_ok (Self.length self) (Self.stride self) h = false)
                           (Self.handlers self)).
      { rewrite Hhs. apply List.Exists_exists.
        destruct (List.forallb_forall (config_ok (Self.length self) (Self.stride self))
                                      (h0 :: hs)) as [_ Hall'].
        destruct (List.existsb_exists
                    (fun h => negb (config_ok (Self.length self) (Self.stride self) h))
                    (h0 :: hs)) as [Hex _].
        destruct (existsb _ (h0 :: hs)) eqn:He.
        - destruct (Hex eq_refl) as [h [Hh Hb]]. exists h. split; [assumption|].
          now destruct (config_ok _ _ h).
        - rewrite Hall' in Hall; [discriminate|]. intros h Hh.
          destruct (config_ok _ _ h) eqn:Hc; [reflexivity|].
          assert (existsb (fun h => negb (config_ok (Self.length self) (Self.stride self) h))
                          (h0 :: hs) = true); [|congruence].
          apply List.existsb_exists. exists h. split; [assumption|]. now rewrite Hc. }
      rewrite prepare_indices_unfold in Hrun.
      destruct (prepare_loop_raises (Self.length self) (Self.stride self)
                  (Self.handlers self) (Self.handlers self) [] self eq_refl
                  ltac:(now repeat split) Hex) as [e [s' Hr]].
      cbn [List.length] in Hr. congruence.
Qed.

(** A loop that returned preserved every invariant its body preserves. *)
Lemma for_each_invariant {S A} (I : S -> Prop) (P : A -> Prop)
    (body : A -> M S unit) (l : list A) :
  (forall x s s', P x -> I s -> body x s = (Ok tt, s') -> I s') ->
  Forall P l ->
  forall s s', I s -> for_each l body s = (Ok tt, s') -> I s'.
Proof.
  intros Hbody HP. induction HP as [|x l Hx _ IH]; intros s s' Hs Hrun.
  - cbn in Hrun. unfold ret in Hrun. congruence.
  - cbn [for_each] in Hrun. unfold bind in Hrun.
    destruct (body x s) as [[[]|e] s1] eqn:Hb; [|discriminate].
    exact (IH s1 s' (Hbody x s s1 Hx Hs Hb) Hrun).
Qed.

Lemma tag_index_shape_gt it it' :
  tag_index_shape it = Ok it' -> gt (fst it') = gt (fst it).
Proof.
  unfold tag_index_shape. intros Ht.
  destruct (input_metadata (fst it)); [|discriminate].
  destruct (map_result _ _); [|discriminate]. now injection Ht as <-.
Qed.

Lemma load_slice_loading `{Collaborators} patch sl s s' :
  gt_well_formed (gt (fst (preprocessed sl))) ->
  loading patch s -> load_slice sl s = (Ok tt, s') -> loading patch s'.
Proof.
  intros Hwf [Hp Hinv] Hrun. unfold load_slice, bind, get in Hrun.
  destruct (match Self.slice_filter_fn s with
            | Some f => negb (f (slice_seg_pair sl))
            | None => false
            end); [unfold ret in Hrun; injection Hrun as <-; now split|].
  destruct (Self.slice_filter_roi s
            && filter_roi (roi_gt (slice_roi_pair sl)) (Self.roi_thr s));
    [unfold ret in Hrun; injection Hrun as <-; now split|].
  unfold lift in Hrun.
  destruct (apply_preprocessing_transforms sl) as [it|] eqn:Hit; [|discriminate].
  assert (it = preprocessed sl) as ->.
  { unfold apply_preprocessing_transforms in Hit.
    destruct (module_attribute _); congruence. }
  rewrite Hp in Hrun. destruct patch.
  - unfold lift, modify in Hrun.
    destruct (tag_index_shape (preprocessed sl)) as [it'|] eqn:Ht; [|discriminate].
    injection Hrun as <-. split; [exact Hp|]. destruct Hinv as [Hi Hh].
    split; [exact Hi|]. cbn. apply List.Forall_app. split; [exact Hh|].
    constructor; [|constructor]. now rewrite (tag_index_shape_gt _ _ Ht).
  - unfold modify in Hrun. injection Hrun as <-. split; [exact Hp|].
    destruct Hinv as [Hh Hwb]. split; [exact Hh|].
    unfold well_built in *. cbn. apply List.Forall_app. split.
    + eapply List.Forall_impl; [|exact Hwb]. intros e He. destruct e; exact He.
    + constructor; [|constructor]. cbn. now split.
Qed.

(** A dataset that [load_filenames] built without raising, from slices
    with well-formed ground truths, is well built. *)
Lemma load_filenames_well_built `{Collaborators} filename_pairs self self' :
  Self.indexes self = [] -> Self.handlers self = [] ->
  Forall (Forall (fun sl => gt_well_formed (gt (fst (preprocessed sl))))) filename_pairs ->
  load_filenames filename_pairs self = (Ok tt, self') ->
  well_built self'.
Proof.
  intros Hi Hh Hwf Hrun. unfold load_filenames, bind in Hrun.
  destruct (for_each filename_pairs (fun slices => for_each slices load_slice) self)
    as [[[]|e] s1] eqn:Hloop; [|discriminate].
  assert (Hload : loading (Self.is_2d_patch self) s1).
  { apply (for_each_invariant (loading (Self.is_2d_patch self))
             (Forall (fun sl => gt_well_formed (gt (fst (preprocessed sl)))))
             (fun slices => for_each slices load_slice) filename_pairs) with (s := self);
      [|assumption| |assumption].
    - intros slices s s' Hs Hl Hr.
      apply (for_each_invariant (loading (Self.is_2d_patch self))
               (fun sl => gt_well_formed (gt (fst (preprocessed sl))))
               load_slice slices) with (s := s); try assumption.
      intros sl s2 s2' Hsl Hl2 Hr2. exact (load_slice_loading _ sl s2 s2' Hsl Hl2 Hr2).
    - split; [reflexivity|]. unfold well_built. rewrite Hi, Hh.
      destruct (Self.is_2d_patch self); split; (reflexivity || constructor). }
  unfold get in Hrun. destruct Hload as [Hp Hinv].
  destruct (Self.is_2d_patch self); rewrite Hp in Hrun.
  - destruct Hinv as [Hi1 Hh1].
    destruct (prepare_indices_Ok s1 self' Hrun)
      as [[_ ->]|[L0 [L1 [S0 [S1 [Hl [Hs [Hv ->]]]]]]]].
    + unfold well_built. rewrite Hi1. constructor.
    + unfold well_built. cbn. rewrite Hi1. cbn.
      apply List.Forall_forall. intros e He.
      apply in_all_tiles in He as [i [h [x [y [Hn [Hx [Hy ->]]]]]]].
      pose proof (proj1 (List.Forall_forall _ _) Hv h (nth_error_In _ _ Hn)) as [Hv0 Hv1].
      apply (spec_starts_bounds _ _ _ _ Hv0) in Hx.
      apply (spec_starts_bounds _ _ _ _ Hv1) in Hy.
      destruct Hv0 as [? [? ?]]. destruct Hv1 as [? [? ?]].
      cbn. split; [exact Hp|]. split; [lia|]. split; [lia|].
      exists h. split; [now apply py_index_nat|].
      exact (proj1 (List.Forall_forall _ _) Hh1 h (nth_error_In _ _ Hn)).
  - unfold ret in Hrun. injection Hrun as <-. exact (proj2 Hinv).
Qed.

(* ===================================================================== *)
(** * Properties of the sample assembler *)
(* ===================================================================== *)

Section Fetch.
Context `{Collaborators}.

Lemma calls_logged evs w : calls (logged evs w) = calls w ++ evs.
Proof.
  revert w. induction evs as [|e evs IH]; intros w; cbn.
  - now rewrite List.app_nil_r.
  - rewrite IH. cbn. now rewrite <- List.app_assoc.
Qed.

Lemma cursor_logged evs w : cursor (logged evs w) = cursor w.
Proof. revert w. induction evs as [|e evs IH]; intros w; cbn; [reflexivity|now rewrite IH]. Qed.

(** A fetch whose index resolves and whose rater block succeeds: its
    outcome and its world. *)
Lemma getitem_run self index w coord it picked w1 :
  resolve self index = Ok (coord, it) ->
  pick_rater (gt (fst it)) w = (Ok picked, w1) ->
  __getitem__ self index w
  = (fetch_outcome self coord it picked, logged (pipeline_calls self it picked) w1).
Proof.
  intros Hr Hp. unfold __getitem__, bind at 1, lift at 1. rewrite Hr.
  unfold bind at 1. cbn [fst snd]. rewrite Hp.
  unfold fetch_outcome, gt_out, pipeline_calls, gt_stack, call_transform,
    call_update_metadata, bind, log, modify, ret, lift, raise.
  cbn [fst snd].
  fold (roi_out it). fold (merged_input_metadata it). fold (input_out it).
  fold (merged_gt_metadata it (snd picked)).
  destruct (String.eqb (Self.task self) "segmentation"); cbn [fst snd].
  - destruct (assemble _ _ _ _ _ _ _); [|reflexivity].
    destruct (Self.is_input_dropout self); reflexivity.
  - destruct (fst picked) as [g|]; [|reflexivity].
    destruct (py_index g 0) as [a|]; [|reflexivity]. cbn [fst snd].
    destruct (from_numpy_expand a) as [stack_gt|]; [|reflexivity]. cbn [fst snd].
    destruct (assemble _ _ _ _ _ _ _); [|reflexivity].
    destruct (Self.is_input_dropout self); reflexivity.
Qed.

(** A fetch whose index does not resolve raises before anything else. *)
Lemma getitem_unresolved self index w e :
  resolve self index = Raise e -> __getitem__ self index w = (Raise e, w).
Proof. intros Hr. unfold __getitem__, bind, lift. now rewrite Hr. Qed.

(** A fetch whose rater block raises stops there. *)
Lemma getitem_rater_failed self index w coord it e w1 :
  resolve self index = Ok (coord, it) ->
  pick_rater (gt (fst it)) w = (Raise e, w1) ->
  __getitem__ self index w = (Raise e, w1).
Proof.
  intros Hr Hp. unfold __getitem__, bind at 1, lift at 1. rewrite Hr.
  unfold bind at 1. cbn [fst snd]. now rewrite Hp.
Qed.

End Fetch.

(** ** List indexing *)

Lemma py_index_outside {A} (l : list A) (i : Z) :
  i < - len l \/ len l <= i -> py_index l i = Raise IndexError.
Proof.
  unfold py_index, len. intros Hi.
  destruct (Z.ltb_spec i 0).
  - destruct (Z.ltb_spec (i + Z.of_nat (List.length l)) 0); [reflexivity|lia].
  - destruct (Z.ltb_spec i 0); [lia|].
    destruct (nth_error l (Z.to_nat i)) eqn:Hn; [|reflexivity].
    assert (Hs : nth_error l (Z.to_nat i) <> None) by congruence.
    apply List.nth_error_Some in Hs. lia.
Qed.

Lemma py_index_inside {A} (l : list A) (i : Z) :
  0 <= i < len l -> exists x, py_index l i = Ok x /\ nth_error l (Z.to_nat i) = Some x.
Proof.
  unfold py_index, len. intros Hi.
  destruct (Z.ltb_spec i 0); [lia|]. destruct (Z.ltb_spec i 0); [lia|].
  destruct (nth_error l (Z.to_nat i)) eqn:Hn; [now eexists|].
  apply List.nth_error_None in Hn. lia.
Qed.

Lemma py_index_negative {A} (l : list A) (i : Z) :
  - len l <= i < 0 -> py_index l i = py_index l (i + len l).
Proof.
  unfold py_index. intros Hi.
  destruct (Z.ltb_spec i 0); [|lia].
  destruct (Z.ltb_spec (i + len l) 0); [lia|].
  destruct (Z.ltb_spec (i + len l) 0); [lia|reflexivity].
Qed.

Lemma py_index_Ok {A} (l : list A) (i : Z) (x : A) :
  py_index l i = Ok x -> List.In x l /\ - len l <= i < len l.
Proof.
  intros Hx. split.
  - unfold py_index in Hx. destruct (_ <? 0); [discriminate|].
    destruct (nth_error l _) eqn:Hn; [|discriminate].
    injection Hx as <-. eapply nth_error_In, Hn.
  - destruct (Z_lt_dec i (- len l)); [rewrite py_index_outside in Hx by lia; discriminate|].
    destruct (Z_le_dec (len l) i); [rewrite py_index_outside in Hx by lia; discriminate|].
    lia.
Qed.

Lemma map_result_Ok {A B} (f : A -> result B) (l : list A) :
  Forall (fun x => exists y, f x = Ok y) l -> exists ys, map_result f l = Ok ys.
Proof.
  induction 1 as [|x l [y Hy] _ [ys IH]]; [now exists []|].
  exists (y :: ys). cbn. now rewrite Hy, IH.
Qed.

Lemma map_result_Forall2 {A B} (f : A -> result B) (l : list A) (ys : list B) :
  map_result f l = Ok ys -> Forall2 (fun x y => f x = Ok y) l ys.
Proof.
  revert ys. induction l as [|x l IH]; intros ys Hm; cbn in Hm.
  - injection Hm as <-. constructor.
  - destruct (f x) as [y|] eqn:Hy; [|discriminate].
    destruct (map_result f l) as [ys'|]; [|discriminate].
    injection Hm as <-. constructor; [assumption|now apply IH].
Qed.

(** ** The rater block *)

Section FetchClaims.
Context `{Collaborators}.

(** The rater block on a multi-rater ground truth, step by step. *)
Lemma pick_rater_multi classes w :
  pick_rater (MultiRater classes) w =
  match py_index classes 0 with
  | Raise e => (Raise e, w)
  | Ok class0 =>
      let n := len (fst class0) in
      if n - 1 <? 0 then (Raise ValueError, w)
      else
        let idx_rater := 0 + entropy w (cursor w) mod (n - 1 - 0 + 1) in
        let w1 := {| entropy := entropy w; cursor := S (cursor w);
                     calls := calls w ++ [RandInt 0 (n - 1) idx_rater] |} in
        match map_result (pick_class idx_rater) classes with
        | Raise e => (Raise e, w1)
        | Ok picked => (Ok (Some (List.map fst picked), Some (List.map snd picked)), w1)
        end
  end.
Proof.
  unfold pick_rater, bind, lift, randint.
  destruct (py_index classes 0) as [class0|]; [|reflexivity].
  cbn zeta. destruct (len (fst class0) - 1 <? 0); [reflexivity|].
  unfold bind, get, modify, log, ret, modify. cbn [entropy cursor calls].
  reflexivity.
Qed.

(** The rater block logs random draws only, at most one. *)
Lemma pick_rater_draws g w :
  exists draws,
    Forall is_draw draws /\ calls (snd (pick_rater g w)) = calls w ++ draws.
Proof.
  assert (Hnone : forall w' : world, calls w' = calls w ->
                    exists draws, Forall is_draw draws /\ calls w' = calls w ++ draws).
  { intros w' Hw. exists []. split; [constructor|]. rewrite Hw. symmetry. apply List.app_nil_r. }
  destruct g as [m|g m|classes].
  - now apply Hnone.
  - unfold pick_rater, bind, lift, ret. destruct (py_index g 0); now apply Hnone.
  - rewrite pick_rater_multi.
    destruct (py_index classes 0) as [class0|]; [|now apply Hnone].
    cbn zeta. destruct (len (fst class0) - 1 <? 0); [now apply Hnone|].
    exists [RandInt 0 (len (fst class0) - 1)
              (0 + Z.modulo (entropy w (cursor w)) (len (fst class0) - 1 - 0 + 1))].
    split; [repeat constructor|]. cbv zeta.
    match goal with
    | |- context [match ?x with Ok _ => _ | Raise _ => _ end] => destruct x
    end; reflexivity.
Qed.

(** ** The order of the collaborator calls *)

Lemma update_metadata_overrides : merge_overrides update_metadata.
Proof.
  intros src_lst. induction src_lst as [|src srcs IH]; intros dest_lst.
  - split; [now destruct dest_lst|]. intros k dest Hk. exists dest.
    split; [now destruct dest_lst|]. intros key. now destruct k.
  - destruct dest_lst as [|dest0 dests].
    + split; [reflexivity|]. intros k dest Hk. now destruct k.
    + destruct (IH dests) as [Hlen Hrec]. split; [cbn; now rewrite Hlen|].
      intros [|k] dest Hk; cbn in Hk |- *.
      * injection Hk as <-. exists (src ∪ dest0). split; [reflexivity|].
        intros key. rewrite lookup_union.
        destruct (src !! key), (dest0 !! key); reflexivity.
      * exact (Hrec k dest Hk).
Qed.

(** C4. Every fetch runs the pipeline in one order, on the channels of
    the item its index resolves to. A fetch whose index does not resolve
    raises at once and calls nothing. Otherwise the rater block comes
    first and logs random draws only; if it raises, the fetch raises with
    it and calls nothing more; if it returns, the fetch makes exactly
    these calls after the draws, in this order and whether or not a
    later step raises: the transform of the item's ROI channel with its
    ROI metadata and role "roi"; the merge of the metadata that call
    returned into the item's input metadata; the transform of the item's
    input channels with role "im" and that merged metadata; the merge of
    the metadata that call returned into the ground-truth metadata of
    the picked rater; and, for the segmentation task only, the transform
    of the picked ground truth with role "gt" and that second merged
    metadata. The merge follows the override policy. *)
Theorem transforms_run_in_fixed_order self index w :
  (forall e, resolve self index = Raise e -> __getitem__ self index w = (Raise e, w))
  /\
  (forall coord it,
     resolve self index = Ok (coord, it) ->
     exists draws,
       Forall is_draw draws /\
       calls (snd (pick_rater (gt (fst it)) w)) = calls w ++ draws /\
       (forall e w1,
          pick_rater (gt (fst it)) w = (Raise e, w1) ->
          __getitem__ self index w = (Raise e, w1)) /\
       (forall picked w1,
          pick_rater (gt (fst it)) w = (Ok picked, w1) ->
          let roi := transform (roi_gt (snd it)) (or_empty (roi_gt_metadata (snd it))) "roi" in
          let merged_input :=
            update_metadata (snd roi) (or_empty (input_metadata (fst it))) in
          let im := transform (Some (input (fst it))) merged_input "im" in
          let merged_gt := update_metadata (snd im) (or_empty (snd picked)) in
          calls (snd (__getitem__ self index w))
          = calls w ++ draws
            ++ [ Transform (roi_gt (snd it)) (or_empty (roi_gt_metadata (snd it))) "roi";
                 UpdateMetadata (snd roi) (or_empty (input_metadata (fst it)));
                 Transform (Some (input (fst it))) merged_input "im";
                 UpdateMetadata (snd im) (or_empty (snd picked)) ]
            ++ (if String.eqb (Self.task self) "segmentation"
                then [Transform (fst picked) merged_gt "gt"] else [])))
  /\ merge_overrides update_metadata.
Proof.
  split; [|split; [|exact update_metadata_overrides]].
  - intros e Hr. exact (getitem_unresolved self index w e Hr).
  - intros coord it Hr.
    destruct (pick_rater_draws (gt (fst it)) w) as [draws [Hd Hc]].
    exists draws. split; [assumption|]. split; [assumption|]. split.
    + intros e w1 Hp. exact (getitem_rater_failed self index w coord it e w1 Hr Hp).
    + intros picked w1 Hp. cbv zeta.
      rewrite (getitem_run self index w coord it picked w1 Hr Hp). cbn [snd].
      rewrite Hp in Hc. cbn [snd] in Hc.
      rewrite calls_logged, Hc. unfold pipeline_calls.
      fold (roi_out it). fold (merged_input_metadata it). fold (input_out it).
      fold (merged_gt_metadata it (snd picked)).
      now rewrite <- !List.app_assoc.
Qed.

(** ** One rater per fetch *)

Lemma pipeline_calls_no_draw self it picked :
  Forall (fun e => ~ is_draw e) (pipeline_calls self it picked).
Proof.
  unfold pipeline_calls. apply List.Forall_app. split.
  - repeat constructor; intros [].
  - destruct (String.eqb _ _); repeat constructor; intros [].
Qed.

Lemma Forall2_pick_class idx_rater classes picked :
  Forall2 (fun class y => pick_class idx_rater class = Ok y) classes picked ->
  Forall2 (fun class a => py_index (fst class) idx_rater = Ok a) classes (List.map fst picked)
  /\ Forall2 (fun class m => py_index (snd class) idx_rater = Ok m) classes (List.map snd picked).
Proof.
  induction 1 as [|class [a m] classes picked Hp _ [IH1 IH2]]; [split; constructor|].
  unfold pick_class in Hp.
  destruct (py_index (fst class) idx_rater) as [a'|] eqn:Ha; [|discriminate].
  destruct (py_index (snd class) idx_rater) as [m'|] eqn:Hm; [|discriminate].
  injection Hp as -> ->. split; constructor; assumption.
Qed.

(** C5. Every fetch that returns a sample from a bundle with
    multi-rater ground truth draws exactly one rater index, by one call
    [random.randint(0, n-1)] over the n raters of the first class, and
    selects with that index the array and the metadata record of every
    label class. *)
Theorem multi_rater_single_draw self index w coord it classes d w' :
  resolve self index = Ok (coord, it) ->
  gt (fst it) = MultiRater classes ->
  __getitem__ self index w = (Ok d, w') ->
  one_rater_for_all_classes self it classes w w'.
Proof.
  intros Hr Hg Hrun.
  destruct (pick_rater (gt (fst it)) w) as [[picked|e] w1] eqn:Hp.
  2: { rewrite (getitem_rater_failed self index w coord it e w1 Hr Hp) in Hrun.
       discriminate. }
  rewrite (getitem_run self index w coord it picked w1 Hr Hp) in Hrun.
  pose proof (f_equal snd Hrun) as Hw'. cbn [snd] in Hw'. clear Hrun.
  rewrite Hg, pick_rater_multi in Hp.
  destruct (py_index classes 0) as [class0|] eqn:H0; [|discriminate].
  cbv zeta in Hp.
  destruct (Z.ltb_spec (len (fst class0) - 1) 0) as [|Hn]; [discriminate|].
  destruct (map_result _ classes) as [sel|] eqn:Hsel; [|discriminate].
  injection Hp as Hpicked Hw1. rewrite <- Hpicked, <- Hw1 in Hw'. clear Hpicked Hw1.
  apply map_result_Forall2, Forall2_pick_class in Hsel as [Ha Hm].
  replace (len (fst class0) - 1 - 0 + 1) with (len (fst class0)) in * by lia.
  pose proof (Z.mod_pos_bound (entropy w (cursor w)) (len (fst class0)) ltac:(lia)).
  exists class0, (0 + Z.modulo (entropy w (cursor w)) (len (fst class0))),
         (List.map fst sel), (List.map snd sel).
  split; [exact H0|]. split; [lia|]. split; [lia|].
  split; [rewrite <- Hw'; now rewrite cursor_logged|].
  split; [rewrite <- Hw', calls_logged; cbn [calls]; now rewrite <- List.app_assoc|].
  split; [apply pipeline_calls_no_draw|]. now split.
Qed.

(** ** Cropping the patch window *)

Lemma slice_bound_nonneg n i : 0 <= i -> slice_bound n i = Z.min i n.
Proof. intros Hi. unfold slice_bound. destruct (Z.ltb_spec i 0); [lia|reflexivity]. Qed.

(** A slice holds the part of [lo, hi) that lies inside the sequence. *)
Lemma py_slice_length {A} (lo hi : Z) (l : list A) :
  0 <= lo <= hi -> len (py_slice lo hi l) = Z.min hi (len l) - Z.min lo (len l).
Proof.
  intros Hb. unfold py_slice. rewrite !slice_bound_nonneg by lia.
  unfold len. rewrite List.length_firstn, List.length_skipn. lia.
Qed.

Lemma torch_zeros_Ok c h w :
  0 <= c -> 0 <= h -> 0 <= w ->
  torch_zeros c h w
  = Ok (Tensor3 (repeat (repeat (repeat 0%Q (Z.to_nat w)) (Z.to_nat h)) (Z.to_nat c))).
Proof.
  intros Hc Hh Hw. unfold torch_zeros.
  destruct (Z.ltb_spec c 0); [lia|]. destruct (Z.ltb_spec h 0); [lia|].
  destruct (Z.ltb_spec w 0); [lia|]. reflexivity.
Qed.

Lemma assign_each_same {A} (n : nat) (x : A) : assign_each n (Ok x) x = Ok x.
Proof. induction n as [|n IH]; [reflexivity|exact IH]. Qed.

(** Overwriting the zero tensor once per channel leaves the window. *)
Lemma crop_each_zeros v c (plane : list (list Q)) :
  crop_each (Tensor3 v) c (Tensor3 (repeat plane (Z.to_nat (len v))))
  = Ok (Tensor3 (window_of c v)).
Proof.
  unfold crop_each, shape0, len. rewrite range_len, List.length_map, List.length_seq.
  destruct v as [|p v]; [reflexivity|].
  cbn [List.length assign_each crop_window]. apply assign_each_same.
Qed.

Lemma window_3d c stack sx sy :
  three_d stack -> 0 <= sx -> 0 <= sy ->
  exists zeros,
    zeros_for stack sx sy = Ok zeros /\
    crop_each_opt stack c zeros = Ok (window_opt c stack).
Proof.
  intros H3 Hx Hy. destruct stack as [[v|v]|]; [|destruct H3|now exists None].
  unfold zeros_for, shape0. rewrite torch_zeros_Ok by (unfold len; lia).
  eexists. split; [reflexivity|]. unfold crop_each_opt.
  now rewrite crop_each_zeros.
Qed.

(** The patch branch on 3-D stacks never raises: each stack is replaced
    by its window, clipped to the stack where the window exceeds it. *)
Lemma assemble_patch c v stack_gt stack_roi metadata_input metadata_gt metadata_roi :
  three_d stack_gt -> three_d stack_roi ->
  x_min c <= x_max c -> y_min c <= y_max c ->
  assemble (Some c) (Some (Tensor3 v)) stack_gt stack_roi
           metadata_input metadata_gt metadata_roi
  = Ok {| dd_input := Some (Tensor3 (window_of c v));
          dd_gt := window_opt c stack_gt;
          dd_roi := window_opt c stack_roi;
          dd_input_metadata :=
            List.map (fun metadata : md =>
                        <["coord" := VInts [x_min c; x_max c; y_min c; y_max c]]> metadata)
                     metadata_input;
          dd_gt_metadata := metadata_gt;
          dd_roi_metadata := metadata_roi |}.
Proof.
  intros Hg Hr Hx Hy. unfold assemble.
  rewrite torch_zeros_Ok by (unfold shape0, len; lia).
  destruct (window_3d c stack_gt (x_max c - x_min c) (y_max c - y_min c) Hg)
    as [zg [-> Hcg]]; [lia|lia|].
  destruct (window_3d c stack_roi (x_max c - x_min c) (y_max c - y_min c) Hr)
    as [zr [-> Hcr]]; [lia|lia|].
  unfold shape0. rewrite crop_each_zeros, Hcg, Hcr. reflexivity.
Qed.

(** C6 (amended). In patch mode, on stacks that are 3-D tensors, the
    fetch raises nothing on account of the window: each plane is sliced
    with [x_min:x_max, y_min:y_max], slices clip to the plane, and the
    sample returned holds the clipped windows. A plane with fewer than
    [x_max] rows yields fewer rows than the patch length. *)
Theorem patch_window_is_clipped self index w c it picked w1 v stack_gt metadata_gt :
  resolve self index = Ok (Some c, it) ->
  pick_rater (gt (fst it)) w = (Ok picked, w1) ->
  fst (input_out it) = Some (Tensor3 v) ->
  gt_out self it picked = Ok (stack_gt, metadata_gt) ->
  three_d stack_gt -> three_d (fst (roi_out it)) ->
  0 <= x_min c < x_max c -> 0 <= y_min c < y_max c ->
  exists d,
    __getitem__ self index w
    = (Ok (if Self.is_input_dropout self then dropout_input d else d),
       logged (pipeline_calls self it picked) w1) /\
    dd_input d = Some (Tensor3 (window_of c v)) /\
    dd_gt d = window_opt c stack_gt /\
    dd_roi d = window_opt c (fst (roi_out it)) /\
    forall plane, List.In plane v -> len plane < x_max c ->
                  len (py_slice (x_min c) (x_max c) plane) < x_max c - x_min c.
Proof.
  intros Hr Hp Hin Hgt H3g H3r Hx Hy.
  rewrite (getitem_run self index w (Some c) it picked w1 Hr Hp).
  unfold fetch_outcome. rewrite Hgt, Hin. cbn [fst snd].
  rewrite assemble_patch by (assumption || lia).
  eexists. split; [reflexivity|]. cbn [dd_input dd_gt dd_roi].
  repeat split. intros plane _ Hlt. rewrite py_slice_length by lia. lia.
Qed.

(** ** The index range of a fetch *)

Lemma pick_rater_ok g w :
  gt_well_formed g -> exists picked w1, pick_rater g w = (Ok picked, w1).
Proof.
  destruct g as [m|g m|classes]; cbn [gt_well_formed].
  - intros _. now eexists _, _.
  - intros Hg. destruct g as [|a g]; [congruence|]. now eexists _, _.
  - intros [class0 [rest [-> [Hne Hall]]]]. rewrite pick_rater_multi, py_index_0.
    cbv zeta.
    assert (Hn : 0 < len (fst class0)).
    { unfold len. destruct (fst class0); [congruence|cbn; lia]. }
    destruct (Z.ltb_spec (len (fst class0) - 1) 0); [lia|].
    replace (len (fst class0) - 1 - 0 + 1) with (len (fst class0)) by lia.
    pose proof (Z.mod_pos_bound (entropy w (cursor w)) (len (fst class0)) Hn) as Hr.
    destruct (map_result_Ok
                (pick_class (0 + Z.modulo (entropy w (cursor w)) (len (fst class0))))
                (class0 :: rest)) as [sel ->]; [|now eexists _, _].
    apply List.Forall_forall. intros class Hc.
    pose proof (proj1 (List.Forall_forall _ _) Hall class Hc) as [Ha Hm].
    unfold pick_class.
    destruct (py_index_inside (fst class)
                (0 + Z.modulo (entropy w (cursor w)) (len (fst class0)))) as [a [-> _]]; [lia|].
    destruct (py_index_inside (snd class)
                (0 + Z.modulo (entropy w (cursor w)) (len (fst class0)))) as [m [-> _]]; [lia|].
    now eexists.
Qed.

Lemma resolve_outside self index :
  index < - __len__ self \/ __len__ self <= index -> resolve self index = Raise IndexError.
Proof.
  intros Hi. unfold resolve, __len__ in *. now rewrite py_index_outside.
Qed.

Lemma resolve_negative self index :
  - __len__ self <= index < 0 -> resolve self index = resolve self (index + __len__ self).
Proof.
  intros Hi. unfold resolve, __len__ in *. now rewrite py_index_negative.
Qed.

Lemma resolve_ok self index :
  well_built self -> 0 <= index < __len__ self ->
  exists coord it,
    resolve self index = Ok (coord, it) /\ gt_well_formed (gt (fst it)) /\
    match coord with
    | Some c => Self.is_2d_patch self = true
                /\ 0 <= x_min c < x_max c /\ 0 <= y_min c < y_max c
    | None => True
    end.
Proof.
  intros Hwb Hi. unfold resolve, __len__ in *.
  destruct (py_index_inside (Self.indexes self) index Hi) as [e [-> Hn]].
  pose proof (proj1 (List.Forall_forall _ _) Hwb e (nth_error_In _ _ Hn)) as He.
  destruct e as [it|c]; cbn [entry_ok] in He.
  - destruct He as [-> Hg]. now exists None, it.
  - destruct He as [-> [Hx [Hy [h [-> Hg]]]]]. exists (Some c), h. now repeat split.
Qed.

(** C7 (amended). A fetch at an index outside [-len, len) raises
    IndexError and does nothing else; an index in [-len, 0) addresses
    the entry at index+len, as Python list indexing does; a fetch at an
    index in [0, len) returns a sample, on a dataset left by the load
    phase with well-formed ground truths ([load_filenames_well_built]),
    for the segmentation task, provided that with patching the
    transform pipeline returns 3-D stacks. *)
Theorem getitem_index_range self :
  (forall index w,
     index < - __len__ self \/ __len__ self <= index ->
     __getitem__ self index w = (Raise IndexError, w))
  /\
  (forall index w,
     - __len__ self <= index < 0 ->
     __getitem__ self index w = __getitem__ self (index + __len__ self) w)
  /\
  (well_built self ->
   Self.task self = "segmentation" ->
   (Self.is_2d_patch self = true -> stacks_3d) ->
   forall index w,
     0 <= index < __len__ self ->
     exists d w', __getitem__ self index w = (Ok d, w')).
Proof.
  split; [|split].
  - intros index w Hi. apply getitem_unresolved. now apply resolve_outside.
  - intros index w Hi. unfold __getitem__, bind at 1 3, lift at 1 3.
    now rewrite resolve_negative.
  - intros Hwb Htask Hstacks index w Hi.
    destruct (resolve_ok self index Hwb Hi) as [coord [it [Hr [Hg Hc]]]].
    destruct (pick_rater_ok (gt (fst it)) w Hg) as [picked [w1 Hp]].
    rewrite (getitem_run self index w coord it picked w1 Hr Hp).
    unfold fetch_outcome, gt_out. rewrite Htask. cbn [String.eqb Ascii.eqb Bool.eqb fst snd].
    destruct coord as [c|].
    + destruct Hc as [Hpatch [Hx Hy]].
      destruct (Hstacks Hpatch) as [H3 [Him Hthr]].
      pose proof (H3 (Some (input (fst it))) (merged_input_metadata it) "im"%string) as H3i.
      pose proof (Him (input (fst it)) (merged_input_metadata it)) as Hsome.
      fold (input_out it) in H3i, Hsome.
      destruct (fst (input_out it)) as [[v|v]|]; [|destruct H3i|congruence].
      rewrite assemble_patch; [now eexists _, _| |apply H3|lia|lia].
      pose proof (H3 (fst picked) (merged_gt_metadata it (snd picked)) "gt"%string) as H3g.
      destruct (fst (transform (fst picked) (merged_gt_metadata it (snd picked)) "gt"))
        as [[vg|vg]|]; [|destruct H3g|exact I].
      destruct (negb (Self.soft_gt self)); [|exact I].
      destruct (Hthr vg (1 # 2)) as [v' ->]. exact I.
    + cbn [assemble]. now eexists _, _.
Qed.

End FetchClaims.

Example ds4_indexes :
  Self.indexes ds4
  = [Patch {| x_min := 0; x_max := 4; y_min := 0; y_max := 4; handler_index := 0 |}].
Proof. vm_compute. reflexivity. Qed.

(** C6 as stated fails: the window [0:4, 0:4] does not fit the 2 x 2
    planes the transform returns, and the fetch returns a sample, with
    the 2 x 2 plane as input. *)
Lemma shrunk_patch_fetch_counterexample :
  fst (@input_out shrinking (bundle ramp))
  = Some (Tensor3 [List.map (List.map inject_Z) [[1; 2]; [5; 6]]])
  /\ exists d,
       fst (@__getitem__ shrinking ds4 0 (fresh_world 0)) = Ok d
       /\ dd_input d = Some (Tensor3 [List.map (List.map inject_Z) [[1; 2]; [5; 6]]]).
Proof.
  split; [vm_compute; reflexivity|].
  eexists. split; vm_compute; reflexivity.
Qed.

(** C7 as stated fails: -1 is outside [0, len) and the fetch returns
    the last sample. *)
Lemma negative_index_fetch_counterexample :
  __len__ ds_slice = 1
  /\ exists d, fst (@__getitem__ stacking ds_slice (-1) (fresh_world 0)) = Ok d
               /\ dd_input d = Some (Tensor3 [ramp]).
Proof.
  split; [reflexivity|].
  eexists. split; vm_compute; reflexivity.
Qed.

Lemma transforms_run_in_fixed_order_witness :
  @__getitem__ stacking ds_slice 5 (fresh_world 0) = (Raise IndexError, fresh_world 0)
  /\ @__getitem__ stacking ds_uneven 0 (fresh_world 4)
     = (Raise IndexError, snd (pick_rater (gt (fst uneven_item)) (fresh_world 4)))
  /\ calls (snd (@__getitem__ stacking ds_raters 0 (fresh_world 4)))
     = RandInt 0 2 1
       :: @pipeline_calls stacking ds_raters rater_item
            (Some [[[inject_Z 11]]; [[inject_Z 21]]],
             Some [{["rater" := VInt 1]}; {["rater" := VInt 1]}]).
Proof.
  split; [|split].
  - apply (proj1 (@transforms_run_in_fixed_order stacking ds_slice 5 (fresh_world 0))).
    reflexivity.
  - destruct (proj1 (proj2 (@transforms_run_in_fixed_order stacking ds_uneven 0
                              (fresh_world 4)))
                    None uneven_item eq_refl) as [draws [_ [_ [Hraise _]]]].
    apply Hraise. vm_compute. reflexivity.
  - destruct (proj1 (proj2 (@transforms_run_in_fixed_order stacking ds_raters 0
                              (fresh_world 4)))
                    None rater_item eq_refl) as [draws [_ [Hdraws [_ Hcalls]]]].
    vm_compute in Hdraws. subst draws.
    apply (Hcalls (Some [[[inject_Z 11]]; [[inject_Z 21]]],
                   Some [{["rater" := VInt 1]}; {["rater" := VInt 1]}])
                  (snd (pick_rater (gt (fst rater_item)) (fresh_world 4)))).
    vm_compute. reflexivity.
Defined.

Lemma multi_rater_single_draw_witness :
  @one_rater_for_all_classes stacking ds_raters rater_item rater_classes
    (fresh_world 4) (snd (@__getitem__ stacking ds_raters 0 (fresh_world 4))).
Proof.
  destruct (returned (@__getitem__ stacking ds_raters 0 (fresh_world 4))) as [d|] eqn:Hd;
    [|vm_compute in Hd; discriminate].
  apply (@multi_rater_single_draw stacking ds_raters 0 (fresh_world 4) None
           rater_item rater_classes d); [reflexivity|reflexivity|].
  unfold returned in Hd.
  destruct (@__getitem__ stacking ds_raters 0 (fresh_world 4)) as [[d'|e] w'];
    cbn [fst snd] in *; [|discriminate].
  now injection Hd as ->.
Defined.

(** The draw of that fetch: raw value 4 over three raters gives rater 1,
    and both classes hand on the array of rater 1. *)
Example rater_fetch_calls :
  calls (snd (@__getitem__ stacking ds_raters 0 (fresh_world 4)))
  = RandInt 0 2 1
    :: @pipeline_calls stacking ds_raters rater_item
         (Some [[[inject_Z 11]]; [[inject_Z 21]]],
          Some [{["rater" := VInt 1]}; {["rater" := VInt 1]}]).
Proof. vm_compute. reflexivity. Qed.

Lemma patch_window_is_clipped_witness :
  exists d,
    @__getitem__ shrinking ds4 0 (fresh_world 0)
    = (Ok d, @logged (@pipeline_calls shrinking ds4 (bundle ramp) (None, None))
                     (fresh_world 0))
    /\ dd_input d
       = Some (Tensor3 (window_of
                          {| x_min := 0; x_max := 4; y_min := 0; y_max := 4;
                             handler_index := 0 |}
                          [List.map (List.map inject_Z) [[1; 2]; [5; 6]]])).
Proof.
  destruct (@patch_window_is_clipped shrinking ds4 0 (fresh_world 0)
              {| x_min := 0; x_max := 4; y_min := 0; y_max := 4; handler_index := 0 |}
              (bundle ramp) (None, None) (fresh_world 0)
              [List.map (List.map inject_Z) [[1; 2]; [5; 6]]]
              None (@merged_gt_metadata shrinking (bundle ramp) None))
    as [d [Hrun [Hin _]]];
    [reflexivity|reflexivity|reflexivity|reflexivity|exact I|exact I|cbn; lia|cbn; lia|].
  exists d. split; [exact Hrun|exact Hin].
Defined.

Lemma stacking_stacks_3d : @stacks_3d stacking.
Proof.
  split; [|split].
  - intros [sample|] metadata data_type; exact I.
  - intros sample metadata. discriminate.
  - intros v thr. now exists v.
Defined.

Lemma ds4_well_built : well_built ds4.
Proof.
  unfold well_built. rewrite ds4_indexes. constructor; [|constructor].
  split; [reflexivity|]. split; [cbn; lia|]. split; [cbn; lia|].
  exists (bundle ramp). split; [reflexivity|exact I].
Defined.

Lemma getitem_index_range_witness :
  @__getitem__ stacking ds4 1 (fresh_world 0) = (Raise IndexError, fresh_world 0)
  /\ @__getitem__ stacking ds4 (-1) (fresh_world 0)
     = @__getitem__ stacking ds4 (-1 + __len__ ds4) (fresh_world 0)
  /\ exists d w', @__getitem__ stacking ds4 0 (fresh_world 0) = (Ok d, w').
Proof.
  destruct (@getitem_index_range stacking ds4) as [Hout [Hneg Hin]].
  split; [apply Hout; right; vm_compute; discriminate|].
  split; [apply Hneg; vm_compute; split; [discriminate|reflexivity]|].
  apply Hin; [exact ds4_well_built|reflexivity|intros _; exact stacking_stacks_3d|].
  vm_compute. split; [discriminate|reflexivity].
Defined.

(* ===================================================================== *)
(** * Properties of the transforms *)
(* ===================================================================== *)

Section TransformClaims.
Context `{Libraries}.

(** With [labeled], the ground truth returned by [ROICrop2D.__call__] is
    the crop window applied to the input that the same window has
    already cropped; the ground truth of the sample is not read. *)
Lemma ROICrop2D_gt_from_cropped_input self sample out :
  ROICrop2D.labeled self = true ->
  ROICrop2D_call self sample = Ok out ->
  exists fh fw th tw,
    ROICrop2D_window self sample = Ok (fh, fw, th, tw) /\
    s_input out = F_crop (s_input sample) fh fw th tw /\
    s_gt out = F_crop (F_crop (s_input sample) fh fw th tw) fh fw th tw.
Proof.
  intros Hl Hc. unfold ROICrop2D_call, ROICrop2D_window in *. rewrite Hl in Hc.
  destruct (center_of_mass (astype_int (s_roi sample))) as [com|]; [|discriminate].
  injection Hc as <-. now eexists _, _, _, _.
Qed.

(** [DilateGT.__call__] returns the sample as it is when the dilation
    factor is not positive or the slice sums to zero. *)
Lemma DilateGT_call_noop self sample :
  (DilateGT.dil_factor self <= 0)%Q \/ (np_sum_Q (s_gt sample) == 0)%Q ->
  DilateGT_call self sample = Ok sample.
Proof.
  intros Hn. unfold DilateGT_call.
  destruct (Qle_bool (DilateGT.dil_factor self) 0) eqn:Hf; [reflexivity|].
  destruct Hn as [Hn|Hn].
  - apply Qle_bool_iff in Hn. congruence.
  - unfold nonzero_Q. apply Qeq_bool_iff in Hn. now rewrite Hn.
Qed.

(** C9. With a positive dilation factor, on a slice whose sum is not
    zero and in which [label] finds at least one object,
    [DilateGT.__call__] raises NameError: [dilate_arr] evaluates
    [math.sqrt] in the first iteration of its loop and the module never
    imports [math]. *)
Theorem DilateGT_call_raises_NameError self sample :
  (0 < DilateGT.dil_factor self)%Q ->
  ~ (np_sum_Q (s_gt sample) == 0)%Q ->
  1 <= snd (label (astype_int (s_gt sample))) ->
  DilateGT_call self sample = Raise (NameError "math").
Proof.
  intros Hf Hs Hl. unfold DilateGT_call.
  assert (Hb : Qle_bool (DilateGT.dil_factor self) 0 = false).
  { destruct (Qle_bool _ 0) eqn:Hb; [|reflexivity].
    apply Qle_bool_iff in Hb. exfalso. apply (Qlt_not_le _ _ Hf Hb). }
  assert (Hz : nonzero_Q (np_sum_Q (s_gt sample)) = true).
  { unfold nonzero_Q. destruct (Qeq_bool _ 0) eqn:Hz; [|reflexivity].
    apply Qeq_bool_iff in Hz. contradiction. }
  rewrite Hb, Hz. cbn [negb andb].
  unfold dilate_arr. rewrite py_range_pos by lia.
  rewrite range_items_cons by lia. cbn [fold_result].
  unfold dilate_object. reflexivity.
Qed.

End TransformClaims.

(** C8, evaluated. On [crop_sample] the window is (fh, fw, th, tw) =
    (1, 1, 2, 2); the ground truth cropped by that window is the 2 x 2
    block of ones, but [ROICrop2D.__call__] returns as ground truth the
    window applied to the cropped input [[6, 7], [10, 11]], that is
    [[11, 0], [0, 0]]. *)
Theorem ROICrop2D_gt_is_not_cropped_gt :
  @ROICrop2D_window crop_2x2 crop_sample = Ok (1, 1, 2, 2)
  /\ F_crop (s_gt crop_sample) 1 1 2 2 = List.map (List.map inject_Z) [[1; 1]; [1; 1]]
  /\ exists out,
       @ROICrop2D_call reference_libraries crop_2x2 crop_sample = Ok out
       /\ s_input out = List.map (List.map inject_Z) [[6; 7]; [10; 11]]
       /\ s_gt out = List.map (List.map inject_Z) [[11; 0]; [0; 0]]
       /\ s_gt out <> F_crop (s_gt crop_sample) 1 1 2 2.
Proof.
  split; [vm_compute; reflexivity|]. split; [vm_compute; reflexivity|].
  eexists. split; [vm_compute; reflexivity|]. cbn [s_input s_gt].
  split; [reflexivity|]. split; [reflexivity|]. vm_compute. discriminate.
Qed.

Lemma DilateGT_call_raises_NameError_witness :
  @DilateGT_call reference_libraries (DilateGT.mk (1 # 2)) dilate_sample
  = Raise (NameError "math").
Proof.
  apply (@DilateGT_call_raises_NameError reference_libraries).
  - reflexivity.
  - vm_compute. discriminate.
  - vm_compute. discriminate.
Defined.

Lemma load_filenames_nothing_accepted_witness :
  @load_filenames stacking [[plain_slice ramp; plain_slice (zeros 10 10)]; []] ds_rejecting
  = (Ok tt, ds_rejecting)
  /\ prepare_indices ds_rejecting = (Ok tt, ds_rejecting)
  /\ __len__ ds_rejecting = 0.
Proof.
  apply (@load_filenames_nothing_accepted stacking);
    [reflexivity|reflexivity|reflexivity|].
  repeat constructor.
Defined.

(* ===================================================================== *)
(** * Further properties of the index builder *)
(* ===================================================================== *)

Lemma axis_count_pos size L S : valid_axis size L S -> 1 <= axis_count size L S.
Proof.
  intros [HS [HSL HL]]. unfold axis_count.
  assert (0 <= (size - L + S - 1) / S) by (apply Z.div_pos; lia). lia.
Qed.

Lemma len_spec_starts size L S :
  valid_axis size L S -> len (spec_starts size L S) = axis_count size L S.
Proof.
  intros [HS [HSL HL]]. rewrite spec_starts_range by assumption.
  unfold len, range_items, axis_count.
  rewrite !List.length_map, List.length_seq.
  replace (size - L + S - 0 + S - 1) with (size - L + S - 1 + 1 * S) by lia.
  rewrite Z.div_add by lia.
  assert (0 <= (size - L + S - 1) / S) by (apply Z.div_pos; lia). lia.
Qed.

Lemma len_tiles i L0 L1 xs ys : len (tiles i L0 L1 xs ys) = len xs * len ys.
Proof.
  unfold len, tiles.
  rewrite (List.flat_map_constant_length (c := List.length ys)).
  - lia.
  - intros x _. apply List.length_map.
Qed.

Lemma len_all_tiles L0 L1 S0 S1 hs :
  Forall (valid_handler L0 L1 S0 S1) hs ->
  forall n, len (all_tiles n L0 L1 S0 S1 hs) = patch_count L0 L1 S0 S1 hs.
Proof.
  induction 1 as [|h hs [Hv0 Hv1] _ IH]; intros n; [reflexivity|].
  cbn [all_tiles patch_count fold_right]. fold (patch_count L0 L1 S0 S1 hs).
  rewrite <- (IH (S n)). unfold len at 1. rewrite List.length_app.
  fold (len (all_tiles (S n) L0 L1 S0 S1 hs)).
  rewrite Nat2Z.inj_add.
  fold (len (tiles (Z.of_nat n) L0 L1 (spec_starts (height h) L0 S0)
                   (spec_starts (width h) L1 S1))).
  rewrite len_tiles, !len_spec_starts by assumption. reflexivity.
Qed.

(** The size of the index after [prepare_indices]: each handler adds
    (ceil((H - L0) / S0) + 1) * (ceil((W - L1) / S1) + 1) records. *)
Theorem prepare_indices_length self L0 L1 S0 S1 :
  Self.length self = [L0; L1] ->
  Self.stride self = [S0; S1] ->
  Forall (valid_handler L0 L1 S0 S1) (Self.handlers self) ->
  exists self',
    prepare_indices self = (Ok tt, self') /\
    __len__ self' = __len__ self + patch_count L0 L1 S0 S1 (Self.handlers self).
Proof.
  intros Hl Hs Hv. eexists. split.
  - apply (prepare_indices_emits_tiles_aux self L0 L1 S0 S1 Hl Hs Hv).
  - unfold __len__, extend_indexes. cbn [Self.indexes]. unfold len.
    rewrite List.length_app, Nat2Z.inj_add.
    fold (len (all_tiles 0 L0 L1 S0 S1 (Self.handlers self))).
    now rewrite len_all_tiles.
Qed.

Lemma prepare_indices_length_witness :
  exists self',
    prepare_indices ds10 = (Ok tt, self') /\
    __len__ self' = __len__ ds10 + patch_count 4 4 3 3 (Self.handlers ds10).
Proof.
  apply (prepare_indices_length ds10 4 4 3 3);
    [reflexivity|reflexivity|exact ds10_valid].
Defined.


(** ** No record is emitted twice *)

Lemma NoDup_map_on {A B} (f : A -> B) (l : list A) :
  (forall x y, List.In x l -> List.In y l -> f x = f y -> x = y) ->
  NoDup l -> NoDup (List.map f l).
Proof.
  intros Hinj Hnd. induction Hnd as [|x l Hx Hnd IH]; [constructor|].
  cbn. constructor.
  - intros Hin. apply list_elem_of_In, List.in_map_iff in Hin as [y [Hy Hiny]].
    apply Hx, list_elem_of_In.
    rewrite (Hinj x y (or_introl eq_refl) (or_intror Hiny) (eq_sym Hy)). exact Hiny.
  - apply IH. intros a b Ha Hb. apply Hinj; now right.
Qed.

Lemma NoDup_append {A} (l k : list A) :
  NoDup l -> NoDup k -> (forall x, List.In x l -> ~ List.In x k) -> NoDup (l ++ k).
Proof.
  intros Hl Hk Hd. apply NoDup_app. split; [assumption|]. split; [|assumption].
  intros x Hx Hxk. apply list_elem_of_In in Hx, Hxk. exact (Hd x Hx Hxk).
Qed.

(** The starts of an axis are pairwise distinct: the clamped last start
    never falls on an earlier one. *)
Lemma NoDup_spec_starts size L S : 0 < S -> NoDup (spec_starts size L S).
Proof.
  intros HS. rewrite spec_starts_range by assumption.
  apply NoDup_map_on.
  - intros x y Hx Hy.
    apply in_range_items in Hx as [k [Hk [-> Hkb]]]; [|assumption].
    apply in_range_items in Hy as [j [Hj [-> Hjb]]]; [|assumption].
    unfold spec_clamp.
    intros Heq. assert (k = j); [|now subst].
    destruct (Z_lt_dec size (0 + k * S + L)), (Z_lt_dec size (0 + j * S + L));
      destruct (Z.lt_trichotomy k j) as [Hlt|[Heq'|Hlt]]; try assumption; nia.
  - unfold range_items. apply NoDup_map_on; [|apply NoDup_seq].
    intros a b _ _. nia.
Qed.

Lemma NoDup_tiles i L0 L1 xs ys : NoDup xs -> NoDup ys -> NoDup (tiles i L0 L1 xs ys).
Proof.
  intros Hx Hy. induction Hx as [|x xs Hnx Hx IH]; [constructor|].
  unfold tiles. cbn [flat_map]. fold (tiles i L0 L1 xs ys).
  apply NoDup_append; [|exact IH|].
  - apply NoDup_map_on; [|assumption]. intros a b _ _ Heq.
    unfold tile in Heq. now injection Heq.
  - intros e He Hr. apply List.in_map_iff in He as [y [<- _]].
    apply in_tiles in Hr as [x' [y' [Hx' [_ Heq]]]].
    unfold tile in Heq. injection Heq as -> _ _ _.
    apply Hnx. now apply list_elem_of_In.
Qed.

Lemma NoDup_all_tiles L0 L1 S0 S1 hs :
  0 < S0 -> 0 < S1 -> forall n, NoDup (all_tiles n L0 L1 S0 S1 hs).
Proof.
  intros H0 H1. induction hs as [|h hs IH]; intros n; [constructor|].
  cbn [all_tiles]. apply NoDup_append.
  - apply NoDup_tiles; now apply NoDup_spec_starts.
  - apply IH.
  - intros e He Hr. apply in_tiles in He as [x [y [_ [_ ->]]]].
    apply in_all_tiles in Hr as [i [h' [x' [y' [_ [_ [_ Heq]]]]]]].
    unfold tile in Heq. injection Heq as _ _ _ _ Hi. lia.
Qed.

(** The records [prepare_indices] appends are pairwise distinct: no
    patch of any handler is emitted twice. *)
Theorem prepare_indices_no_duplicate self L0 L1 S0 S1 :
  Self.length self = [L0; L1] ->
  Self.stride self = [S0; S1] ->
  Forall (valid_handler L0 L1 S0 S1) (Self.handlers self) ->
  Self.handlers self <> [] ->
  exists es,
    prepare_indices self = (Ok tt, extend_indexes es self) /\ NoDup es.
Proof.
  intros Hl Hs Hv Hne. exists (all_tiles 0 L0 L1 S0 S1 (Self.handlers self)).
  split; [now apply prepare_indices_emits_tiles_aux|].
  destruct (Self.handlers self) as [|h hs]; [congruence|].
  inversion Hv as [|? ? [[? _] [? _]] _]; subst.
  now apply NoDup_all_tiles.
Qed.

Lemma prepare_indices_no_duplicate_witness :
  exists es, prepare_indices ds10 = (Ok tt, extend_indexes es ds10) /\ NoDup es.
Proof.
  apply (prepare_indices_no_duplicate ds10 4 4 3 3);
    [reflexivity|reflexivity|exact ds10_valid|discriminate].
Defined.

(** ** What [prepare_indices] never touches *)

Section Frames.
Context {S : Type} (R : S -> S -> Prop).
Hypothesis R_refl : forall s, R s s.
Hypothesis R_trans : forall s1 s2 s3, R s1 s2 -> R s2 s3 -> R s1 s3.

Lemma frames_lift {A} (r : result A) : frames R (lift r).
Proof. intros s. apply R_refl. Qed.

Lemma frames_ret {A} (a : A) : frames R (ret a).
Proof. intros s. apply R_refl. Qed.

Lemma frames_raise {A} e : frames R (@raise S A e).
Proof. intros s. apply R_refl. Qed.

Lemma frames_bind {A B} (c : M S A) (k : A -> M S B) :
  frames R c -> (forall a, frames R (k a)) -> frames R (bind c k).
Proof.
  intros Hc Hk s. unfold bind. specialize (Hc s).
  destruct (c s) as [[a|e] s1]; cbn [snd] in *; [|assumption].
  exact (R_trans _ _ _ Hc (Hk a s1)).
Qed.

Lemma frames_get {B} (k : S -> M S B) :
  (forall a, frames R (k a)) -> frames R (bind get k).
Proof. intros Hk s. unfold bind, get. apply Hk. Qed.

Lemma frames_for_each {A} (l : list A) (body : A -> M S unit) :
  (forall x, frames R (body x)) -> frames R (for_each l body).
Proof.
  intros Hb. induction l as [|x l IH]; cbn [for_each].
  - apply frames_ret.
  - apply frames_bind; [apply Hb|intros _; exact IH].
Qed.
End Frames.

Lemma patches_appended_refl s : patches_appended s s.
Proof. exists []. cbn. now rewrite extend_indexes_nil. Qed.

Lemma patches_appended_trans s1 s2 s3 :
  patches_appended s1 s2 -> patches_appended s2 s3 -> patches_appended s1 s3.
Proof.
  intros [a ->] [b ->]. exists (a ++ b).
  now rewrite extend_indexes_app, List.map_app.
Qed.

Ltac frame_step :=
  lazymatch goal with
  | |- frames _ (lift _) => apply frames_lift; assumption
  | |- frames _ (ret _) => apply frames_ret; assumption
  | |- frames _ (raise _) => apply frames_raise; assumption
  | |- frames _ (bind get _) => apply frames_get; intros ?
  | |- frames _ (bind _ _) => apply frames_bind; [assumption| |intros ?]
  | |- frames _ (for_each _ _) => apply frames_for_each; [assumption|assumption|intros ?]
  end.

Lemma appends_check_axis lss : frames patches_appended (check_axis lss).
Proof.
  pose proof patches_appended_refl. pose proof patches_appended_trans.
  destruct lss as [[l st] z]. unfold check_axis.
  destruct (_ || _); [frame_step|]. destruct (_ >? _); frame_step.
Qed.

Lemma appends_emit_patch i shape x y : frames patches_appended (emit_patch i shape x y).
Proof.
  pose proof patches_appended_refl. pose proof patches_appended_trans.
  unfold emit_patch. repeat frame_step.
  intros s. eexists [_]. reflexivity.
Qed.

Lemma appends_emit_row i shape x : frames patches_appended (emit_row i shape x).
Proof.
  pose proof patches_appended_refl. pose proof patches_appended_trans.
  unfold emit_row. repeat frame_step. apply appends_emit_patch.
Qed.

Lemma appends_prepare_handler i : frames patches_appended (prepare_handler i).
Proof.
  pose proof patches_appended_refl. pose proof patches_appended_trans.
  unfold prepare_handler. repeat frame_step.
  - destruct (_ || _); frame_step.
  - apply appends_check_axis.
  - apply appends_emit_row.
Qed.

Lemma appends_prepare_indices : frames patches_appended prepare_indices.
Proof.
  pose proof patches_appended_refl. pose proof patches_appended_trans.
  unfold prepare_indices. repeat frame_step. apply appends_prepare_handler.
Qed.

(** Whatever the dataset holds and whether [prepare_indices] returns or
    raises, the only thing it changes is [self.indexes], and only by
    appending patch records: the entries already there, the handlers,
    the length, the stride and every other attribute are as before. *)
Theorem prepare_indices_only_appends self :
  exists cs : list coord,
    snd (prepare_indices self) = extend_indexes (List.map Patch cs) self.
Proof. exact (appends_prepare_indices self). Qed.

(** ** A malformed handler after well-formed ones *)

Lemma for_each_app {S A} (l k : list A) (body : A -> M S unit) s :
  for_each (l ++ k) body s
  = match for_each l body s with
    | (Ok _, s') => for_each k body s'
    | (Raise e, s') => (Raise e, s')
    end.
Proof.
  revert s. induction l as [|x l IH]; intros s; [reflexivity|].
  cbn [for_each app]. unfold bind.
  destruct (body x s) as [[[]|e] s1]; [apply IH|reflexivity].
Qed.

(** The handler loop over a run of valid handlers inside the list. *)
Lemma prepare_loop_prefix L0 L1 S0 S1 hs todo after :
  forall done s,
    hs = done ++ todo ++ after ->
    same_setup [L0; L1] [S0; S1] hs s ->
    Forall (valid_handler L0 L1 S0 S1) todo ->
    for_each (List.map Z.of_nat (seq (List.length done) (List.length todo)))
             prepare_handler s
    = (Ok tt, extend_indexes (all_tiles (List.length done) L0 L1 S0 S1 todo) s).
Proof.
  induction todo as [|h todo IH]; intros done s Hhs Hsetup Hv.
  - cbn. now rewrite extend_indexes_nil.
  - inversion Hv as [|? ? Hvh Hvt]; subst.
    cbn [List.length seq List.map for_each all_tiles]. unfold bind.
    rewrite (prepare_handler_run (List.length done) h L0 L1 S0 S1
               (done ++ (h :: todo) ++ after) s); [|assumption| |assumption].
    + specialize (IH (done ++ [h])
                     (extend_indexes
                        (tiles (Z.of_nat (List.length done)) L0 L1
                               (spec_starts (height h) L0 S0)
                               (spec_starts (width h) L1 S1)) s)).
      rewrite List.length_app in IH. cbn [List.length] in IH.
      replace (List.length done + 1)%nat with (S (List.length done)) in IH by lia.
      rewrite IH; [now rewrite extend_indexes_app| |assumption|assumption].
      now rewrite <- List.app_assoc.
    + rewrite List.nth_error_app2 by lia. now rewrite Nat.sub_diag.
Qed.

(** The build is not atomic. When the handlers before a malformed one
    are well-formed, [prepare_indices] raises the configuration error of
    the malformed handler only after having appended every patch of the
    handlers before it; these stay in [self.indexes], and no patch of a
    later handler is added. *)
Theorem prepare_indices_keeps_earlier_patches self L0 L1 S0 S1 good bad rest :
  Self.length self = [L0; L1] ->
  Self.stride self = [S0; S1] ->
  Self.handlers self = good ++ bad :: rest ->
  Forall (valid_handler L0 L1 S0 S1) good ->
  input (fst bad) <> [] ->
  config_ok [L0; L1] [S0; S1] bad = false ->
  exists e,
    prepare_indices self
    = (Raise e, extend_indexes (all_tiles 0 L0 L1 S0 S1 good) self)
    /\ ConfigurationError e.
Proof.
  intros Hl Hs Hh Hv Hin Hc. rewrite prepare_indices_unfold, Hh.
  rewrite List.length_app, List.seq_app, List.map_app, for_each_app.
  assert (Hsetup : same_setup [L0; L1] [S0; S1] (good ++ bad :: rest) self)
    by (repeat split; assumption).
  pose proof (prepare_loop_prefix L0 L1 S0 S1 (good ++ bad :: rest) good (bad :: rest)
                [] self eq_refl Hsetup Hv) as Hgood.
  cbn [List.length] in Hgood. rewrite Hgood.
  cbn [List.length seq List.map for_each Nat.add]. unfold bind.
  destruct (prepare_handler_bad (List.length good) bad [L0; L1] [S0; S1]
              (good ++ bad :: rest)
              (extend_indexes (all_tiles 0 L0 L1 S0 S1 good) self))
    as [e [-> He]]; [exact Hsetup| |assumption|assumption|].
  - rewrite List.nth_error_app2 by lia. now rewrite Nat.sub_diag.
  - now exists e.
Qed.

Lemma ds_third_small_good :
  Forall (valid_handler 4 4 3 3) [bundle (zeros 10 10); bundle (zeros 10 10)].
Proof.
  constructor; [|constructor; [|constructor]]; unfold valid_handler, valid_axis;
    change (height (bundle (zeros 10 10))) with 10;
    change (width (bundle (zeros 10 10))) with 10; lia.
Defined.

Lemma prepare_indices_keeps_earlier_patches_witness :
  exists e,
    prepare_indices ds_third_small
    = (Raise e,
       extend_indexes
         (all_tiles 0 4 4 3 3 [bundle (zeros 10 10); bundle (zeros 10 10)])
         ds_third_small)
    /\ ConfigurationError e.
Proof.
  apply (prepare_indices_keeps_earlier_patches ds_third_small 4 4 3 3
           [bundle (zeros 10 10); bundle (zeros 10 10)] (bundle (zeros 3 10)) []);
    [reflexivity|reflexivity|reflexivity|exact ds_third_small_good
    |discriminate|reflexivity].
Defined.

(** ** The corner patches *)

Lemma spec_starts_first size L S :
  valid_axis size L S -> List.In 0 (spec_starts size L S).
Proof.
  intros [HS [HSL HL]]. apply in_spec_starts; [assumption|].
  exists 0. split; [lia|]. split; [lia|].
  unfold spec_clamp. destruct (Z_lt_dec size (0 * S + L)); lia.
Qed.

Lemma spec_starts_last size L S :
  valid_axis size L S -> List.In (size - L) (spec_starts size L S).
Proof.
  intros Hv. pose proof Hv as [HS [HSL HL]].
  destruct (spec_starts_cover (size - 1) size L S Hv ltac:(lia)) as [x [Hx Hp]].
  pose proof (spec_starts_bounds x size L S Hv Hx).
  replace (size - L) with x by lia. exact Hx.
Qed.

(** Every handler gets the patch anchored at its top-left corner and the
    patch that ends exactly at its bottom-right corner (the clamped one
    when the stride does not divide the remaining extent). *)
Theorem prepare_indices_emits_corners self L0 L1 S0 S1 (i : nat) h :
  Self.length self = [L0; L1] ->
  Self.stride self = [S0; S1] ->
  Forall (valid_handler L0 L1 S0 S1) (Self.handlers self) ->
  nth_error (Self.handlers self) i = Some h ->
  exists self',
    prepare_indices self = (Ok tt, self') /\
    List.In (Patch {| x_min := 0; x_max := L0; y_min := 0; y_max := L1;
                      handler_index := Z.of_nat i |}) (Self.indexes self') /\
    List.In (Patch {| x_min := height h - L0; x_max := height h;
                      y_min := width h - L1; y_max := width h;
                      handler_index := Z.of_nat i |}) (Self.indexes self').
Proof.
  intros Hl Hs Hv Hn.
  exists (extend_indexes (all_tiles 0 L0 L1 S0 S1 (Self.handlers self)) self).
  split; [now apply prepare_indices_emits_tiles_aux|].
  assert (Hvh : valid_handler L0 L1 S0 S1 h).
  { rewrite List.Forall_forall in Hv. apply Hv. eapply List.nth_error_In, Hn. }
  destruct Hvh as [Hv0 Hv1].
  cbn [extend_indexes Self.indexes]. split; apply List.in_or_app; right;
    apply in_all_tiles; exists i, h.
  - exists 0, 0. split; [assumption|]. split; [now apply spec_starts_first|].
    split; [now apply spec_starts_first|]. reflexivity.
  - exists (height h - L0), (width h - L1). split; [assumption|].
    split; [now apply spec_starts_last|]. split; [now apply spec_starts_last|].
    unfold tile. repeat f_equal; lia.
Qed.

Lemma prepare_indices_emits_corners_witness :
  exists self',
    prepare_indices ds10 = (Ok tt, self') /\
    List.In (Patch {| x_min := 0; x_max := 4; y_min := 0; y_max := 4;
                      handler_index := 0 |}) (Self.indexes self') /\
    List.In (Patch {| x_min := 6; x_max := 10; y_min := 6; y_max := 10;
                      handler_index := 0 |}) (Self.indexes self').
Proof.
  apply (prepare_indices_emits_corners ds10 4 4 3 3 0 (bundle (zeros 10 10)));
    [reflexivity|reflexivity|exact ds10_valid|reflexivity].
Defined.

(* ===================================================================== *)
(** * Further properties of the load phase *)
(* ===================================================================== *)

Lemma for_each_concat {S A} (ls : list (list A)) (body : A -> M S unit) s :
  for_each ls (fun l => for_each l body) s = for_each (List.concat ls) body s.
Proof.
  revert s. induction ls as [|l ls IH]; intros s; [reflexivity|].
  cbn [for_each List.concat]. rewrite for_each_app. unfold bind.
  destruct (for_each l body s) as [[[]|e] s1]; [apply IH|reflexivity].
Qed.

Section LoadPhase.
Context `{Collaborators}.

(** A slice that passes both filters gets as far as the call of
    [apply_preprocessing_transforms], which the module does not have. *)
Lemma load_slice_accepted self sl :
  accepted self sl = true -> load_slice sl self = (Raise AttributeError, self).
Proof.
  unfold accepted, load_slice, bind, get. intros Ha.
  destruct (match Self.slice_filter_fn self with
            | Some f => negb (f (slice_seg_pair sl))
            | None => false
            end); [discriminate|].
  cbn [negb andb] in Ha.
  destruct (Self.slice_filter_roi self
            && filter_roi (roi_gt (slice_roi_pair sl)) (Self.roi_thr self));
    [discriminate|].
  reflexivity.
Qed.

Lemma load_slices_stop sls self :
  Exists (fun sl => accepted self sl = true) sls ->
  for_each sls load_slice self = (Raise AttributeError, self).
Proof.
  induction 1 as [sl sls Ha|sl sls _ IH]; cbn [for_each]; unfold bind.
  - now rewrite (load_slice_accepted self sl Ha).
  - destruct (accepted self sl) eqn:Ha.
    + now rewrite (load_slice_accepted self sl Ha).
    + now rewrite (load_slice_rejected self sl Ha).
Qed.

(** In this code base [load_filenames] cannot load a slice: the first
    slice that passes [slice_filter_fn] and the ROI filter makes it raise
    AttributeError, because [ivadomed/transforms.py] defines no
    [apply_preprocessing_transforms]. The dataset is left as it was: no
    entry and no handler is added, and [prepare_indices] is not run. *)
Theorem load_filenames_raises_at_accepted_slice self filename_pairs :
  Exists (fun sl => accepted self sl = true) (List.concat filename_pairs) ->
  load_filenames filename_pairs self = (Raise AttributeError, self).
Proof.
  intros Hex. unfold load_filenames, bind. rewrite for_each_concat.
  now rewrite (load_slices_stop _ self Hex).
Qed.




End LoadPhase.

Lemma load_filenames_raises_at_accepted_slice_witness :
  @load_filenames stacking [[blank_slice; plain_slice ramp]; [plain_slice (zeros 10 10)]]
                  ds_fresh
  = (Raise AttributeError, ds_fresh).
Proof.
  apply (@load_filenames_raises_at_accepted_slice stacking ds_fresh).
  apply List.Exists_cons_tl, List.Exists_cons_hd. reflexivity.
Defined.

(* ===================================================================== *)
(** * Further properties of the sample assembler *)
(* ===================================================================== *)

Lemma py_slice_In {A} (lo hi : Z) (l : list A) x : List.In x (py_slice lo hi l) -> List.In x l.
Proof.
  unfold py_slice. intros Hx. apply list_elem_of_In. apply list_elem_of_In in Hx.
  eapply subseteq_drop, subseteq_take, Hx.
Qed.

(** The window of planes that reach the far corner of the patch has the
    size of the patch. *)
Lemma window_of_shape c v :
  0 <= x_min c <= x_max c -> 0 <= y_min c <= y_max c ->
  Forall (at_least (x_max c) (y_max c)) v ->
  len (window_of c v) = len v /\
  Forall (plane_shape (x_max c - x_min c) (y_max c - y_min c)) (window_of c v).
Proof.
  intros Hx Hy Hv. unfold window_of. split; [unfold len; now rewrite List.length_map|].
  apply List.Forall_map. eapply List.Forall_impl; [|exact Hv].
  intros plane [Hrows Hcols]. split.
  - unfold len at 1. rewrite List.length_map. fold (len (py_slice (x_min c) (x_max c) plane)).
    rewrite py_slice_length by lia. lia.
  - apply List.Forall_map. apply List.Forall_forall. intros row Hrow.
    apply py_slice_In in Hrow.
    pose proof (proj1 (List.Forall_forall _ _) Hcols row Hrow) as Hlen. cbn beta in Hlen.
    rewrite py_slice_length by lia. lia.
Qed.

Section FetchFurther.
Context `{Collaborators}.

Lemma gt_out_same self self0 it picked :
  Self.task self = Self.task self0 -> Self.soft_gt self = Self.soft_gt self0 ->
  gt_out self it picked = gt_out self0 it picked.
Proof. intros Ht Hs. unfold gt_out. now rewrite Ht, Hs. Qed.

Lemma pipeline_calls_same self self0 it picked :
  Self.task self = Self.task self0 ->
  pipeline_calls self it picked = pipeline_calls self0 it picked.
Proof. intros Ht. unfold pipeline_calls. now rewrite Ht. Qed.

(** The transforms never see the patch: a patch fetch hands the whole
    handler to the pipeline, exactly as a fetch of the same item from a
    dataset without patching does, and cuts the window out of the
    results. Its sample is the sample of the whole-slice fetch with every
    stack replaced by its window and the coordinates written into the
    input metadata records; the collaborator calls and the generator
    are left in the same state. *)
Theorem patch_fetch_is_window_of_slice_fetch self self0 index index0 w c it d0 w' :
  resolve self index = Ok (Some c, it) ->
  resolve self0 index0 = Ok (None, it) ->
  Self.task self = Self.task self0 ->
  Self.soft_gt self = Self.soft_gt self0 ->
  Self.is_input_dropout self = false ->
  Self.is_input_dropout self0 = false ->
  __getitem__ self0 index0 w = (Ok d0, w') ->
  (exists v, dd_input d0 = Some (Tensor3 v)) ->
  three_d (dd_gt d0) -> three_d (dd_roi d0) ->
  x_min c <= x_max c -> y_min c <= y_max c ->
  __getitem__ self index w = (Ok (windowed c d0), w').
Proof.
  intros Hr Hr0 Htask Hsoft Hdo Hdo0 Hrun0 [v Hv] H3g H3r Hx Hy.
  destruct (pick_rater (gt (fst it)) w) as [[picked|e] w1] eqn:Hp.
  2: { rewrite (getitem_rater_failed self0 index0 w None it e w1 Hr0 Hp) in Hrun0.
       discriminate. }
  rewrite (getitem_run self0 index0 w None it picked w1 Hr0 Hp) in Hrun0.
  rewrite (getitem_run self index w (Some c) it picked w1 Hr Hp).
  rewrite (pipeline_calls_same self self0 it picked Htask).
  pose proof (f_equal fst Hrun0) as Hout. pose proof (f_equal snd Hrun0) as Hw.
  cbn [fst snd] in Hout, Hw. rewrite Hw. f_equal.
  unfold fetch_outcome in *. rewrite (gt_out_same self self0 it picked Htask Hsoft).
  destruct (gt_out self0 it picked) as [r_gt|]; [|discriminate].
  cbn [assemble] in Hout. rewrite Hdo0 in Hout. injection Hout as <-.
  cbn [dd_input dd_gt dd_roi] in Hv, H3g, H3r.
  rewrite Hv, Hdo. rewrite assemble_patch by assumption.
  unfold windowed. cbn [dd_input dd_gt dd_roi dd_input_metadata dd_gt_metadata
                        dd_roi_metadata]. reflexivity.
Qed.

(** When every plane of the transformed input reaches the far corner of
    the patch, the input of the sample has one plane per channel, each
    of exactly x_max - x_min rows and y_max - y_min columns. *)
Theorem patch_has_requested_size self index w c it picked w1 v stack_gt metadata_gt :
  resolve self index = Ok (Some c, it) ->
  pick_rater (gt (fst it)) w = (Ok picked, w1) ->
  fst (input_out it) = Some (Tensor3 v) ->
  gt_out self it picked = Ok (stack_gt, metadata_gt) ->
  three_d stack_gt -> three_d (fst (roi_out it)) ->
  Self.is_input_dropout self = false ->
  0 <= x_min c <= x_max c -> 0 <= y_min c <= y_max c ->
  Forall (at_least (x_max c) (y_max c)) v ->
  exists d v',
    __getitem__ self index w = (Ok d, logged (pipeline_calls self it picked) w1) /\
    dd_input d = Some (Tensor3 v') /\
    len v' = len v /\
    Forall (plane_shape (x_max c - x_min c) (y_max c - y_min c)) v'.
Proof.
  intros Hr Hp Hin Hgt H3g H3r Hdo Hx Hy Hv.
  rewrite (getitem_run self index w (Some c) it picked w1 Hr Hp).
  unfold fetch_outcome. rewrite Hgt, Hin, Hdo. cbn [fst snd].
  rewrite assemble_patch by (assumption || lia).
  eexists _, (window_of c v). split; [reflexivity|]. split; [reflexivity|].
  now apply window_of_shape.
Qed.



(** A fetch at an index in [0, len) of a well-built dataset returns. *)
Lemma getitem_inside_returns self index w :
  well_built self ->
  Self.task self = "segmentation" ->
  (Self.is_2d_patch self = true -> stacks_3d) ->
  0 <= index < __len__ self ->
  exists d w', __getitem__ self index w = (Ok d, w').
Proof.
  intros Hwb Htask Hstacks Hi.
  destruct (resolve_ok self index Hwb Hi) as [coord [it [Hr [Hg Hc]]]].
  destruct (pick_rater_ok (gt (fst it)) w Hg) as [picked [w1 Hp]].
  rewrite (getitem_run self index w coord it picked w1 Hr Hp).
  unfold fetch_outcome, gt_out. rewrite Htask. cbn [String.eqb Ascii.eqb Bool.eqb fst snd].
  destruct coord as [c|].
  - destruct Hc as [Hpatch [Hx Hy]].
    destruct (Hstacks Hpatch) as [H3 [Him Hthr]].
    pose proof (H3 (Some (input (fst it))) (merged_input_metadata it) "im"%string) as H3i.
    pose proof (Him (input (fst it)) (merged_input_metadata it)) as Hsome.
    fold (input_out it) in H3i, Hsome.
    destruct (fst (input_out it)) as [[v|v]|]; [|destruct H3i|congruence].
    rewrite assemble_patch; [now eexists _, _| |apply H3|lia|lia].
    pose proof (H3 (fst picked) (merged_gt_metadata it (snd picked)) "gt"%string) as H3g.
    destruct (fst (transform (fst picked) (merged_gt_metadata it (snd picked)) "gt"))
      as [[vg|vg]|]; [|destruct H3g|exact I].
    destruct (negb (Self.soft_gt self)); [|exact I].
    destruct (Hthr vg (1 # 2)) as [v' ->]. exact I.
  - cbn [assemble]. now eexists _, _.
Qed.

(** Build, then fetch. On a patching dataset whose handlers have
    well-formed ground truths and on which [prepare_indices] returned,
    every fetch at an index of [-len, len) returns a sample, for the
    segmentation task and a pipeline that returns 3-D stacks. *)
Theorem fetch_after_prepare_indices self self' index w :
  Self.is_2d_patch self = true ->
  Self.indexes self = [] ->
  Forall (fun h => gt_well_formed (gt (fst h))) (Self.handlers self) ->
  Self.task self = "segmentation" ->
  stacks_3d ->
  prepare_indices self = (Ok tt, self') ->
  - __len__ self' <= index < __len__ self' ->
  exists d w', __getitem__ self' index w = (Ok d, w').
Proof.
  intros Hp Hi Hwf Htask Hstacks Hrun Hidx.
  assert (Hwb : well_built self' /\ Self.task self' = "segmentation").
  { destruct (prepare_indices_Ok self self' Hrun)
      as [[_ ->]|[L0 [L1 [S0 [S1 [Hl [Hs [Hv ->]]]]]]]].
    - split; [|assumption]. unfold well_built. rewrite Hi. constructor.
    - split; [|assumption]. unfold well_built. cbn. rewrite Hi. cbn.
      apply List.Forall_forall. intros e He.
      apply in_all_tiles in He as [i [h [x [y [Hn [Hx [Hy ->]]]]]]].
      pose proof (proj1 (List.Forall_forall _ _) Hv h (nth_error_In _ _ Hn)) as [Hv0 Hv1].
      apply (spec_starts_bounds _ _ _ _ Hv0) in Hx.
      apply (spec_starts_bounds _ _ _ _ Hv1) in Hy.
      destruct Hv0 as [? [? ?]]. destruct Hv1 as [? [? ?]].
      cbn. split; [exact Hp|]. split; [lia|]. split; [lia|].
      exists h. split; [now apply py_index_nat|].
      exact (proj1 (List.Forall_forall _ _) Hwf h (nth_error_In _ _ Hn)). }
  destruct Hwb as [Hwb Htask'].
  destruct (Z_lt_dec index 0) as [Hneg|Hpos].
  - assert (Heq : __getitem__ self' index w = __getitem__ self' (index + __len__ self') w).
    { unfold __getitem__, bind at 1 3, lift at 1 3. now rewrite resolve_negative by lia. }
    rewrite Heq. apply getitem_inside_returns; (assumption || lia || (intros _; assumption)).
  - apply getitem_inside_returns; (assumption || lia || (intros _; assumption)).
Qed.

End FetchFurther.

Lemma patch_fetch_is_window_of_slice_fetch_witness :
  exists d0 w',
    @__getitem__ stacking ds_slice 0 (fresh_world 0) = (Ok d0, w') /\
    @__getitem__ stacking ds4 0 (fresh_world 0)
    = (Ok (windowed {| x_min := 0; x_max := 4; y_min := 0; y_max := 4;
                       handler_index := 0 |} d0), w').
Proof.
  destruct (@__getitem__ stacking ds_slice 0 (fresh_world 0)) as [[d0|e] w'] eqn:H0;
    [|vm_compute in H0; discriminate].
  exists d0, w'. split; [reflexivity|].
  assert (Hd : fst (@__getitem__ stacking ds_slice 0 (fresh_world 0)) = Ok d0)
    by (now rewrite H0).
  apply (@patch_fetch_is_window_of_slice_fetch stacking ds4 ds_slice 0 0 (fresh_world 0)
           {| x_min := 0; x_max := 4; y_min := 0; y_max := 4; handler_index := 0 |}
           (bundle ramp) d0 w');
    [reflexivity|reflexivity|reflexivity|reflexivity|reflexivity|reflexivity|exact H0
    | | | |cbn; lia|cbn; lia];
    vm_compute in Hd; injection Hd as <-; [now eexists|exact I|exact I].
Defined.

Lemma patch_has_requested_size_witness :
  exists d v',
    @__getitem__ stacking ds4 0 (fresh_world 0)
    = (Ok d, @logged (@pipeline_calls stacking ds4 (bundle ramp) (None, None))
                     (fresh_world 0)) /\
    dd_input d = Some (Tensor3 v') /\
    len v' = 1 /\
    Forall (plane_shape 4 4) v'.
Proof.
  apply (@patch_has_requested_size stacking ds4 0 (fresh_world 0)
           {| x_min := 0; x_max := 4; y_min := 0; y_max := 4; handler_index := 0 |}
           (bundle ramp) (None, None) (fresh_world 0) [ramp]
           None (@merged_gt_metadata stacking (bundle ramp) None));
    [reflexivity|reflexivity|reflexivity|reflexivity|exact I|exact I|reflexivity
    |cbn; lia|cbn; lia|].
  constructor; [|constructor]. split; [vm_compute; discriminate|].
  repeat constructor; vm_compute; discriminate.
Defined.


Lemma fetch_after_prepare_indices_witness :
  exists d w',
    @__getitem__ stacking (snd (prepare_indices ds10)) (-1) (fresh_world 0) = (Ok d, w').
Proof.
  apply (@fetch_after_prepare_indices stacking ds10);
    [reflexivity|reflexivity|repeat constructor|reflexivity
    |exact stacking_stacks_3d|vm_compute; reflexivity
    |split; [vm_compute; discriminate|vm_compute; reflexivity]].
Defined.

(* ===================================================================== *)
(** * Further properties of the transforms *)
(* ===================================================================== *)

(** ** Sums over arrays *)

Lemma sum_Z_app l k : sum_Z (l ++ k) = sum_Z l + sum_Z k.
Proof. induction l as [|x l IH]; cbn; [reflexivity|]. unfold sum_Z in *. lia. Qed.

Lemma sum_imap_zero {A} (l : list A) :
  forall f : nat -> A -> Z,
    (forall i x, List.In x l -> f i x = 0) -> sum_Z (imap f l) = 0.
Proof.
  induction l as [|x l IH]; intros f Hz; [reflexivity|].
  cbn [imap sum_Z fold_right]. fold (sum_Z (imap (f ∘ S) l)).
  rewrite (Hz 0%nat x (or_introl eq_refl)).
  rewrite IH; [reflexivity|]. intros i y Hy. apply Hz. now right.
Qed.

Lemma sum_imap_map_seq {A} (g : nat -> A) n :
  forall (s : nat) (f : nat -> A -> Z),
    sum_Z (imap f (List.map g (seq s n)))
    = sum_Z (List.map (fun i => f i (g (s + i)%nat)) (seq 0 n)).
Proof.
  induction n as [|n IH]; intros s f; [reflexivity|].
  cbn [seq List.map imap sum_Z fold_right].
  fold (sum_Z (imap (f ∘ S) (List.map g (seq (S s) n)))).
  fold (sum_Z (List.map (fun i => f i (g (s + i)%nat)) (seq 1 n))).
  rewrite IH, <- List.seq_shift, List.map_map. rewrite Nat.add_0_r.
  f_equal. f_equal. apply List.map_ext. intros i. cbn. now rewrite Nat.add_succ_r.
Qed.

Lemma sum_Z_map_zero (F : nat -> Z) (l : list nat) :
  (forall i, List.In i l -> F i = 0) -> sum_Z (List.map F l) = 0.
Proof.
  induction l as [|i l IH]; intros Hz; [reflexivity|].
  cbn [List.map sum_Z fold_right]. fold (sum_Z (List.map F l)).
  rewrite (Hz i (or_introl eq_refl)), IH; [reflexivity|].
  intros j Hj. apply Hz. now right.
Qed.

(** A sum with a single non-zero term. *)
Lemma sum_Z_single (F : nat -> Z) (n k : nat) :
  (k < n)%nat -> (forall i, i <> k -> F i = 0) ->
  sum_Z (List.map F (seq 0 n)) = F k.
Proof.
  intros Hk Hz.
  replace n with (k + S (n - k - 1))%nat by lia.
  rewrite List.seq_app, List.map_app, sum_Z_app.
  cbn [Nat.add seq List.map sum_Z fold_right].
  fold (sum_Z (List.map F (seq (S k) (n - k - 1)))).
  rewrite (sum_Z_map_zero F (seq 0 k)), (sum_Z_map_zero F (seq (S k) (n - k - 1))); [lia| |].
  - intros i Hi. apply List.in_seq in Hi. apply Hz. lia.
  - intros i Hi. apply List.in_seq in Hi. apply Hz. lia.
Qed.

Lemma trunc_0 : trunc 0 = 0.
Proof. reflexivity. Qed.

(** The weighted sum of a one-pixel array is the weighted pixel. *)
Lemma weighted_sum_one_hot weight rows cols r c v :
  (r < rows)%nat -> (c < cols)%nat ->
  weighted_sum weight (astype_int (one_hot rows cols r c v))
  = weight (Z.of_nat r) (Z.of_nat c) * trunc v.
Proof.
  intros Hr Hc. unfold weighted_sum, astype_int, one_hot.
  rewrite List.map_map. rewrite sum_imap_map_seq.
  rewrite (sum_Z_single _ rows r Hr).
  - cbn [Nat.add]. rewrite List.map_map, sum_imap_map_seq.
    rewrite (sum_Z_single _ cols c Hc).
    + cbn [Nat.add]. now rewrite !Nat.eqb_refl.
    + intros j Hj. cbn [Nat.add]. rewrite Nat.eqb_refl.
      destruct (Nat.eqb_spec j c); [contradiction|]. cbn. rewrite trunc_0. lia.
  - intros i Hi. cbn [Nat.add]. rewrite List.map_map, sum_imap_map_seq.
    apply sum_Z_map_zero. intros j _. cbn [Nat.add].
    destruct (Nat.eqb_spec i r); [contradiction|]. cbn. rewrite trunc_0. lia.
Qed.

Lemma weighted_sum_zero weight a :
  Forall (Forall (fun v => v = 0)) a -> weighted_sum weight a = 0.
Proof.
  intros Hz. unfold weighted_sum. apply sum_imap_zero. intros r row Hrow.
  apply sum_imap_zero. intros c v Hv.
  pose proof (proj1 (List.Forall_forall _ _) Hz row Hrow) as Hr.
  rewrite (proj1 (List.Forall_forall _ _) Hr v Hv). lia.
Qed.

(** ** Rounding *)

Lemma py_round_comp x y : (x == y)%Q -> py_round x = py_round y.
Proof.
  intros Hxy. unfold py_round. rewrite (Qfloor_comp x y Hxy).
  assert (Hc : (x - inject_Z (Qfloor y) == y - inject_Z (Qfloor y))%Q) by now rewrite Hxy.
  now rewrite (Qcompare_comp _ _ Hc (1 # 2)%Q (1 # 2)%Q (Qeq_refl _)).
Qed.

Lemma py_round_Z z : py_round (inject_Z z) = z.
Proof.
  unfold py_round. rewrite Qfloor_Z.
  assert (Hc : (inject_Z z - inject_Z z == 0)%Q) by ring.
  now rewrite (Qcompare_comp _ _ Hc (1 # 2)%Q (1 # 2)%Q (Qeq_refl _)).
Qed.

Lemma py_round_quotient z k : k <> 0 -> py_round (inject_Z (z * k) / inject_Z k) = z.
Proof.
  intros Hk. rewrite <- (py_round_Z z) at 2. apply py_round_comp.
  rewrite inject_Z_mult. apply Qdiv_mult_l.
  intros H0. apply Hk. unfold Qeq in H0. cbn in H0. lia.
Qed.

(** ** [ROICrop2D.__call__] *)


Section TransformsFurther.
Context `{Libraries}.


(** A ROI without any entry of absolute value 1 or more (an empty mask,
    or a soft mask below 1) makes [ROICrop2D.__call__] raise ValueError:
    the mask is truncated to integers, its centre of mass is then
    undefined, and rounding it fails. *)
Theorem ROICrop2D_call_empty_roi self sample :
  Forall (Forall (fun v => trunc v = 0)) (s_roi sample) ->
  ROICrop2D_call self sample = Raise ValueError.
Proof.
  intros Hz. unfold ROICrop2D_call, center_of_mass.
  rewrite weighted_sum_zero; [reflexivity|].
  unfold astype_int. apply List.Forall_map.
  eapply List.Forall_impl; [|exact Hz]. intros row Hrow. now apply List.Forall_map.
Qed.

(** For a ROI with a single non-zero pixel, at row r and column c, the
    input is cropped to the th x tw window whose top row is
    c - round(th / 2) and whose left column is r - round(tw / 2): the
    vertical offset comes from the column of the ROI pixel and the
    horizontal offset from its row. *)
Theorem ROICrop2D_call_one_pixel_roi self sample rows cols r c v :
  s_roi sample = one_hot rows cols r c v ->
  (r < rows)%nat -> (c < cols)%nat -> trunc v <> 0 ->
  exists out,
    ROICrop2D_call self sample = Ok out /\
    s_input out
    = F_crop (s_input sample)
             (Z.of_nat c - py_round (inject_Z (fst (ROICrop2D.size self)) / 2))
             (Z.of_nat r - py_round (inject_Z (snd (ROICrop2D.size self)) / 2))
             (fst (ROICrop2D.size self)) (snd (ROICrop2D.size self)).
Proof.
  intros Hroi Hr Hc Hv. unfold ROICrop2D_call, center_of_mass. rewrite Hroi.
  rewrite !weighted_sum_one_hot by assumption.
  destruct (Z.eqb_spec (1 * trunc v) 0) as [H0|_]; [lia|].
  cbv zeta. cbn [fst snd].
  replace (1 * trunc v) with (trunc v) by lia.
  rewrite !py_round_quotient by assumption.
  destruct (ROICrop2D.labeled self); eexists; (split; [reflexivity|reflexivity]).
Qed.

End TransformsFurther.


Lemma ROICrop2D_call_empty_roi_witness :
  @ROICrop2D_call reference_libraries crop_2x2 soft_roi_sample = Raise ValueError.
Proof.
  apply (@ROICrop2D_call_empty_roi reference_libraries crop_2x2 soft_roi_sample).
  repeat constructor.
Defined.

Lemma ROICrop2D_call_one_pixel_roi_witness :
  exists out,
    @ROICrop2D_call reference_libraries crop_2x2 pixel_sample = Ok out /\
    s_input out = F_crop ramp 1 (-1) 2 2.
Proof.
  apply (@ROICrop2D_call_one_pixel_roi reference_libraries crop_2x2 pixel_sample
           4 4 0 2 1); [reflexivity|lia|lia|discriminate].
Defined.


(** ** [DilateGT.dilate_lesion] *)

Lemma positive_mask_rows a : positive_mask a = List.map (List.map positive) a.
Proof. reflexivity. Qed.

(** One pass of the loop over one row. *)
Lemma dilate_row lb (row : list Q) :
  (0 < lb)%Q -> Forall (fun v => 0 <= v)%Q row ->
  forall drow : list bool,
    Forall2 (fun b (d : bool) => nonzero_Z b = true -> d = true)
            (List.map positive row) drow ->
    Forall2 (fun v v1 => (0 <= v1)%Q /\ ((v1 == v)%Q \/ ((v == 0)%Q /\ (v1 == lb)%Q)))
            row
            (map2 Qplus row
               (List.map (fun n => lb * inject_Z n)%Q
                  (map2 (fun (d : bool) b => if xorb d (nonzero_Z b) then 1 else 0)
                        drow (List.map positive row)))).
Proof.
  intros Hlb Hrow. induction Hrow as [|v row Hv _ IH]; intros drow Hd.
  - constructor.
  - cbn [List.map] in Hd. inversion Hd as [|b d bs ds Hbd Hrest]; subst.
    cbn [List.map map2]. constructor; [|now apply IH].
    unfold positive in *. destruct (Qle_bool v 0) eqn:Hle.
    + apply Qle_bool_iff in Hle. cbn [nonzero_Z Z.eqb negb xorb].
      destruct d; cbn [xorb]; unfold inject_Z.
      * split; [lra|]. right. split; lra.
      * split; [lra|]. left. lra.
    + rewrite (Hbd eq_refl). cbn [xorb nonzero_Z Z.eqb negb]. unfold inject_Z.
      split; [lra|]. left. lra.
Qed.

Lemma Forall2_compose {A B C} (P : A -> B -> Prop) (Q : B -> C -> Prop) (R : A -> C -> Prop)
    (l1 : list A) (l2 : list B) (l3 : list C) :
  (forall a b c, P a b -> Q b c -> R a c) ->
  Forall2 P l1 l2 -> Forall2 Q l2 l3 -> Forall2 R l1 l3.
Proof.
  intros HR H12. revert l3. induction H12 as [|a b l1 l2 Hab _ IH]; intros l3 H23.
  - inversion H23. constructor.
  - inversion H23 as [|? c ? l3' Hbc Hrest]; subst. constructor; [eauto|now apply IH].
Qed.

Lemma Forall2_diag {A} (R : A -> A -> Prop) (l : list A) :
  (forall x, R x x) -> Forall2 R l l.
Proof. intros HR. induction l; constructor; auto. Qed.

Section DilateLesion.
Context `{Libraries}.
Hypothesis dilation_extensive : extensive binary_dilation.

(** One pass of the loop of [dilate_lesion] over the whole array. *)
Lemma dilate_pass lb (arr_soft : array) :
  (0 < lb)%Q -> Forall (Forall (fun v => 0 <= v)%Q) arr_soft ->
  Forall2 (Forall2 (fun v v1 => (0 <= v1)%Q /\ ((v1 == v)%Q \/ ((v == 0)%Q /\ (v1 == lb)%Q))))
          arr_soft
          (array_map2 Qplus arr_soft
             (List.map (List.map (fun n => lb * inject_Z n)%Q)
                (array_map2 (fun (d : bool) b => if xorb d (nonzero_Z b) then 1 else 0)
                            (binary_dilation (positive_mask arr_soft))
                            (positive_mask arr_soft)))).
Proof.
  intros Hlb Hsoft. pose proof (dilation_extensive (positive_mask arr_soft)) as Hd.
  rewrite positive_mask_rows in *. unfold array_map2.
  revert Hd. generalize (binary_dilation (List.map (List.map positive) arr_soft)).
  induction Hsoft as [|row rows Hrow _ IH]; intros d Hd.
  - constructor.
  - cbn [List.map] in Hd. inversion Hd as [|? drow ? ds Hdrow Hrest]; subst.
    cbn [List.map map2]. constructor; [|now apply IH].
    now apply dilate_row.
Qed.

Lemma dilate_lesion_voxels_aux label_values :
  Forall (fun lb => 0 < lb)%Q label_values ->
  forall arr_soft,
    Forall (Forall (fun v => 0 <= v)%Q) arr_soft ->
    let out := dilate_lesion (positive_mask arr_soft) arr_soft label_values in
    fst out = positive_mask (snd out) /\
    Forall2 (Forall2 (dilated_voxel label_values)) arr_soft (snd out).
Proof.
  induction 1 as [|lb rest Hlb _ IH]; intros arr_soft Hsoft; cbv zeta.
  - cbn [dilate_lesion fst snd]. split; [reflexivity|].
    apply Forall2_diag. intros row. apply Forall2_diag. intros v. now left.
  - cbn [dilate_lesion].
    pose proof (dilate_pass lb arr_soft Hlb Hsoft) as Hpass.
    set (arr_soft1 := array_map2 Qplus arr_soft _) in *.
    assert (Hsoft1 : Forall (Forall (fun v => 0 <= v)%Q) arr_soft1).
    { clearbody arr_soft1. clear -Hpass.
      induction Hpass as [|row row1 rows rows1 Hrow _ IHp]; constructor; [|assumption].
      clear -Hrow. induction Hrow as [|v v1 row row1 [Hv1 _] _ IHr]; now constructor. }
    destruct (IH arr_soft1 Hsoft1) as [Hbin Hrest]. split; [exact Hbin|].
    eapply Forall2_compose; [|exact Hpass|exact Hrest].
    intros row row1 row'. apply Forall2_compose.
    intros v v1 v' [_ Hstep] Hlater. unfold dilated_voxel in *.
    destruct Hstep as [Hsame|[Hzero Hlbv]].
    + destruct Hlater as [Hl|[Hz [lb' [Hin Hl]]]].
      * left. now rewrite Hl.
      * right. split; [now rewrite <- Hsame|]. exists lb'. split; [now right|assumption].
    + destruct Hlater as [Hl|[Hz [lb' [Hin Hl]]]].
      * right. split; [assumption|]. exists lb. split; [now left|]. now rewrite Hl.
      * exfalso. rewrite Hlbv in Hz. rewrite Hz in Hlb. now apply Qlt_irrefl in Hlb.
Qed.

(** [dilate_lesion] on a non-negative soft mask and its binary mask,
    with positive label values, under the contract of [binary_dilation]:
    the arrays keep their shape, a voxel that was positive keeps its
    value, a voxel that was zero stays zero or receives exactly one of
    the label values, and the binary array returned is the mask of the
    positive voxels of the soft array returned. *)
Theorem dilate_lesion_voxels arr_bin arr_soft label_values :
  arr_bin = positive_mask arr_soft ->
  Forall (Forall (fun v => 0 <= v)%Q) arr_soft ->
  Forall (fun lb => 0 < lb)%Q label_values ->
  fst (dilate_lesion arr_bin arr_soft label_values)
  = positive_mask (snd (dilate_lesion arr_bin arr_soft label_values)) /\
  Forall2 (Forall2 (dilated_voxel label_values)) arr_soft
          (snd (dilate_lesion arr_bin arr_soft label_values)).
Proof.
  intros -> Hsoft Hlbs. exact (dilate_lesion_voxels_aux label_values Hlbs arr_soft Hsoft).
Qed.

End DilateLesion.

Lemma reference_dilation_extensive : extensive (@binary_dilation reference_libraries).
Proof.
  intros a. cbn [binary_dilation reference_libraries].
  induction a as [|row a IH]; constructor; [|exact IH].
  induction row as [|b row IHr]; constructor; [|exact IHr]. intros Hb. exact Hb.
Defined.

Lemma dilate_lesion_voxels_witness :
  fst (@dilate_lesion reference_libraries (positive_mask one_voxel) one_voxel [(1 # 2)%Q])
  = positive_mask
      (snd (@dilate_lesion reference_libraries (positive_mask one_voxel) one_voxel
              [(1 # 2)%Q])) /\
  Forall2 (Forall2 (dilated_voxel [(1 # 2)%Q])) one_voxel
          (snd (@dilate_lesion reference_libraries (positive_mask one_voxel) one_voxel
                  [(1 # 2)%Q])).
Proof.
  apply (@dilate_lesion_voxels reference_libraries reference_dilation_extensive);
    [reflexivity| |repeat constructor].
  repeat constructor; discriminate.
Defined.

(** ** [DilateGT.random_holes] *)

Lemma nth_error_imap {A B} (l : list A) :
  forall (f : nat -> A -> B) (i : nat),
    nth_error (imap f l) i = option_map (f i) (nth_error l i).
Proof.
  induction l as [|x l IH]; intros f i; [now destruct i|].
  destruct i as [|i]; [reflexivity|]. cbn [imap nth_error]. now rewrite IH.
Qed.

Lemma nth_error_map2 {A B C} (f : A -> B -> C) (a : list A) :
  forall (b : list B) (i : nat) (z : C),
    nth_error (map2 f a b) i = Some z ->
    exists x y, nth_error a i = Some x /\ nth_error b i = Some y /\ z = f x y.
Proof.
  induction a as [|x a IH]; intros b i z Hz; [now destruct i|].
  destruct b as [|y b]; [now destruct i|]. destruct i as [|i]; cbn in Hz.
  - injection Hz as <-. now exists x, y.
  - cbn [nth_error]. now apply IH.
Qed.

Lemma entry_array_map2 {A B C} (f : A -> B -> C) a b r c z :
  entry (array_map2 f a b) r c = Some z ->
  exists x y, entry a r c = Some x /\ entry b r c = Some y /\ z = f x y.
Proof.
  unfold entry, array_map2. intros Hz.
  destruct (nth_error (map2 (map2 f) a b) r) as [row|] eqn:Hrow; [|discriminate].
  apply nth_error_map2 in Hrow as [ra [rb [-> [-> ->]]]].
  now apply nth_error_map2.
Qed.

Lemma in_concat_imap {A B} (F : nat -> A -> list B) (l : list A) (y : B) :
  forall (s : nat),
    List.In y (List.concat (imap (fun i => F (s + i)%nat) l)) ->
    exists i x, nth_error l i = Some x /\ List.In y (F (s + i)%nat x).
Proof.
  induction l as [|x l IH]; intros s Hy; [destruct Hy|].
  cbn [imap List.concat] in Hy. apply List.in_app_or in Hy as [Hy|Hy].
  - now exists 0%nat, x.
  - assert (Hs : List.In y (List.concat (imap (fun i => F (S s + i)%nat) l))).
    { erewrite imap_ext; [exact Hy|]. intros i z _. cbn. now rewrite Nat.add_succ_r. }
    destruct (IH (S s) Hs) as [i [z [Hn Hin]]]. exists (S i), z.
    split; [assumption|]. now rewrite Nat.add_succ_r.
Qed.

(** [np.where] lists positions of true entries only. *)
Lemma np_where_entry mask r c :
  List.In (r, c) (np_where mask) -> entry mask r c = Some true.
Proof.
  unfold np_where, entry. intros Hin.
  apply (in_concat_imap
           (fun r row => List.concat (imap (fun c (b : bool) => if b then [(r, c)] else []) row))
           mask (r, c) 0) in Hin as [i [row [Hrow Hin]]].
  cbn [Nat.add] in Hin.
  apply (in_concat_imap (fun c (b : bool) => if b then [(i, c)] else []) row (r, c) 0)
    in Hin as [j [b [Hb Hin]]].
  cbn [Nat.add] in Hin. destruct b; [|destruct Hin].
  destruct Hin as [Heq|[]]. injection Heq as <- <-. now rewrite Hrow.
Qed.

Lemma entry_zero_at positions a r c :
  entry (zero_at positions a) r c = entry a r c \/
  (entry (zero_at positions a) r c = Some 0%Q /\ List.In (r, c) positions).
Proof.
  unfold entry, zero_at. rewrite nth_error_imap.
  destruct (nth_error a r) as [row|]; [|now left]. cbn [option_map].
  rewrite nth_error_imap. destruct (nth_error row c) as [v|]; [|now left].
  cbn [option_map].
  destruct (existsb _ positions) eqn:He; [|now left]. right. split; [reflexivity|].
  apply List.existsb_exists in He as [[pr pc] [Hin Hp]]. cbn [fst snd] in Hp.
  apply andb_prop in Hp as [Hr Hc].
  apply Nat.eqb_eq in Hr, Hc. now subst.
Qed.

Section RandomHoles.
Context `{Libraries}.
Hypothesis sample_of_population :
  forall population k, incl (random_sample population k) population.

(** On 2-D arrays [random_holes] returns, and it only makes holes in
    the dilation ring: every voxel of the soft array it returns is the
    voxel of [arr_soft], or is 0 at a position where [arr_bin] and
    [arr_in] disagree; the binary array returned is the mask of the
    positive voxels of the soft one. (The three arrays have one shape, as
    numpy requires of them.) *)
Theorem random_holes_only_in_ring arr_in arr_soft arr_bin :
  same_shape arr_in arr_bin -> same_shape arr_soft arr_bin ->
  exists out,
    random_holes arr_in (Array2 arr_soft) (Array2 arr_bin) = Ok (out, positive_mask out) /\
    forall r c,
      entry out r c = entry arr_soft r c \/
      (entry out r c = Some 0%Q /\ in_ring arr_in arr_bin r c).
Proof.
  intros _ _. unfold random_holes, logical_xor.
  set (mask := array_map2 (fun b v => xorb (nonzero_Z b) (nonzero_Q v)) arr_bin arr_in).
  unfold len. rewrite range_len.
  set (idx := random_sample _ _).
  assert (Hidx : Forall (fun i => exists p, py_index (np_where mask) i = Ok p) idx).
  { apply List.Forall_forall. intros i Hi. apply sample_of_population in Hi.
    apply List.in_map_iff in Hi as [k [<- Hk]]. apply List.in_seq in Hk.
    destruct (py_index_inside (np_where mask) (Z.of_nat k)) as [p [Hp _]];
      [unfold len; lia|now exists p]. }
  destruct (map_result_Ok _ _ Hidx) as [removed Hrem]. rewrite Hrem.
  eexists. split; [reflexivity|]. intros r c.
  destruct (entry_zero_at removed arr_soft r c) as [Hsame|[Hzero Hin]]; [now left|].
  right. split; [assumption|].
  apply map_result_Forall2 in Hrem.
  assert (Hnew : List.In (r, c) (np_where mask)).
  { clear -Hrem Hin. induction Hrem as [|i p idx removed Hp _ IH]; [destruct Hin|].
    destruct Hin as [->|Hin]; [|now apply IH]. now apply py_index_Ok in Hp. }
  apply np_where_entry in Hnew. subst mask.
  apply entry_array_map2 in Hnew as [b [v [Hb [Hv Hx]]]].
  now exists b, v.
Qed.

End RandomHoles.

Lemma random_holes_only_in_ring_witness :
  exists out,
    @random_holes reference_libraries one_voxel (Array2 one_voxel_dilated)
       (Array2 one_voxel_dilated_bin)
    = Ok (out, positive_mask out) /\
    forall r c,
      entry out r c = entry one_voxel_dilated r c \/
      (entry out r c = Some 0%Q /\ in_ring one_voxel one_voxel_dilated_bin r c).
Proof.
  apply (@random_holes_only_in_ring reference_libraries).
  - intros population k x Hx. cbn [random_sample reference_libraries] in Hx.
    apply list_elem_of_In. apply list_elem_of_In in Hx.
    eapply subseteq_take, Hx.
  - repeat constructor.
  - repeat constructor.
Defined.

(* ===================================================================== *)
(** * Further error paths *)
(* ===================================================================== *)

(** A handler without any input array stops [prepare_indices] with
    IndexError, raised by [input_img[0]] before the length and the stride
    are looked at; the patches of the well-formed handlers before it
    have been appended and stay. *)
Theorem prepare_indices_handler_without_input self L0 L1 S0 S1 good bad rest :
  Self.length self = [L0; L1] ->
  Self.stride self = [S0; S1] ->
  Self.handlers self = good ++ bad :: rest ->
  Forall (valid_handler L0 L1 S0 S1) good ->
  input (fst bad) = [] ->
  prepare_indices self
  = (Raise IndexError, extend_indexes (all_tiles 0 L0 L1 S0 S1 good) self).
Proof.
  intros Hl Hs Hh Hv Hin. rewrite prepare_indices_unfold, Hh.
  rewrite List.length_app, List.seq_app, List.map_app, for_each_app.
  assert (Hsetup : same_setup [L0; L1] [S0; S1] (good ++ bad :: rest) self)
    by (repeat split; assumption).
  pose proof (prepare_loop_prefix L0 L1 S0 S1 (good ++ bad :: rest) good (bad :: rest)
                [] self eq_refl Hsetup Hv) as Hgood.
  cbn [List.length] in Hgood. rewrite Hgood.
  cbn [List.length seq List.map for_each Nat.add]. unfold bind.
  rewrite (prepare_handler_no_input (List.length good) bad [L0; L1] [S0; S1]
             (good ++ bad :: rest)
             (extend_indexes (all_tiles 0 L0 L1 S0 S1 good) self) Hsetup);
    [reflexivity| |assumption].
  rewrite List.nth_error_app2 by lia. now rewrite Nat.sub_diag.
Qed.

Lemma prepare_indices_handler_without_input_witness :
  prepare_indices ds_blank
  = (Raise IndexError,
     extend_indexes (all_tiles 0 4 4 3 3 [bundle (zeros 10 10)]) ds_blank).
Proof.
  apply (prepare_indices_handler_without_input ds_blank 4 4 3 3
           [bundle (zeros 10 10)] (preprocessed blank_slice) []);
    [reflexivity|reflexivity|reflexivity|exact ds10_valid|reflexivity].
Defined.

Lemma py_index_raises {A} (l : list A) (i : Z) e : py_index l i = Raise e -> e = IndexError.
Proof.
  unfold py_index. destruct (_ <? 0); [congruence|].
  destruct (nth_error l _); congruence.
Qed.

Lemma pick_class_raises idx_rater class e :
  pick_class idx_rater class = Raise e -> e = IndexError.
Proof.
  unfold pick_class. destruct (py_index (fst class) idx_rater) eqn:Ha.
  - destruct (py_index (snd class) idx_rater) eqn:Hm; [discriminate|].
    intros Heq. injection Heq as <-. now apply py_index_raises in Hm.
  - intros Heq. injection Heq as <-. now apply py_index_raises in Ha.
Qed.

Lemma map_result_raises {A B} (f : A -> result B) (l : list A) (x : A) e :
  List.In x l -> f x = Raise e ->
  exists y e', List.In y l /\ f y = Raise e' /\ map_result f l = Raise e'.
Proof.
  intros Hin Hx. induction l as [|a l IH]; [destruct Hin|].
  cbn [map_result]. destruct (f a) as [b|ea] eqn:Ha.
  - destruct Hin as [->|Hin]; [congruence|].
    destruct (IH Hin) as [y [e' [Hy [Hfy ->]]]]. exists y, e'. split; [now right|]. now split.
  - exists a, ea. split; [now left|]. now split.
Qed.

Section RaterErrors.
Context `{Collaborators}.

(** The rater is drawn among the raters of the first class only. When
    the drawn position does not exist in some other class, the fetch
    raises IndexError right after the draw: the generator has advanced
    by one and no transform has been called. *)
Theorem multi_rater_short_class_raises self index w coord it classes class0 class :
  resolve self index = Ok (coord, it) ->
  gt (fst it) = MultiRater classes ->
  py_index classes 0 = Ok class0 ->
  0 < len (fst class0) ->
  List.In class classes ->
  len (fst class) <= Z.modulo (entropy w (cursor w)) (len (fst class0)) ->
  exists w',
    __getitem__ self index w = (Raise IndexError, w') /\
    cursor w' = S (cursor w) /\
    calls w' = calls w ++ [RandInt 0 (len (fst class0) - 1)
                                   (Z.modulo (entropy w (cursor w)) (len (fst class0)))].
Proof.
  intros Hr Hgt H0 Hpos Hin Hshort.
  pose proof (Z.mod_pos_bound (entropy w (cursor w)) (len (fst class0)) Hpos) as Hb.
  assert (Hfail : pick_class (Z.modulo (entropy w (cursor w)) (len (fst class0))) class
                  = Raise IndexError).
  { unfold pick_class. now rewrite py_index_outside by lia. }
  destruct (map_result_raises _ classes class IndexError Hin Hfail)
    as [y [e' [_ [Hy Hmap]]]].
  apply pick_class_raises in Hy. subst e'.
  eexists. split; [|split].
  - apply (getitem_rater_failed self index w coord it). { exact Hr. }
    rewrite Hgt, pick_rater_multi, H0. cbv zeta.
    destruct (Z.ltb_spec (len (fst class0) - 1) 0); [lia|].
    replace (len (fst class0) - 1 - 0 + 1) with (len (fst class0)) by lia.
    rewrite Z.add_0_l, Hmap. reflexivity.
  - reflexivity.
  - cbn [calls]. reflexivity.
Qed.

End RaterErrors.

Lemma multi_rater_short_class_raises_witness :
  exists w',
    @__getitem__ stacking ds_uneven 0 (fresh_world 4) = (Raise IndexError, w') /\
    cursor w' = 1%nat /\
    calls w' = [] ++ [RandInt 0 2 1].
Proof.
  apply (@multi_rater_short_class_raises stacking ds_uneven 0 (fresh_world 4) None
           uneven_item uneven_classes
           ([[[inject_Z 10]]; [[inject_Z 11]]; [[inject_Z 12]]],
            [{["rater" := VInt 0]}; {["rater" := VInt 1]}; {["rater" := VInt 2]}])
           ([[[inject_Z 20]]], [{["rater" := VInt 0]}]));
    [reflexivity|reflexivity|reflexivity|reflexivity|right; left; reflexivity
    |vm_compute; discriminate].
Defined.

(* ===================================================================== *)
(** * [DilateGT.post_processing] *)
(* ===================================================================== *)

Lemma entry_map {A B} (g : A -> B) (a : list (list A)) r c :
  entry (List.map (List.map g) a) r c = option_map g (entry a r c).
Proof.
  unfold entry. rewrite List.nth_error_map.
  destruct (nth_error a r) as [row|]; [|reflexivity]. cbn [option_map].
  apply List.nth_error_map.
Qed.

Lemma nth_error_map2_Some {A B C} (f : A -> B -> C) (a : list A) :
  forall (b : list B) (i : nat) x y,
    nth_error a i = Some x -> nth_error b i = Some y ->
    nth_error (map2 f a b) i = Some (f x y).
Proof.
  induction a as [|x0 a IH]; intros b i x y Hx Hy; [now destruct i|].
  destruct b as [|y0 b]; [now destruct i|]. destruct i as [|i]; cbn in *.
  - congruence.
  - now apply IH.
Qed.

Lemma entry_array_map2_Some {A B C} (f : A -> B -> C) a b r c x y :
  entry a r c = Some x -> entry b r c = Some y ->
  entry (array_map2 f a b) r c = Some (f x y).
Proof.
  unfold entry, array_map2. intros Hx Hy.
  destruct (nth_error a r) as [ra|] eqn:Ha; [|discriminate].
  destruct (nth_error b r) as [rb|] eqn:Hb; [|discriminate].
  rewrite (nth_error_map2_Some (map2 f) a b r ra rb Ha Hb).
  now apply nth_error_map2_Some.
Qed.

Lemma sum_Z_nonneg l : Forall (fun x => 0 <= x) l -> 0 <= sum_Z l.
Proof. induction 1 as [|x l Hx _ IH]; cbn; [lia|]. unfold sum_Z in IH. lia. Qed.

Lemma sum_Z_ge l i x : Forall (fun x => 0 <= x) l -> nth_error l i = Some x -> x <= sum_Z l.
Proof.
  intros Hl. revert i. induction Hl as [|y l Hy Hl IH]; intros i Hx; [now destruct i|].
  pose proof (sum_Z_nonneg l Hl) as Hs. destruct i as [|i]; cbn in *.
  - injection Hx as ->. unfold sum_Z in Hs. lia.
  - specialize (IH i Hx). unfold sum_Z in IH. lia.
Qed.

(** An array of non-negative entries sums to at least any one of them. *)
Lemma np_sum_Z_ge a r c x :
  Forall (Forall (fun x => 0 <= x)) a -> entry a r c = Some x -> x <= np_sum_Z a.
Proof.
  unfold entry, np_sum_Z. intros Ha Hx.
  destruct (nth_error a r) as [row|] eqn:Hrow; [|discriminate].
  pose proof (proj1 (List.Forall_forall _ _) Ha row (nth_error_In _ _ Hrow)) as Hr.
  pose proof (sum_Z_ge row c x Hr Hx) as Hle.
  assert (Hsum : sum_Z row <= sum_Z (List.map sum_Z a)).
  { apply (sum_Z_ge _ r); [|now rewrite List.nth_error_map, Hrow].
    apply List.Forall_map. eapply List.Forall_impl; [|exact Ha].
    intros l. apply sum_Z_nonneg. }
  lia.
Qed.

Section PostProcessing.
Context `{Libraries}.

(** The removal loop leaves a voxel alone when its label is the label
    of a voxel of the input mask. *)
Lemma drop_unconnected_keeps arr_labeled connected_to_in r c r' c' l q v lbs :
  entry arr_labeled r c = Some l ->
  entry connected_to_in r' c' = Some q -> (q == inject_Z l)%Q ->
  forall arr_soft,
    entry arr_soft r c = Some v ->
    entry (fold_left (drop_unconnected arr_labeled connected_to_in) lbs arr_soft) r c = Some v.
Proof.
  intros Hl Hconn Hq. induction lbs as [|lb lbs IH]; intros arr_soft Hv; [exact Hv|].
  cbn [fold_left]. apply IH. unfold drop_unconnected.
  destruct (Z.eqb_spec
              (np_sum_Z (List.map (List.map (fun v => if Qeq_bool v (inject_Z lb) then 1 else 0))
                                  connected_to_in))
              0) as [Hsum|_]; [|exact Hv].
  rewrite (entry_array_map2_Some _ _ _ _ _ _ _ Hl Hv).
  destruct (Z.eqb_spec l lb) as [->|_]; [|reflexivity].
  exfalso.
  assert (Hone : entry (List.map (List.map (fun v => if Qeq_bool v (inject_Z lb) then 1 else 0))
                                 connected_to_in)
                       r' c' = Some 1).
  { rewrite entry_map, Hconn. cbn [option_map].
    now rewrite (proj2 (Qeq_bool_iff q (inject_Z lb)) Hq). }
  apply np_sum_Z_ge in Hone; [lia|].
  apply List.Forall_map, List.Forall_forall. intros row _.
  apply List.Forall_map, List.Forall_forall. intros x _.
  destruct (Qeq_bool x (inject_Z lb)); lia.
Qed.

(** [post_processing] returns, and a voxel that is positive in
    [arr_soft] and carries the label of some voxel of the input mask
    comes out with its value in [arr_dil], provided [binary_closing] and
    [binary_fill_holes] keep that voxel when it is set (scipy's closing
    keeps every set voxel that is not on the border of the image, its
    hole filling keeps every set voxel). Objects connected to the input
    are never removed, and what is returned for them is the dilated
    value, also where [random_holes] had lowered it. This holds
    whatever labelling [label] returns. *)
Theorem post_processing_keeps_connected arr_in arr_soft arr_bin arr_dil r c r' c' l v d vin :
  (forall a, entry a r c = Some true -> entry (binary_closing a) r c = Some true) ->
  (forall a, entry a r c = Some true -> entry (binary_fill_holes a) r c = Some true) ->
  entry (fst (label arr_bin)) r c = Some l ->
  entry arr_soft r c = Some v -> (0 < v)%Q ->
  entry arr_dil r c = Some d ->
  entry (fst (label arr_bin)) r' c' = Some l ->
  entry arr_in r' c' = Some vin -> (vin == 1)%Q ->
  exists out,
    post_processing arr_in arr_soft arr_bin (Array2 arr_dil) = Ok out /\
    entry out r c = Some d.
Proof.
  intros Hclose Hfill Hl Hv Hpos Hd Hl' Hvin Hone. unfold post_processing.
  rewrite py_range_pos by lia. eexists. split; [reflexivity|].
  set (connected := array_map2 (fun l v => inject_Z l * v)%Q (fst (label arr_bin)) arr_in).
  assert (Hconn : entry connected r' c' = Some (inject_Z l * vin)%Q).
  { subst connected. now rewrite (entry_array_map2_Some _ _ _ _ _ _ _ Hl' Hvin). }
  assert (Hq : (inject_Z l * vin == inject_Z l)%Q) by (rewrite Hone; ring).
  pose proof (drop_unconnected_keeps (fst (label arr_bin)) connected r c r' c' l _ v
                (range_items 1 (snd (label arr_bin) + 1) 1) Hl Hconn Hq arr_soft Hv) as Hkept.
  set (arr_soft' := fold_left (drop_unconnected (fst (label arr_bin)) connected)
                              (range_items 1 (snd (label arr_bin) + 1) 1) arr_soft) in *.
  assert (Hmask : entry (List.map (List.map (fun v => negb (Qle_bool v 0))) arr_soft') r c
                  = Some true).
  { rewrite entry_map, Hkept. cbn [option_map]. f_equal.
    destruct (Qle_bool v 0) eqn:Hle; [|reflexivity].
    apply Qle_bool_iff in Hle. exfalso. apply (Qlt_not_le _ _ Hpos Hle). }
  now rewrite (entry_array_map2_Some _ _ _ _ _ _ _ (Hfill _ (Hclose _ Hmask)) Hd).
Qed.

End PostProcessing.

Lemma post_processing_keeps_connected_witness :
  exists out,
    @post_processing reference_libraries one_voxel one_voxel_dilated
       one_voxel_dilated_bin (Array2 one_voxel_dilated) = Ok out /\
    entry out 0 1 = Some (1 # 2)%Q.
Proof.
  apply (@post_processing_keeps_connected reference_libraries
           one_voxel one_voxel_dilated one_voxel_dilated_bin one_voxel_dilated
           0%nat 1%nat 1%nat 1%nat 1 (1 # 2)%Q (1 # 2)%Q 1%Q);
    [intros a Ha; exact Ha|intros a Ha; exact Ha
    |reflexivity|reflexivity|reflexivity|reflexivity|reflexivity|reflexivity|reflexivity].
Defined.

(* ===================================================================== *)
(** * [DilateGT.__call__] *)
(* ===================================================================== *)

Lemma map_result_py_index_raises {A} (l : list A) (idx : list Z) e :
  map_result (py_index l) idx = Raise e -> e = IndexError.
Proof.
  induction idx as [|i idx IH]; cbn [map_result]; [discriminate|].
  destruct (py_index l i) eqn:Hi.
  - destruct (map_result (py_index l) idx); [discriminate|].
    intros Heq. apply IH. congruence.
  - intros Heq. injection Heq as <-. now apply py_index_raises in Hi.
Qed.

Section DilateCall.
Context `{Libraries}.

(** With no object to dilate, [dilate_arr] sums two empty lists and
    returns 0-d values, on which [random_holes] fails. *)
Lemma random_holes_0d arr_in x b : random_holes arr_in (Array0 x) (Array0 b) = Raise IndexError.
Proof.
  unfold random_holes, len. rewrite range_len.
  destruct (map_result _ _) as [removed|e] eqn:Hm; [reflexivity|].
  now rewrite (map_result_py_index_raises _ _ _ Hm).
Qed.

(** [DilateGT.__call__] never dilates. With a dilation factor that is not
    positive or a ground truth that sums to zero it returns the sample as
    it is. Otherwise it raises: NameError at [math.sqrt] as soon as
    [label] finds an object, and IndexError in [random_holes] when
    [label] finds none (a ground truth whose values all truncate to 0),
    since [dilate_arr] then returns 0-d values. *)
Theorem DilateGT_call_outcomes self sample :
  DilateGT_call self sample
  = if negb (Qle_bool (DilateGT.dil_factor self) 0) && nonzero_Q (np_sum_Q (s_gt sample))
    then if 1 <=? snd (label (astype_int (s_gt sample)))
         then Raise (NameError "math")
         else Raise IndexError
    else Ok sample.
Proof.
  unfold DilateGT_call.
  destruct (negb (Qle_bool (DilateGT.dil_factor self) 0)
            && nonzero_Q (np_sum_Q (s_gt sample))); [|reflexivity].
  unfold dilate_arr. rewrite py_range_pos by lia.
  destruct (Z.leb_spec 1 (snd (label (astype_int (s_gt sample))))) as [Hl|Hl].
  - rewrite range_items_cons by lia. cbn [fold_result].
    unfold dilate_object. reflexivity.
  - rewrite range_items_nil by lia.
    cbn [fold_result fst snd sum_axis0 nd_map]. now rewrite random_holes_0d.
Qed.

End DilateCall.
